(** * PyRKViewer: property forms, multi-node transforms and the arrow-tip designer

    A shallow embedding of [rkviewer/forms.py], [plugins/arrow_designer.py]
    and [rkviewer/types.py], with the theorems that settle the specification
    claims about them.

    Conventions of the embedding.
    - In the handlers Python [float] values are modelled by exact rationals
      ([Qc]); rounding error, infinities and NaN are outside that model.
      The multi-node transforms and the range test of the float fields,
      where they matter, are embedded a second time over binary64 numbers,
      in [Float64].  Pixel and grid coordinates of the arrow designer are
      Python [int]s, modelled by [Z].
    - Python [str] is modelled by [string]: characters with code points
      below 256.
    - A method that mutates [self] is a computation in the state-and-exception
      monad [M S], where [S] is the record of the object's fields; an
      exception leaves the state as it was when it was raised.
    - Calls on the controller are appended to a log kept in the state. *)

From Stdlib Require Import ZArith QArith Qcanon Lia Ascii String.
From Stdlib Require PrimFloat.
From stdpp Require Import base decidable option list numbers strings gmap sets sorting pretty.

Local Open Scope Z_scope.

(** ** Python runtime: exceptions and the state monad *)

Module Py.

Inductive exn : Set :=
| AssertionError
| ValueError
| ZeroDivisionError
| AttributeError
| IndexError.

Inductive result (A : Type) : Type :=
| Ok (a : A)
| Raise (e : exn).
Arguments Ok {A} a.
Arguments Raise {A} e.

(** A computation over an object state [S]: the final state is kept also when
    an exception escapes. *)
Definition M (S A : Type) : Type := S -> result A * S.

Definition ret {S A} (a : A) : M S A := fun s => (Ok a, s).

Definition bind {S A B} (c : M S A) (k : A -> M S B) : M S B :=
  fun s => match c s with
           | (Ok a, s') => k a s'
           | (Raise e, s') => (Raise e, s')
           end.

Definition raise {S A} (e : exn) : M S A := fun s => (Raise e, s).
Definition get {S} : M S S := fun s => (Ok s, s).
Definition gets {S A} (f : S -> A) : M S A := fun s => (Ok (f s), s).
Definition modify {S} (f : S -> S) : M S unit := fun s => (Ok tt, f s).

(** [assert c] *)
Definition assert {S} (c : bool) : M S unit :=
  if c then ret tt else raise AssertionError.

(** [if c: body] *)
Definition when {S} (c : bool) (body : M S unit) : M S unit :=
  if c then body else ret tt.

(** Lifting of a pure partial operation. *)
Definition lift {S A} (r : result A) : M S A := fun s => (r, s).

(** The state left by a computation, and its outcome. *)
Definition exec {S A} (c : M S A) (s : S) : S := snd (c s).
Definition eval {S A} (c : M S A) (s : S) : result A := fst (c s).

End Py.
Export Py.

Global Instance M_ret {S} : MRet (M S) := fun A a => Py.ret a.
Global Instance M_bind {S} : MBind (M S) := fun A B k c => Py.bind c k.

(** [for a in l: body a] *)
Fixpoint for_each {S A} (l : list A) (body : A -> M S unit) : M S unit :=
  match l with
  | [] => ret tt
  | a :: l' => body a ;; for_each l' body
  end.

(** [len(s)] on a set of indices. *)
Definition set_len (s : gset Z) : Z := Z.of_nat (size s).

(** ** Python strings *)

Module PyStr.

(** [str.split(sep)] for a one-character separator: always at least one
    piece. *)
Fixpoint split (sep : ascii) (s : string) : list string :=
  match s with
  | EmptyString => [EmptyString]
  | String c s' =>
      if Ascii.eqb c sep then EmptyString :: split sep s'
      else match split sep s' with
           | [] => [String c EmptyString]
           | w :: ws => String c w :: ws
           end
  end.

(** Characters that [str.strip()] removes, among the code points below
    256: U+0009 to U+000D, U+001C to U+0020, U+0085 and U+00A0. *)
Definition is_space (c : ascii) : bool :=
  let n := N_of_ascii c in
  ((9 <=? n) && (n <=? 13) || (28 <=? n) && (n <=? 32) || (n =? 133) || (n =? 160))%N.

Fixpoint lstrip (s : string) : string :=
  match s with
  | EmptyString => EmptyString
  | String c s' => if is_space c then lstrip s' else s
  end.

Fixpoint rstrip (s : string) : string :=
  match s with
  | EmptyString => EmptyString
  | String c s' =>
      match rstrip s' with
      | EmptyString => if is_space c then EmptyString else String c EmptyString
      | r => String c r
      end
  end.

(** [str.strip()] *)
Definition strip (s : string) : string := rstrip (lstrip s).

(** [str.index(c)] for a one-character needle; [None] stands for the
    [ValueError] of a missing needle. *)
Fixpoint index (c : ascii) (s : string) : option Z :=
  match s with
  | EmptyString => None
  | String d s' => if Ascii.eqb d c then Some 0 else Z.succ <$> index c s'
  end.

(** [len(s)] *)
Definition len (s : string) : Z := Z.of_nat (String.length s).

(** [str.rstrip(chars)] for a one-character set. *)
Fixpoint rstrip_char (c : ascii) (s : string) : string :=
  match s with
  | EmptyString => EmptyString
  | String d s' =>
      match rstrip_char c s' with
      | EmptyString => if Ascii.eqb d c then EmptyString else String d EmptyString
      | r => String d r
      end
  end.

End PyStr.

(** ** [rkviewer/types.py]: the generic two-component vector *)

Record Vec2 (E : Type) : Type := mkVec2 { x : E; y : E }.
Arguments mkVec2 {E} x y.
Arguments x {E} v.
Arguments y {E} v.

(** ** [forms.py]: [parse_precisions] *)

(** [parse_precisions(text)], lines 41-60.  The second component is computed
    from [len(xstr)], as the source has it. *)
Definition parse_precisions (text : string) : result (Z * Z) :=
  let nums := PyStr.split "," text in
  match nums with
  | [n0; n1] =>
      let xstr := PyStr.strip n0 in
      let ystr := PyStr.strip n1 in
      let x_prec :=
        match PyStr.index "." xstr with
        | Some i => PyStr.len xstr - i - 1
        | None => 0
        end in
      let y_prec :=
        match PyStr.index "." ystr with
        | Some i => PyStr.len xstr - i - 1
        | None => 0
        end in
      Ok (x_prec, y_prec)
  | _ => Raise AssertionError
  end.

(** What the docstring of [parse_precisions] asks for, written from its
    words: the number of characters after the decimal point of a numeral,
    0 when it has no decimal point. *)
Definition decimal_precision_of (numeral : string) : Z :=
  let s := PyStr.strip numeral in
  match PyStr.index "." s with
  | Some i => PyStr.len s - i - 1
  | None => 0
  end.

(** ** [plugins/arrow_designer.py]: the grid-snap designer window *)

Module ArrowDesigner.

(** The fields of [DesignerWindow] that its pointer handlers read or write.
    [points] is [self.arrow_tip.points], in grid-cell coordinates; the pens,
    brushes and grid lines only serve painting. *)
Record DesignerWindow : Type := mkDesignerWindow {
  csize : Z;
  points : list (Vec2 Z);
  radius_sq : Z;
  hover_idx : Z;
  dragged_point : option (Vec2 Z);
  dragging : bool
}.

Definition set_dragging (b : bool) (w : DesignerWindow) : DesignerWindow :=
  mkDesignerWindow (csize w) (points w) (radius_sq w) (hover_idx w) (dragged_point w) b.
Definition set_hover_idx (i : Z) (w : DesignerWindow) : DesignerWindow :=
  mkDesignerWindow (csize w) (points w) (radius_sq w) i (dragged_point w) (dragging w).
Definition set_dragged_point (p : option (Vec2 Z)) (w : DesignerWindow) : DesignerWindow :=
  mkDesignerWindow (csize w) (points w) (radius_sq w) (hover_idx w) p (dragging w).
Definition set_points (ps : list (Vec2 Z)) (w : DesignerWindow) : DesignerWindow :=
  mkDesignerWindow (csize w) ps (radius_sq w) (hover_idx w) (dragged_point w) (dragging w).

(** The window as [__init__] leaves it: cell size 20, radius 12, nothing
    hovered or dragged. *)
Definition init (arrow_tip_points : list (Vec2 Z)) : DesignerWindow :=
  mkDesignerWindow 20 arrow_tip_points (12 ^ 2) (-1) None false.

(** [d < csize / 2]: an [int] against the result of a true division. *)
Definition lt_half (d c : Z) : bool :=
  bool_decide (Qc_of_Z d < Qc_of_Z c / 2)%Qc.

(** [projected_landing(point)], lines 87-103.  [%] is Python's floored
    remainder, which is [Z.modulo] for a non-zero cell size. *)
Definition projected_landing (w : DesignerWindow) (point : Vec2 Z) : Vec2 Z :=
  let lx := x point - x point mod csize w in
  let ly := y point - y point mod csize w in
  let drop_x := if lt_half (x point - lx) (csize w) then lx else lx + csize w in
  let drop_y := if lt_half (y point - ly) (csize w) then ly else ly + csize w in
  mkVec2 drop_x drop_y.

(** [l[i] = v] on a Python list: a negative index counts from the end, an
    index out of range raises [IndexError]. *)
Definition list_setitem {A} (l : list A) (i : Z) (v : A) : result (list A) :=
  let n := Z.of_nat (length l) in
  let j := if i <? 0 then i + n else i in
  if (0 <=? j) && (j <? n) then Ok (<[Z.to_nat j := v]> l) else Raise IndexError.

(** The loop of [update_hover_idx]: the first point, scaled to pixels, whose
    squared distance to [pos] is within the radius. *)
Fixpoint first_hovered (w : DesignerWindow) (pos : Vec2 Z) (i : Z) (pts : list (Vec2 Z)) : Z :=
  match pts with
  | [] => -1
  | pt :: rest =>
      let px := x pt * csize w in
      let py := y pt * csize w in
      let dx := x pos - px in
      let dy := y pos - py in
      if dx * dx + dy * dy <=? radius_sq w then i
      else first_hovered w pos (i + 1) rest
  end.

(** [update_hover_idx(pos)], lines 114-121. *)
Definition update_hover_idx (pos : Vec2 Z) : M DesignerWindow unit :=
  modify (fun w => set_hover_idx (first_hovered w pos 0 (points w)) w).

(** [OnLeftDown(evt)], lines 69-71. *)
Definition OnLeftDown : M DesignerWindow unit :=
  w ← get;
  when (negb (hover_idx w =? -1)) (modify (set_dragging true)).

(** [OnLeftUp(evt)], lines 73-81; [pos] is [evt.GetPosition()]. *)
Definition OnLeftUp (pos : Vec2 Z) : M DesignerWindow unit :=
  w ← get;
  when (dragging w)
    (match dragged_point w with
     | None => raise AssertionError
     | Some p =>
         let drop := projected_landing w p in
         assert (negb (hover_idx w =? -1));;
         modify (set_dragging false);;
         ps ← lift (list_setitem (points w) (hover_idx w)
                      (mkVec2 (x drop / csize w) (y drop / csize w)));
         modify (set_points ps);;
         update_hover_idx pos
     end).

(** [OnMotion(evt)], lines 105-112. *)
Definition OnMotion (pos : Vec2 Z) : M DesignerWindow unit :=
  w ← get;
  if dragging w then modify (set_dragged_point (Some pos))
  else update_hover_idx pos.

End ArrowDesigner.

(** ** wxPython colours *)

Module Wx.

(** [wx.Colour]: four channels, each a byte when well formed. *)
Record Colour : Type := mkColour { Red : Z; Green : Z; Blue : Z; Alpha : Z }.

Global Instance Colour_eq_dec : EqDecision Colour.
Proof. solve_decision. Defined.

Definition byte (v : Z) : Prop := 0 <= v < 256.

Definition wf (c : Colour) : Prop :=
  byte (Red c) /\ byte (Green c) /\ byte (Blue c) /\ byte (Alpha c).

(** [wx.BLACK] *)
Definition BLACK : Colour := mkColour 0 0 0 255.

(** [GetRGB()]: the packed value [0x00BBGGRR]. *)
Definition GetRGB (c : Colour) : Z :=
  Z.lor (Red c) (Z.lor (Z.shiftl (Green c) 8) (Z.shiftl (Blue c) 16)).

(** [GetRGBA()]: the packed value [0xAABBGGRR]. *)
Definition GetRGBA (c : Colour) : Z :=
  Z.lor (GetRGB c) (Z.shiftl (Alpha c) 24).

(** [SetRGB(v)]: the three channels of [v]; the colour becomes opaque. *)
Definition SetRGB (v : Z) (c : Colour) : Colour :=
  mkColour (Z.land v 255) (Z.land (Z.shiftr v 8) 255) (Z.land (Z.shiftr v 16) 255) 255.

(** [SetRGBA(v)] *)
Definition SetRGBA (v : Z) (c : Colour) : Colour :=
  mkColour (Z.land v 255) (Z.land (Z.shiftr v 8) 255) (Z.land (Z.shiftr v 16) 255)
           (Z.land (Z.shiftr v 24) 255).

End Wx.

(** ** Vectors and rectangles of floats *)

Module Geometry.
Local Open Scope Qc_scope.

Abbreviation Vec := (Vec2 Qc).

Global Instance Vec_eq_dec : EqDecision Vec.
Proof. solve_decision. Defined.

(** Modelled from the spec: [canvas/geometry.py] is not among the sources;
    section 2 describes its vectors as rectangle and vector primitives with
    element-wise scale and divide.  [a + b] and [a - b] on vectors.  Here
    and below the components are exact rationals: the results are those of
    the code up to the rounding of its floats, which [Float64] models. *)
Definition vadd (a b : Vec) : Vec := mkVec2 (x a + x b) (y a + y b).
Definition vsub (a b : Vec) : Vec := mkVec2 (x a - x b) (y a - y b).

(** Modelled from the spec: [a.elem_mul(b)], the element-wise product of
    [canvas/geometry.py], which is not among the sources. *)
Definition elem_mul (a b : Vec) : Vec := mkVec2 (x a * x b) (y a * y b).

(** Python's [a / b] on floats raises [ZeroDivisionError] for a zero
    divisor. *)
Definition py_div (a b : Qc) : result Qc :=
  if bool_decide (b = 0) then Raise ZeroDivisionError else Ok (a / b).

(** Modelled from the spec: [a.elem_div(b)], the element-wise quotient of
    [canvas/geometry.py], which is not among the sources. *)
Definition elem_div (a b : Vec) : result Vec :=
  match py_div (x a) (x b), py_div (y a) (y b) with
  | Ok qx, Ok qy => Ok (mkVec2 qx qy)
  | Raise e, _ => Raise e
  | _, Raise e => Raise e
  end.

(** [Rect(position, size)] *)
Record Rect : Type := mkRect { position : Vec; size : Vec }.

Global Instance Rect_eq_dec : EqDecision Rect.
Proof. solve_decision. Defined.

(** [int(q)]: truncation toward zero. *)
Definition py_int (q : Qc) : Z := Z.quot (Qnum q) (Zpos (Qden q)).

End Geometry.
Export Geometry.

(** ** The entities shown in the forms *)

(** The [Node] of [types.py], with the [index] that [forms.py] reads from
    the nodes of the canvas. *)
Record Node : Type := mkNode {
  index : Z;
  id_ : string;
  node_position : Vec;
  node_size : Vec;
  fill_color : Wx.Colour;
  border_color : Wx.Colour;
  border_width : Qc
}.

Global Instance Node_eq_dec : EqDecision Node.
Proof. solve_decision. Defined.

(** [node.rect] *)
Definition rect (n : Node) : Rect := mkRect (node_position n) (node_size n).

Definition set_position (p : Vec) (n : Node) : Node :=
  mkNode (index n) (id_ n) p (node_size n) (fill_color n) (border_color n) (border_width n).

(** [Node.Contains(pos)], [types.py] lines 51-55. *)
Definition Contains (n : Node) (pos : Vec) : bool :=
  bool_decide ((node_position n).(x) ≤ pos.(x))%Qc
  && bool_decide (pos.(x) ≤ (node_position n).(x) + (node_size n).(x))%Qc
  && bool_decide ((node_position n).(y) ≤ pos.(y))%Qc
  && bool_decide (pos.(y) ≤ (node_position n).(y) + (node_size n).(y))%Qc.

(** The attributes of a reaction that [ReactionForm] reads. *)
Record Reaction : Type := mkReaction {
  r_index : Z;
  r_id : string;
  r_fill_color : Wx.Colour;
  thickness : Qc;
  rate_law : string
}.

(** The attributes of a compartment that [CompartmentForm] reads. *)
Record Compartment : Type := mkCompartment {
  c_index : Z;
  c_id : string
}.

(** ** What a form does to the outside: controller calls, events, widgets *)

(** The controller methods the forms call, with their arguments. *)
Inductive call : Type :=
| start_group
| end_group
| rename_node (net nodei : Z) (new_id : string)
| move_node (net nodei : Z) (pos : Vec)
| set_node_size (net nodei : Z) (sz : Vec)
| set_node_fill_rgb (net nodei : Z) (c : Wx.Colour)
| set_node_fill_alpha (net nodei : Z) (a : Z)
| set_node_border_rgb (net nodei : Z) (c : Wx.Colour)
| set_node_border_alpha (net nodei : Z) (a : Z)
| set_node_border_width (net nodei : Z) (w : Qc)
| rename_reaction (net reai : Z) (new_id : string)
| set_reaction_line_thickness (net reai : Z) (w : Qc)
| set_reaction_fill_rgb (net reai : Z) (c : Wx.Colour)
| set_reaction_fill_alpha (net reai : Z) (a : Z)
| set_reaction_ratelaw (net reai : Z) (ratelaw : string)
| set_src_node_stoich (net reai nodei : Z) (v : Qc)
| set_dest_node_stoich (net reai nodei : Z) (v : Qc)
| rename_compartment (net compi : Z) (new_id : string).

Global Instance call_eq_dec : EqDecision call.
Proof. solve_decision. Defined.

(** A call that changes the model, as opposed to the two group brackets. *)
Definition is_mutation (c : call) : bool :=
  match c with
  | start_group | end_group => false
  | _ => true
  end.

(** The values [UpdateAllFields] writes into the widgets of a form. *)
Record field_values : Type := mkFieldValues {
  fv_id_text : string;
  fv_pos : option Vec;
  fv_size : option Vec;
  fv_fill : option Wx.Colour;
  fv_fill_alpha_text : option string;
  fv_border : option Wx.Colour;
  fv_border_alpha_text : option string;
  fv_width_text : string;
  fv_ratelaw_text : option string
}.

(** Everything a form handler does that is visible outside the form, in the
    order it happens; [UpdateAllFieldsCalled] marks the entry into
    [UpdateAllFields] and [FieldsUpdated] its writes to the widgets. *)
Inductive effect : Type :=
| Controller (c : call)
| DidMoveNodesEvent (nodes : list Node) (offset : Vec) (dragged : bool)
| UpdateAllFieldsCalled
| FieldsUpdated (v : field_values).

(** The controller calls of a log, in order. *)
Definition calls_of (l : list effect) : list call :=
  omap (fun e => match e with Controller c => Some c | _ => None end) l.

(** Whether a log records an invocation of [UpdateAllFields]. *)
Definition repopulated (l : list effect) : bool :=
  existsb (fun e => match e with UpdateAllFieldsCalled => true | _ => false end) l.

(** Whether a log records a controller call that changes the model. *)
Definition mutated (l : list effect) : bool := existsb is_mutation (calls_of l).

(** A validation message: a template and the arguments of its [format]. *)
Inductive fmt_arg : Type :=
| ArgNum (q : Qc)
| ArgStr (s : string).

Record message : Type := mkMessage { template : string; args : list fmt_arg }.

(** The input widgets of the three forms. *)
Inductive ctrl : Set :=
| id_ctrl | pos_ctrl | size_ctrl
| fill_ctrl | fill_alpha_ctrl
| border_ctrl | border_alpha_ctrl | border_width_ctrl
| ratelaw_ctrl | stroke_width_ctrl
| stoich_ctrl (reai nodei : Z).

Global Instance ctrl_eq_dec : EqDecision ctrl.
Proof. solve_decision. Defined.

(** ** What the forms import from modules that are not among the sources *)

(** The functions and settings [forms.py] imports from [canvas/geometry.py],
    [utils.py] and [config.py], the builtin [float], and the answer of the
    controller to a rename.  The handlers are embedded over any
    implementation of them. *)
Class Externals : Type := mkExternals {
  (** the builtin [float(str)] on the texts that it reads as a finite
      number, and on those that it does not read: [None] is its
      [ValueError].  The texts that it reads as NaN or as an infinity have
      no value here; what the code does with these values is embedded over
      binary64 numbers in [Float64]. *)
  py_float : string -> option Qc;
  (** [clamp_rect_pos(rect, bounds)]: the clamped position *)
  clamp_rect_pos : Rect -> Rect -> Vec;
  (** [clamp_rect_size(rect, botright)]: the clamped size *)
  clamp_rect_size : Rect -> Vec -> Vec;
  (** [get_bounding_rect(rects)] *)
  get_bounding_rect : list Rect -> Rect;
  (** [no_rzeros(num, precision)] *)
  no_rzeros : Qc -> Z -> string;
  (** [on_msw()] *)
  on_msw : bool;
  (** [settings['min_node_width']], [settings['min_node_height']] and
      [settings['decimal_precision']] *)
  min_node_width : Qc;
  min_node_height : Qc;
  decimal_precision : Z;
  (** what [controller.rename_node] returns *)
  rename_node_ok : Z -> Z -> string -> bool
}.

(** ** [forms.py]: [parse_num_pair] and the form base class *)

Definition dquote : string := String (ascii_of_nat 34) EmptyString.

Definition literal (s : string) : message := mkMessage s [].

(** The fields of [EditPanelForm].  [badges] gives for each input widget the
    tooltip of its info badge when the badge is shown; [effects] is the
    trace of what the form did to the outside, latest last. *)
Record EditPanelForm : Type := mkEditPanelForm {
  net_index : Z;
  badges : ctrl -> option message;
  _self_changes : bool;
  _selected_idx : gset Z;
  effects : list effect
}.

Definition set_badges (b : ctrl -> option message) (f : EditPanelForm) : EditPanelForm :=
  mkEditPanelForm (net_index f) b (_self_changes f) (_selected_idx f) (effects f).
Definition set_self_changes (b : bool) (f : EditPanelForm) : EditPanelForm :=
  mkEditPanelForm (net_index f) (badges f) b (_selected_idx f) (effects f).
Definition set_selected_idx (sel : gset Z) (f : EditPanelForm) : EditPanelForm :=
  mkEditPanelForm (net_index f) (badges f) (_self_changes f) sel (effects f).
Definition add_effect (e : effect) (f : EditPanelForm) : EditPanelForm :=
  mkEditPanelForm (net_index f) (badges f) (_self_changes f) (_selected_idx f)
                  (effects f ++ [e]).

(** A form class: a state that extends [EditPanelForm] and implements the
    abstract method [UpdateAllFields]. *)
Class Form (S : Type) : Type := mkForm {
  base : S -> EditPanelForm;
  with_base : EditPanelForm -> S -> S;
  UpdateAllFields : M S unit
}.

Section EditPanelForm.
Context `{Ext : Externals} {S : Type} `{F : Form S}.

(** [parse_num_pair(text)], lines 20-38. *)
Definition parse_num_pair (text : string) : option (Qc * Qc) :=
  match PyStr.split "," text with
  | [xstr; ystr] =>
      match py_float xstr with
      | None => None
      | Some vx =>
          match py_float ystr with
          | None => None
          | Some vy => Some (vx, vy)
          end
      end
  | _ => None
  end.

Definition on_base (f : EditPanelForm -> EditPanelForm) : M S unit :=
  modify (fun s => with_base (f (base s)) s).

(** A call [self.controller.m(...)]. *)
Definition controller (c : call) : M S unit := on_base (add_effect (Controller c)).

(** [self._self_changes = b] *)
Definition assign_self_changes (b : bool) : M S unit := on_base (set_self_changes b).

(** [_SetValidationState(good, ctrl_id, message)], lines 229-243. *)
Definition _SetValidationState (good : bool) (ctrl_id : ctrl) (msg : message) : M S unit :=
  on_base (fun f =>
    set_badges (fun c => if decide (c = ctrl_id)
                         then (if good then None else Some msg)
                         else badges f c) f).

(** [Update()], lines 112-119. *)
Definition Update : M S unit :=
  s ← get;
  when (negb (set_len (_selected_idx (base s)) =? 0)
        && negb (_self_changes (base s)))
       UpdateAllFields;;
  on_base (set_badges (fun _ => None));;
  assign_self_changes false.

(** The closure [float_ctrl_fn] returned by [_MakeFloatCtrlFunction],
    lines 278-336, applied to the text of the event. *)
Definition float_ctrl_fn (ctrl_id : ctrl) (callback : Qc -> M S unit)
    (lo hi : option Qc) (left_incl right_incl : bool) (text : string) : M S unit :=
  match py_float text with
  | None => _SetValidationState false ctrl_id (literal "Value must be a number")
  | Some value =>
      let below :=
        match lo with
        | None => false
        | Some l => if left_incl then bool_decide (value < l)%Qc
                    else bool_decide (value ≤ l)%Qc
        end in
      let above :=
        match hi with
        | None => false
        | Some h => if right_incl then bool_decide (h < value)%Qc
                    else bool_decide (h ≤ value)%Qc
        end in
      if below || above then
        let err_msg :=
          match lo, hi with
          | Some l, Some h =>
              mkMessage "Value must be in range {}{}, {}{}"
                [ArgStr (if left_incl then "[" else "("); ArgNum l; ArgNum h;
                 ArgStr (if right_incl then "]" else ")")]
          | Some l, None =>
              mkMessage "Value must greater than {} {}"
                [ArgStr (if left_incl then "or equal to" else ""); ArgNum l]
          | None, Some h =>
              mkMessage "Value must less than {} {}"
                [ArgStr (if right_incl then "or equal to" else ""); ArgNum h]
          | None, None =>
              mkMessage "Value must less than {} {}"
                [ArgStr (if right_incl then "or equal to" else ""); ArgStr "None"]
          end in
        _SetValidationState false ctrl_id err_msg
      else
        callback value;;
        _SetValidationState true ctrl_id (literal "")
  end.

(** [_GetMultiColor(colors)], lines 338-369. *)
Definition _GetMultiColor (colors : list Wx.Colour) : Wx.Colour * option Z :=
  if on_msw then
    let rgbset : gset Z := list_to_set (Wx.GetRGB <$> colors) in
    let rgb := match elements rgbset with
               | [v] => Wx.SetRGB v Wx.BLACK
               | _ => Wx.BLACK
               end in
    let alphaset : gset Z := list_to_set (Wx.Alpha <$> colors) in
    let alpha := match elements alphaset with
                 | [a] => Some a
                 | _ => None
                 end in
    (rgb, alpha)
  else
    let rgbaset : gset Z := list_to_set (Wx.GetRGBA <$> colors) in
    let rgba := match elements rgbaset with
                | [v] => Wx.SetRGBA v Wx.BLACK
                | _ => Wx.BLACK
                end in
    (rgba, None).

(** [_GetMultiFloatText(values, precision)], lines 371-377. *)
Definition _GetMultiFloatText (values : gset Qc) (precision : Z) : string :=
  match elements values with
  | [v] => no_rzeros v precision
  | _ => "?"
  end.

(** [_AlphaToText(alpha, prec)], lines 379-390. *)
Definition _AlphaToText (alpha : option Z) (prec : Z) : string :=
  match alpha with
  | None => "?"
  | Some a => no_rzeros (Qc_of_Z a / Qc_of_Z 255)%Qc prec
  end.

End EditPanelForm.

(** ** [forms.py]: [NodeForm] *)

(** The fields of [NodeForm]; [canvas_realsize] is [self.canvas.realsize]. *)
Record NodeForm : Type := mkNodeForm {
  nf_base : EditPanelForm;
  _nodes : list Node;
  _bounding_rect : option Rect;
  canvas_realsize : Vec
}.

Definition set_nf_base (b : EditPanelForm) (s : NodeForm) : NodeForm :=
  mkNodeForm b (_nodes s) (_bounding_rect s) (canvas_realsize s).
Definition set_nodes (ns : list Node) (s : NodeForm) : NodeForm :=
  mkNodeForm (nf_base s) ns (_bounding_rect s) (canvas_realsize s).
Definition set_bounding_rect (r : option Rect) (s : NodeForm) : NodeForm :=
  mkNodeForm (nf_base s) (_nodes s) r (canvas_realsize s).

(** Whether a node is one of the selected ones. *)
Definition selected (sel : gset Z) (n : Node) : bool := bool_decide (index n ∈ sel).

(** Modelled from the spec: [get_nodes_by_idx(nodes, idx)] of
    [canvas/utils.py] is not among the sources.  Sections 3 and 4 speak of
    the selected nodes: the nodes of the list whose index is in the
    selection, in the order of the list, as the comprehensions of
    [ReactionForm] and [CompartmentForm] select theirs (lines 814, 1043).
    The result holds the node objects of [nodes] themselves.  What the
    function does with a selected index that is the index of no node of the
    list, or of several, is not modelled. *)
Definition get_nodes_by_idx (nodes : list Node) (sel : gset Z) : list Node :=
  filter (fun n => selected sel n = true) nodes.

(** [min(a, b)], the first of two equal arguments. *)
Definition qmin (a b : Qc) : Qc := if bool_decide (b < a)%Qc then b else a.

(** [min(...)] over a sequence: [ValueError] when it is empty. *)
Definition py_min (l : list Qc) : result Qc :=
  match l with
  | [] => Raise ValueError
  | a :: rest => Ok (foldl qmin a rest)
  end.

(** [sorted(...)] on strings. *)
Definition str_le (a b : string) : Prop := String.leb a b = true.

Global Instance str_le_dec : RelDecision str_le.
Proof. intros a b. unfold str_le. apply _. Defined.

Definition sorted (l : list string) : list string := merge_sort str_le l.

Section NodeForm.
Context `{Ext : Externals}.

(** Assignments to the attributes of the selected node objects, which the
    list [_nodes] shares with the local list [nodes]. *)
Definition mutate_selected (f : Node -> Node) : M NodeForm unit :=
  modify (fun s =>
    set_nodes ((fun n => if selected (_selected_idx (nf_base s)) n then f n else n)
                 <$> _nodes s) s).

(** [NodeForm.UpdateAllFields()], lines 699-750.  The values written to the
    widgets are recorded as one [FieldsUpdated] effect. *)
Definition NodeForm_UpdateAllFields : M NodeForm unit :=
  modify (fun s => set_nf_base (add_effect UpdateAllFieldsCalled (nf_base s)) s);;
  modify (fun s => set_nf_base (set_self_changes false (nf_base s)) s);;
  s ← get;
  let sel := _selected_idx (nf_base s) in
  assert (negb (set_len sel =? 0));;
  let nodes := get_nodes_by_idx (_nodes s) sel in
  let prec := decimal_precision in
  '(id_text, pos, sz, fill, fill_alpha, border, border_alpha) ←
    (if set_len sel =? 1 then
       match nodes with
       | [node] =>
           ret (id_ node, node_position node, node_size node,
                fill_color node, Some (Wx.Alpha (fill_color node)),
                border_color node, Some (Wx.Alpha (border_color node)))
       | _ => raise ValueError
       end
     else
       let br := get_bounding_rect (rect <$> nodes) in
       modify (set_bounding_rect (Some br));;
       let fa := _GetMultiColor (fill_color <$> nodes) in
       let ba := _GetMultiColor (border_color <$> nodes) in
       ret (String.concat "; " (sorted (id_ <$> nodes)), position br, size br,
            fa.1, fa.2, ba.1, ba.2));
  let width_text := _GetMultiFloatText (list_to_set (border_width <$> nodes)) prec in
  modify (fun s => set_nf_base (add_effect (FieldsUpdated
    (mkFieldValues id_text (Some pos) (Some sz) (Some fill)
       (if on_msw then Some (_AlphaToText fill_alpha prec) else None)
       (Some border)
       (if on_msw then Some (_AlphaToText border_alpha prec) else None)
       width_text None)) (nf_base s)) s).

Global Instance NodeForm_Form : Form NodeForm :=
  mkForm NodeForm nf_base set_nf_base NodeForm_UpdateAllFields.

(** [post_event(DidMoveNodesEvent(nodes, offset, dragged=False))] *)
Definition post_DidMoveNodesEvent (nodes : list Node) (offset : Vec) : M NodeForm unit :=
  on_base (add_effect (DidMoveNodesEvent nodes offset false)).

(** [UpdateNodes(nodes)], lines 440-443. *)
Definition UpdateNodes (nodes : list Node) : M NodeForm unit :=
  modify (set_nodes nodes);;
  Update.

(** [NodeForm.UpdateSelection(selected_idx)], lines 445-460; the label and
    title changes are widget output. *)
Definition NodeForm_UpdateSelection (selected_idx : gset Z) : M NodeForm unit :=
  on_base (set_selected_idx selected_idx);;
  when (negb (set_len selected_idx =? 0)) UpdateAllFields.

(** [NodeForm._OnIdText(evt)], lines 526-546. *)
Definition NodeForm__OnIdText (new_id : string) : M NodeForm unit :=
  s ← get;
  let sel := _selected_idx (nf_base s) in
  assert (set_len sel =? 1);;
  match elements sel with
  | [nodei] =>
      if PyStr.len new_id =? 0 then
        _SetValidationState false id_ctrl (literal "ID cannot be empty")
      else if existsb (fun node => bool_decide (id_ node = new_id)) (_nodes s) then
        _SetValidationState false id_ctrl (literal "Not saved: Duplicate ID")
      else
        assign_self_changes true;;
        controller (rename_node (net_index (nf_base s)) nodei new_id);;
        assert (rename_node_ok (net_index (nf_base s)) nodei new_id);;
        _SetValidationState true id_ctrl (literal "")
  | _ => raise ValueError
  end.

(** The branch [len(nodes) == 1] of [_OnPosText], lines 564-573. *)
Definition OnPosText_single (node : Node) (pos : Vec) : M NodeForm unit :=
  s ← get;
  let net := net_index (nf_base s) in
  let bounds := mkRect (mkVec2 0%Qc 0%Qc) (canvas_realsize s) in
  let clamped := clamp_rect_pos (mkRect pos (node_size node)) bounds in
  when (bool_decide (node_position node ≠ clamped) || bool_decide (pos ≠ clamped))
    (assign_self_changes true;;
     mutate_selected (set_position clamped);;
     let node' := set_position clamped node in
     controller start_group;;
     post_DidMoveNodesEvent [node'] (vsub clamped (node_position node'));;
     controller (move_node net (index node') (node_position node'));;
     controller end_group).

(** The [else] branch of [_OnPosText], lines 574-585. *)
Definition OnPosText_multi (nodes : list Node) (pos : Vec) : M NodeForm unit :=
  s ← get;
  let net := net_index (nf_base s) in
  let bounds := mkRect (mkVec2 0%Qc 0%Qc) (canvas_realsize s) in
  match _bounding_rect s with
  | None => raise AttributeError
  | Some br =>
      let clamped := clamp_rect_pos (mkRect pos (size br)) bounds in
      when (bool_decide (position br ≠ pos) || bool_decide (pos ≠ clamped))
        (let offset := vsub clamped (position br) in
         let move := fun n => set_position (vadd (node_position n) offset) n in
         assign_self_changes true;;
         controller start_group;;
         mutate_selected move;;
         let nodes' := move <$> nodes in
         post_DidMoveNodesEvent nodes' offset;;
         for_each nodes' (fun node =>
           controller (move_node net (index node) (node_position node)));;
         controller end_group)
  end.

(** [NodeForm._OnPosText(evt)], lines 548-586. *)
Definition NodeForm__OnPosText (text : string) : M NodeForm unit :=
  match parse_num_pair text with
  | None =>
      _SetValidationState false pos_ctrl
        (literal ("Should be in the form " +:+ dquote +:+ "X, Y" +:+ dquote))
  | Some (px, py) =>
      let pos := mkVec2 px py in
      if bool_decide (px < 0)%Qc || bool_decide (py < 0)%Qc then
        _SetValidationState false pos_ctrl
          (literal "Position coordinates should be non-negative")
      else
        s ← get;
        let nodes := get_nodes_by_idx (_nodes s) (_selected_idx (nf_base s)) in
        match nodes with
        | [node] => OnPosText_single node pos
        | _ => OnPosText_multi nodes pos
        end;;
        _SetValidationState true pos_ctrl (literal "")
  end.

(** The branch [len(nodes) == 1] of [_OnSizeText], lines 601-613, with the
    last line of the handler. *)
Definition OnSizeText_single (node : Node) (sz : Vec) : M NodeForm unit :=
  s ← get;
  let net := net_index (nf_base s) in
  let min_width := min_node_width in
  let min_height := min_node_height in
  if bool_decide (x sz < min_width)%Qc || bool_decide (y sz < min_height)%Qc then
    _SetValidationState false size_ctrl
      (mkMessage "Node size needs to be at least ({}, {})"
         [ArgNum min_width; ArgNum min_height])
  else
    let clamped := clamp_rect_size (mkRect (node_position node) sz) (canvas_realsize s) in
    when (bool_decide (node_size node ≠ clamped) || bool_decide (sz ≠ clamped))
      (assign_self_changes true;;
       controller (set_node_size net (index node) (mkVec2 (x clamped) (y clamped))));;
    _SetValidationState true size_ctrl (literal "").

(** The [else] branch of [_OnSizeText], lines 614-638, with the last line
    of the handler. *)
Definition OnSizeText_multi (nodes : list Node) (sz : Vec) : M NodeForm unit :=
  s ← get;
  let net := net_index (nf_base s) in
  let min_width := min_node_width in
  let min_height := min_node_height in
  min_nw ← lift (py_min ((fun n => x (node_size n)) <$> nodes));
  min_nh ← lift (py_min ((fun n => y (node_size n)) <$> nodes));
  rx ← lift (py_div min_width min_nw);
  ry ← lift (py_div min_height min_nh);
  let min_ratio := mkVec2 rx ry in
  match _bounding_rect s with
  | None => raise AttributeError
  | Some br =>
      let limit := elem_mul (size br) min_ratio in
      if bool_decide (x sz < x limit)%Qc || bool_decide (y sz < y limit)%Qc then
        _SetValidationState false size_ctrl
          (mkMessage "Size of bounding box needs to be at least ({}, {})"
             [ArgStr (no_rzeros (x limit) 2); ArgStr (no_rzeros (y limit) 2)])
      else
        let clamped := clamp_rect_size (mkRect (position br) sz) (canvas_realsize s) in
        when (bool_decide (size br ≠ clamped) || bool_decide (sz ≠ clamped))
          (ratio ← lift (elem_div clamped (size br));
           assign_self_changes true;;
           controller start_group;;
           for_each nodes (fun node =>
             let rel_pos := vsub (node_position node) (position br) in
             let new_pos := vadd (position br) (elem_mul rel_pos ratio) in
             controller (move_node net (index node) new_pos);;
             controller (set_node_size net (index node)
                           (elem_mul (node_size node) ratio)));;
           controller end_group);;
        _SetValidationState true size_ctrl (literal "")
  end.

(** [NodeForm._OnSizeText(evt)], lines 588-639. *)
Definition NodeForm__OnSizeText (text : string) : M NodeForm unit :=
  match parse_num_pair text with
  | None =>
      _SetValidationState false size_ctrl
        (literal ("Should be in the form " +:+ dquote +:+ "width, height" +:+ dquote))
  | Some (w, h) =>
      s ← get;
      let nodes := get_nodes_by_idx (_nodes s) (_selected_idx (nf_base s)) in
      let sz := mkVec2 w h in
      match nodes with
      | [node] => OnSizeText_single node sz
      | _ => OnSizeText_multi nodes sz
      end
  end.

End NodeForm.

Section NodeFormStyle.
Context `{Ext : Externals}.

(** [NodeForm._OnFillColorChanged(evt)], lines 641-654. *)
Definition NodeForm__OnFillColorChanged (fill : Wx.Colour) : M NodeForm unit :=
  s ← get;
  let net := net_index (nf_base s) in
  let nodes := get_nodes_by_idx (_nodes s) (_selected_idx (nf_base s)) in
  assign_self_changes true;;
  controller start_group;;
  for_each nodes (fun node =>
    if on_msw then controller (set_node_fill_rgb net (index node) fill)
    else
      controller (set_node_fill_rgb net (index node) fill);;
      controller (set_node_fill_alpha net (index node) (Wx.Alpha fill)));;
  controller end_group.

(** [NodeForm._OnBorderColorChanged(evt)], lines 656-670.  Off Windows the
    first call reads the attribute [self.net_idnex], which the form does not
    have. *)
Definition NodeForm__OnBorderColorChanged (border : Wx.Colour) : M NodeForm unit :=
  s ← get;
  let net := net_index (nf_base s) in
  let nodes := get_nodes_by_idx (_nodes s) (_selected_idx (nf_base s)) in
  assign_self_changes true;;
  controller start_group;;
  for_each nodes (fun node =>
    if on_msw then controller (set_node_border_rgb net (index node) border)
    else raise AttributeError);;
  controller end_group.

(** [NodeForm._FillAlphaCallback(alpha)], lines 672-679. *)
Definition NodeForm__FillAlphaCallback (alpha : Qc) : M NodeForm unit :=
  s ← get;
  let net := net_index (nf_base s) in
  let nodes := get_nodes_by_idx (_nodes s) (_selected_idx (nf_base s)) in
  assign_self_changes true;;
  controller start_group;;
  for_each nodes (fun node =>
    controller (set_node_fill_alpha net (index node) (py_int (alpha * Qc_of_Z 255)%Qc)));;
  controller end_group.

(** [NodeForm._BorderAlphaCallback(alpha)], lines 681-688. *)
Definition NodeForm__BorderAlphaCallback (alpha : Qc) : M NodeForm unit :=
  s ← get;
  let net := net_index (nf_base s) in
  let nodes := get_nodes_by_idx (_nodes s) (_selected_idx (nf_base s)) in
  assign_self_changes true;;
  controller start_group;;
  for_each nodes (fun node =>
    controller (set_node_border_alpha net (index node) (py_int (alpha * Qc_of_Z 255)%Qc)));;
  controller end_group.

(** [NodeForm._BorderWidthCallback(width)], lines 690-697. *)
Definition NodeForm__BorderWidthCallback (width : Qc) : M NodeForm unit :=
  s ← get;
  let net := net_index (nf_base s) in
  let nodes := get_nodes_by_idx (_nodes s) (_selected_idx (nf_base s)) in
  assign_self_changes true;;
  controller start_group;;
  for_each nodes (fun node =>
    controller (set_node_border_width net (index node) width));;
  controller end_group.

(** The user edits a [NodeForm] handles, with the text or colour of the
    event. *)
Inductive node_edit : Type :=
| IdText (text : string)
| PosText (text : string)
| SizeText (text : string)
| FillColorChanged (c : Wx.Colour)
| BorderColorChanged (c : Wx.Colour)
| FillAlphaText (text : string)
| BorderAlphaText (text : string)
| BorderWidthText (text : string).

(** The bindings of [CreateControls], lines 497-524, and of
    [_CreateColorControl], lines 262-276: which handler an edit runs.  The
    two alpha fields exist on Windows only. *)
Definition NodeForm_handle (e : node_edit) : M NodeForm unit :=
  match e with
  | IdText t => NodeForm__OnIdText t
  | PosText t => NodeForm__OnPosText t
  | SizeText t => NodeForm__OnSizeText t
  | FillColorChanged c => NodeForm__OnFillColorChanged c
  | BorderColorChanged c => NodeForm__OnBorderColorChanged c
  | FillAlphaText t =>
      when on_msw
        (float_ctrl_fn fill_alpha_ctrl NodeForm__FillAlphaCallback
           (Some 0%Qc) (Some 1%Qc) true true t)
  | BorderAlphaText t =>
      when on_msw
        (float_ctrl_fn border_alpha_ctrl NodeForm__BorderAlphaCallback
           (Some 0%Qc) (Some 1%Qc) true true t)
  | BorderWidthText t =>
      float_ctrl_fn border_width_ctrl NodeForm__BorderWidthCallback
        (Some 1%Qc) (Some (Qc_of_Z 100)) true true t
  end.

End NodeFormStyle.

(** ** [forms.py]: [ReactionForm] *)

Record ReactionForm : Type := mkReactionForm {
  rf_base : EditPanelForm;
  _reactions : list Reaction
}.

Definition set_rf_base (b : EditPanelForm) (s : ReactionForm) : ReactionForm :=
  mkReactionForm b (_reactions s).
Definition set_reactions (rs : list Reaction) (s : ReactionForm) : ReactionForm :=
  mkReactionForm (rf_base s) rs.

(** [[r for r in self._reactions if r.index in self._selected_idx]] *)
Definition selected_reactions (s : ReactionForm) : list Reaction :=
  filter (fun r => r_index r ∈ _selected_idx (rf_base s)) (_reactions s).

Section ReactionForm.
Context `{Ext : Externals}.

(** [ReactionForm.UpdateAllFields()], lines 948-986.  The stoichiometry
    rows rebuilt by [_UpdateStoichFields] are widgets and are left out. *)
Definition ReactionForm_UpdateAllFields : M ReactionForm unit :=
  modify (fun s => set_rf_base (add_effect UpdateAllFieldsCalled (rf_base s)) s);;
  modify (fun s => set_rf_base (set_self_changes false (rf_base s)) s);;
  s ← get;
  let sel := _selected_idx (rf_base s) in
  assert (negb (set_len sel =? 0));;
  let reactions := selected_reactions s in
  let id_text := String.concat "; " (sorted (r_id <$> reactions)) in
  let prec := decimal_precision in
  '(fill, fill_alpha, ratelaw_text) ←
    (if set_len sel =? 1 then
       match reactions with
       | [reaction] =>
           ret (r_fill_color reaction, Some (Wx.Alpha (r_fill_color reaction)),
                rate_law reaction)
       | _ => raise ValueError
       end
     else
       let fa := _GetMultiColor (r_fill_color <$> reactions) in
       ret (fa.1, fa.2, "multiple"));
  let stroke_width := _GetMultiFloatText (list_to_set (thickness <$> reactions)) prec in
  modify (fun s => set_rf_base (add_effect (FieldsUpdated
    (mkFieldValues id_text None None (Some fill)
       (if on_msw then Some (_AlphaToText fill_alpha prec) else None)
       None None stroke_width (Some ratelaw_text))) (rf_base s)) s).

Global Instance ReactionForm_Form : Form ReactionForm :=
  mkForm ReactionForm rf_base set_rf_base ReactionForm_UpdateAllFields.

(** [UpdateReactions(reactions)], lines 853-856. *)
Definition UpdateReactions (reactions : list Reaction) : M ReactionForm unit :=
  modify (set_reactions reactions);;
  Update.

(** [ReactionForm.UpdateSelection(selected_idx)], lines 858-868. *)
Definition ReactionForm_UpdateSelection (selected_idx : gset Z) : M ReactionForm unit :=
  on_base (set_selected_idx selected_idx);;
  when (negb (set_len selected_idx =? 0)) UpdateAllFields.

(** [ReactionForm._OnIdText(evt)], lines 792-811. *)
Definition ReactionForm__OnIdText (new_id : string) : M ReactionForm unit :=
  s ← get;
  let sel := _selected_idx (rf_base s) in
  assert (set_len sel =? 1);;
  match elements sel with
  | [reai] =>
      if PyStr.len new_id =? 0 then
        _SetValidationState false id_ctrl (literal "ID cannot be empty")
      else if existsb (fun rxn => bool_decide (r_id rxn = new_id)) (_reactions s) then
        _SetValidationState false id_ctrl (literal "Not saved: Duplicate ID")
      else
        assign_self_changes true;;
        controller (rename_reaction (net_index (rf_base s)) reai new_id);;
        _SetValidationState true id_ctrl (literal "")
  | _ => raise ValueError
  end.

(** [ReactionForm._StrokeWidthCallback(width)], lines 813-819. *)
Definition ReactionForm__StrokeWidthCallback (width : Qc) : M ReactionForm unit :=
  s ← get;
  let net := net_index (rf_base s) in
  assign_self_changes true;;
  controller start_group;;
  for_each (selected_reactions s) (fun rxn =>
    controller (set_reaction_line_thickness net (r_index rxn) width));;
  controller end_group.

(** [ReactionForm._OnFillColorChanged(evt)], lines 821-834. *)
Definition ReactionForm__OnFillColorChanged (fill : Wx.Colour) : M ReactionForm unit :=
  s ← get;
  let net := net_index (rf_base s) in
  assign_self_changes true;;
  controller start_group;;
  for_each (selected_reactions s) (fun rxn =>
    if on_msw then controller (set_reaction_fill_rgb net (r_index rxn) fill)
    else
      controller (set_reaction_fill_rgb net (r_index rxn) fill);;
      controller (set_reaction_fill_alpha net (r_index rxn) (Wx.Alpha fill)));;
  controller end_group.

(** [ReactionForm._FillAlphaCallback(alpha)], lines 836-843. *)
Definition ReactionForm__FillAlphaCallback (alpha : Qc) : M ReactionForm unit :=
  s ← get;
  let net := net_index (rf_base s) in
  assign_self_changes true;;
  controller start_group;;
  for_each (selected_reactions s) (fun rxn =>
    controller (set_reaction_fill_alpha net (r_index rxn) (py_int (alpha * Qc_of_Z 255)%Qc)));;
  controller end_group.

(** [ReactionForm._OnRateLawText(evt)], lines 845-851. *)
Definition ReactionForm__OnRateLawText (ratelaw : string) : M ReactionForm unit :=
  s ← get;
  let sel := _selected_idx (rf_base s) in
  assert (set_len sel =? 1);;
  match elements sel with
  | [reai] =>
      assign_self_changes true;;
      controller (set_reaction_ratelaw (net_index (rf_base s)) reai ratelaw)
  | _ => raise ValueError
  end.

(** The closures of [_MakeSetSrcStoichFunction] and
    [_MakeSetDestStoichFunction], lines 924-936. *)
Definition set_src_stoich (reai nodei : Z) (val : Qc) : M ReactionForm unit :=
  s ← get;
  assign_self_changes true;;
  controller (set_src_node_stoich (net_index (rf_base s)) reai nodei val).

Definition set_dest_stoich (reai nodei : Z) (val : Qc) : M ReactionForm unit :=
  s ← get;
  assign_self_changes true;;
  controller (set_dest_node_stoich (net_index (rf_base s)) reai nodei val).

(** The user edits a [ReactionForm] handles. *)
Inductive reaction_edit : Type :=
| RIdText (text : string)
| RateLawText (text : string)
| RFillColorChanged (c : Wx.Colour)
| RFillAlphaText (text : string)
| StrokeWidthText (text : string)
| SrcStoichText (reai nodei : Z) (text : string)
| DestStoichText (reai nodei : Z) (text : string).

(** The bindings of [CreateControls], lines 767-790, and of
    [_UpdateStoichFields], lines 899-919. *)
Definition ReactionForm_handle (e : reaction_edit) : M ReactionForm unit :=
  match e with
  | RIdText t => ReactionForm__OnIdText t
  | RateLawText t => ReactionForm__OnRateLawText t
  | RFillColorChanged c => ReactionForm__OnFillColorChanged c
  | RFillAlphaText t =>
      when on_msw
        (float_ctrl_fn fill_alpha_ctrl ReactionForm__FillAlphaCallback
           (Some 0%Qc) (Some 1%Qc) true true t)
  | StrokeWidthText t =>
      float_ctrl_fn stroke_width_ctrl ReactionForm__StrokeWidthCallback
        (Some (Qc_of_Z 1 / Qc_of_Z 10)%Qc) (Some (Qc_of_Z 100)) true true t
  | SrcStoichText reai nodei t =>
      float_ctrl_fn (stoich_ctrl reai nodei) (set_src_stoich reai nodei)
        (Some 0%Qc) None false true t
  | DestStoichText reai nodei t =>
      float_ctrl_fn (stoich_ctrl reai nodei) (set_dest_stoich reai nodei)
        (Some 0%Qc) None false true t
  end.

End ReactionForm.

(** ** [forms.py]: [CompartmentForm] *)

Record CompartmentForm : Type := mkCompartmentForm {
  cf_base : EditPanelForm;
  _compartments : list Compartment
}.

Definition set_cf_base (b : EditPanelForm) (s : CompartmentForm) : CompartmentForm :=
  mkCompartmentForm b (_compartments s).
Definition set_compartments (cs : list Compartment) (s : CompartmentForm) : CompartmentForm :=
  mkCompartmentForm (cf_base s) cs.

Section CompartmentForm.
Context `{Ext : Externals}.

(** [CompartmentForm.UpdateAllFields()], lines 1041-1051. *)
Definition CompartmentForm_UpdateAllFields : M CompartmentForm unit :=
  modify (fun s => set_cf_base (add_effect UpdateAllFieldsCalled (cf_base s)) s);;
  modify (fun s => set_cf_base (set_self_changes false (cf_base s)) s);;
  s ← get;
  let sel := _selected_idx (cf_base s) in
  let comps := filter (fun c => c_index c ∈ sel) (_compartments s) in
  assert (Z.of_nat (length comps) =? set_len sel);;
  let id_text := String.concat "; " (c_id <$> comps) in
  (if set_len sel =? 1 then
     match comps with
     | [comp] => ret tt
     | _ => raise ValueError
     end
   else ret tt);;
  modify (fun s => set_cf_base (add_effect (FieldsUpdated
    (mkFieldValues id_text None None None None None None "" None)) (cf_base s)) s).

Global Instance CompartmentForm_Form : Form CompartmentForm :=
  mkForm CompartmentForm cf_base set_cf_base CompartmentForm_UpdateAllFields.

(** [UpdateCompartments(comps)], lines 1024-1026. *)
Definition UpdateCompartments (comps : list Compartment) : M CompartmentForm unit :=
  modify (set_compartments comps);;
  Update.

(** [CompartmentForm.UpdateSelection(selected_idx)], lines 1028-1039. *)
Definition CompartmentForm_UpdateSelection (selected_idx : gset Z) : M CompartmentForm unit :=
  on_base (set_selected_idx selected_idx);;
  when (negb (set_len selected_idx =? 0)) UpdateAllFields.

(** [CompartmentForm._OnIdText(evt)], lines 1003-1022.  The loop reads
    [self._reactions], an attribute a compartment form does not have, so a
    non-empty identifier never reaches the controller. *)
Definition CompartmentForm__OnIdText (new_id : string) : M CompartmentForm unit :=
  s ← get;
  let sel := _selected_idx (cf_base s) in
  assert (set_len sel =? 1);;
  match elements sel with
  | [compi] =>
      if PyStr.len new_id =? 0 then
        _SetValidationState false id_ctrl (literal "ID cannot be empty")
      else raise AttributeError
  | _ => raise ValueError
  end.

End CompartmentForm.

(** ** Sequences of edits and refreshes *)

(** What happens to a form: the user edits a field, or the controller
    reports a change of the model and the view refreshes the form. *)
Inductive event (E R : Type) : Type :=
| Edit (e : E)
| Refresh (r : R).
Arguments Edit {E R} e.
Arguments Refresh {E R} r.

Section Run.
Context {S E R : Type} `{F : Form S}.
Variable handle : E -> M S unit.
Variable refresh : R -> M S unit.

(** The effects a computation adds to the trace of the form. *)
Definition new_effects (c : M S unit) (s : S) : list effect :=
  drop (length (effects (base s))) (effects (base (exec c s))).

Definition dispatch (ev : event E R) : M S unit :=
  match ev with
  | Edit e => handle e
  | Refresh r => refresh r
  end.

(** One handler after the other; an exception ends the handler that raises
    it, not the event loop. *)
Fixpoint run (evs : list (event E R)) (s : S) : S :=
  match evs with
  | [] => s
  | ev :: rest => run rest (exec (dispatch ev) s)
  end.

(** An echo refresh that repopulates: an edit of the run issues a mutation
    and the next refresh of the run invokes [UpdateAllFields].  [pending]
    tells whether a mutation was issued since the last refresh. *)
Fixpoint echo_repopulates (pending : bool) (evs : list (event E R)) (s : S) : bool :=
  match evs with
  | [] => false
  | Edit e :: rest =>
      echo_repopulates (pending || mutated (new_effects (handle e) s)) rest
                       (exec (handle e) s)
  | Refresh r :: rest =>
      pending && repopulated (new_effects (refresh r) s)
      || echo_repopulates false rest (exec (refresh r) s)
  end.

End Run.

(** ** The imported helpers, modelled from the specification *)

Module SpecModel.
Local Open Scope Qc_scope.

Definition qmax (a b : Qc) : Qc := if bool_decide (a < b) then b else a.

(** Modelled from the spec: [clamp_rect_pos] of [canvas/geometry.py] is not
    among the sources.  Section 4.2: the rectangle is translated, not
    resized, minimally so that it lies fully within the bounds. *)
Definition clamp_rect_pos (r bounds : Rect) : Vec :=
  let lo := position bounds in
  let hi := vsub (vadd (position bounds) (size bounds)) (size r) in
  mkVec2 (qmin (x hi) (qmax (x lo) (x (position r))))
         (qmin (y hi) (qmax (y lo) (y (position r)))).

(** Modelled from the spec: [clamp_rect_size] of [canvas/geometry.py] is not
    among the sources.  Section 4.2: the size may shrink so that the
    rectangle fits, starting from its fixed position. *)
Definition clamp_rect_size (r : Rect) (botright : Vec) : Vec :=
  mkVec2
    (if bool_decide (x botright < x (position r) + x (size r))
     then x botright - x (position r) else x (size r))
    (if bool_decide (y botright < y (position r) + y (size r))
     then y botright - y (position r) else y (size r)).

(** Modelled from the spec: [get_bounding_rect] of [canvas/geometry.py] is
    not among the sources.  Section 3: the smallest axis-aligned rectangle
    containing every rectangle of the list. *)
Definition get_bounding_rect (rects : list Rect) : Rect :=
  match rects with
  | [] => mkRect (mkVec2 0 0) (mkVec2 0 0)
  | r :: rest =>
      let left := foldl qmin (x (position r)) ((fun q => x (position q)) <$> rest) in
      let top := foldl qmin (y (position r)) ((fun q => y (position q)) <$> rest) in
      let right := foldl qmax (x (position r) + x (size r))
                     ((fun q => x (position q) + x (size q)) <$> rest) in
      let bottom := foldl qmax (y (position r) + y (size r))
                      ((fun q => y (position q) + y (size q)) <$> rest) in
      mkRect (mkVec2 left top) (mkVec2 (right - left) (bottom - top))
  end.

(** Rounding of a non-negative rational to the nearest integer, ties to the
    even one. *)
Definition round_half_even (q : Qc) : Z :=
  let n := Qnum q in
  let d := Zpos (Qden q) in
  let f := (n / d)%Z in
  let r := (n mod d)%Z in
  if (2 * r <? d)%Z then f
  else if (d <? 2 * r)%Z then (f + 1)%Z
  else if Z.even f then f else (f + 1)%Z.

Definition qabs (q : Qc) : Qc := if bool_decide (q < 0) then - q else q.

(** The value [|q| * 10^prec] rounded to an integer: the digits that a
    fixed-point format with [prec] decimals prints. *)
Definition scaled (q : Qc) (prec : Z) : Z :=
  round_half_even (qabs q * Qc_of_Z (10 ^ prec)).

(** [q] rounded to [prec] decimals. *)
Definition round_to (prec : Z) (q : Qc) : Qc :=
  let v := (Qc_of_Z (scaled q prec) / Qc_of_Z (10 ^ prec)) in
  if bool_decide (q < 0) then - v else v.

Fixpoint zeros (n : nat) : string :=
  match n with
  | O => EmptyString
  | Datatypes.S n' => String "0" (zeros n')
  end.

(** The fixed-point text of [q] with [prec] decimals. *)
Definition format_fixed (q : Qc) (prec : Z) : string :=
  let m := scaled q prec in
  let p := (10 ^ prec)%Z in
  let int_part := pretty (Z.to_N (m / p)) in
  let frac := pretty (Z.to_N (m mod p)) in
  let frac_part := zeros (Z.to_nat prec - String.length frac) +:+ frac in
  (if bool_decide (q < 0) then "-" else "") +:+ int_part
  +:+ (if (0 <? prec)%Z then "." +:+ frac_part else "").

(** Modelled from the spec: [no_rzeros] of [utils.py] is not among the
    sources.  Section 4.1: a common value is formatted to the configured
    precision and its trailing zeros are stripped. *)
Definition no_rzeros (q : Qc) (prec : Z) : string :=
  PyStr.rstrip_char "." (PyStr.rstrip_char "0" (format_fixed q prec)).

Definition digit_of (c : ascii) : option N :=
  let n := N_of_ascii c in
  if ((48 <=? n) && (n <=? 57))%N then Some (n - 48)%N else None.

Fixpoint digits_value (s : string) (acc : N) : option N :=
  match s with
  | EmptyString => Some acc
  | String c s' =>
      match digit_of c with
      | None => None
      | Some d => digits_value s' (10 * acc + d)%N
      end
  end.

(** The builtin [float] on plain decimal numerals: optional blanks, an
    optional sign, digits with at most one decimal point.  Python accepts
    more (exponents, [inf], [nan]); those texts have no rational value and
    are rejected here. *)
Definition py_float (text : string) : option Qc :=
  let s := PyStr.strip text in
  let '(neg, body) :=
    match s with
    | String "-" r => (true, r)
    | String "+" r => (false, r)
    | _ => (false, s)
    end in
  let signed := fun v : Qc => if (neg : bool) then - v else v in
  match PyStr.split "." body with
  | [ip] =>
      if bool_decide (ip = EmptyString) then None
      else n ← digits_value ip 0; Some (signed (Qc_of_Z (Z.of_N n)))
  | [ip; fp] =>
      if bool_decide (ip = EmptyString) && bool_decide (fp = EmptyString) then None
      else
        n ← digits_value ip 0;
        m ← digits_value fp 0;
        Some (signed (Qc_of_Z (Z.of_N n)
                      + Qc_of_Z (Z.of_N m) / Qc_of_Z (10 ^ Z.of_nat (String.length fp))))
  | _ => None
  end.

(** The helpers above as an implementation of the imports, for a platform
    flag, minimum node size and precision. *)
Definition externals (msw : bool) (min_w min_h : Qc) (prec : Z) : Externals :=
  mkExternals py_float clamp_rect_pos clamp_rect_size get_bounding_rect no_rzeros
              msw min_w min_h prec (fun _ _ _ => true).

End SpecModel.

(** ** Notions used to state the properties *)

(** The rational [n/d], for writing decimal constants. *)
Definition dec (n : Z) (d : positive) : Qc := Q2Qc (n # d).

(** The state of a form after a validation badge is set or hidden. *)
Definition badge_set (c : ctrl) (b : option message) (f : EditPanelForm) : EditPanelForm :=
  set_badges (fun c' => if decide (c' = c) then b else badges f c') f.

(** The state of a form after more effects are recorded. *)
Definition add_effects (es : list effect) (f : EditPanelForm) : EditPanelForm :=
  mkEditPanelForm (net_index f) (badges f) (_self_changes f) (_selected_idx f)
                  (effects f ++ es).

(** The state of a node form after more effects are recorded. *)
Definition log_effects (es : list effect) (s : NodeForm) : NodeForm :=
  set_nf_base (add_effects es (nf_base s)) s.

(** The state of a node form after its flag is assigned. *)
Definition with_flag (b : bool) (s : NodeForm) : NodeForm :=
  set_nf_base (set_self_changes b (nf_base s)) s.

(** The state of a node form after a validation badge is set or hidden. *)
Definition with_badge (c : ctrl) (b : option message) (s : NodeForm) : NodeForm :=
  set_nf_base (badge_set c b (nf_base s)) s.

(** The effects of the proportional resize of the selected nodes about the
    origin of the bounding rectangle [br], for a network [net]. *)
Definition resize_effects (net : Z) (br : Rect) (ratio : Vec) (nodes : list Node)
  : list effect :=
  [Controller start_group]
  ++ concat ((fun n =>
       [Controller (move_node net (index n)
          (vadd (position br) (elem_mul (vsub (node_position n) (position br)) ratio)));
        Controller (set_node_size net (index n) (elem_mul (node_size n) ratio))])
       <$> nodes)
  ++ [Controller end_group].

(** [s'] comes after [s] with the flag kept: the trace of [s'] extends that
    of [s] and the flag is the same. *)
Definition logged {S : Type} `{F : Form S} (s s' : S) : Prop :=
  exists new, effects (base s') = effects (base s) ++ new /\
              _self_changes (base s') = _self_changes (base s).

(** [s'] comes after [s] without a mutation: as [logged], and the extension
    of the trace has no mutation. *)
Definition calm {S : Type} `{F : Form S} (s s' : S) : Prop :=
  exists new, effects (base s') = effects (base s) ++ new /\
              _self_changes (base s') = _self_changes (base s) /\
              mutated new = false.

(** [s'] comes after [s] with the flag in order: the trace of [s'] extends
    that of [s], a flag that was set is still set, and the flag is set when
    the extension has a mutation. *)
Definition flagged {S : Type} `{F : Form S} (s s' : S) : Prop :=
  exists new, effects (base s') = effects (base s) ++ new /\
              (_self_changes (base s) = true -> _self_changes (base s') = true) /\
              (mutated new = true -> _self_changes (base s') = true).

(** Computations all of whose steps are of one of these kinds. *)
Definition logging {S A : Type} `{F : Form S} (c : M S A) : Prop :=
  forall s, logged s (exec c s).
Definition quiet {S A : Type} `{F : Form S} (c : M S A) : Prop :=
  forall s, calm s (exec c s).
Definition careful {S A : Type} `{F : Form S} (c : M S A) : Prop :=
  forall s, flagged s (exec c s).

(** Echo suppression for one form class, with [handle] running its edit
    handlers and [refresh] the method the view calls after a model change:
    a handler that issues a mutation leaves the flag set; a refresh that
    finds the flag set does not invoke [UpdateAllFields]; every refresh
    leaves the flag cleared; a refresh that finds the flag cleared and a
    selection does invoke it; and in no sequence of edits and refreshes
    does the first refresh after a mutating edit invoke it. *)
Definition echo_suppressed {S E R : Type} `{F : Form S}
    (handle : E -> M S unit) (refresh : R -> M S unit) : Prop :=
  (forall e s, mutated (new_effects (handle e) s) = true ->
               _self_changes (base (exec (handle e) s)) = true) /\
  (forall r s, _self_changes (base s) = true ->
               repopulated (new_effects (refresh r) s) = false) /\
  (forall r s, _self_changes (base (exec (refresh r) s)) = false) /\
  (forall r s, _self_changes (base s) = false ->
               set_len (_selected_idx (base s)) <> 0 ->
               repopulated (new_effects (refresh r) s) = true) /\
  (forall evs s, echo_repopulates handle refresh false evs s = false).

(** Concrete forms for the scenarios of the specification: Windows, minimum
    node size (10,10), precision 2, a canvas of 1000 by 1000. *)
Module Scenario.

Definition ext : Externals := SpecModel.externals true (dec 10 1) (dec 10 1) 2.

Definition vec (a b : Z) : Vec := mkVec2 (Qc_of_Z a) (Qc_of_Z b).

Definition red : Wx.Colour := Wx.mkColour 255 0 0 255.
Definition faint_red : Wx.Colour := Wx.mkColour 255 0 0 128.

Definition node (i : Z) (name : string) (pos sz : Vec) : Node :=
  mkNode i name pos sz red Wx.BLACK 1%Qc.

Definition form (nodes : list Node) (sel : gset Z) (br : option Rect) : NodeForm :=
  mkNodeForm (mkEditPanelForm 0 (fun _ => None) false sel []) nodes br (vec 1000 1000).

(** Two nodes of size (10,10) at (0,0) and (20,20), both selected. *)
Definition two_nodes : NodeForm :=
  form [node 0 "A" (vec 0 0) (vec 10 10); node 1 "B" (vec 20 20) (vec 10 10)]
       {[0; 1]} (Some (mkRect (vec 0 0) (vec 30 30))).

(** The same selection with a first node of width zero. *)
Definition zero_width : NodeForm :=
  form [node 0 "A" (vec 0 0) (vec 0 10); node 1 "B" (vec 20 20) (vec 10 10)]
       {[0; 1]} (Some (mkRect (vec 0 0) (vec 30 30))).

(** One selected node at (5,5) of size (20,20). *)
Definition one_node : NodeForm :=
  form [node 0 "A" (vec 5 5) (vec 20 20)] {[0]} None.

End Scenario.

(** ** [plugins/arrow_designer.py]: sequences of pointer events *)

Module DesignerEvents.
Import ArrowDesigner.

(** The three pointer events the window binds, lines 57-59, with the
    position of the pointer where the handler reads it. *)
Inductive pointer_event : Type :=
| LeftDown
| LeftUp (pos : Vec2 Z)
| Motion (pos : Vec2 Z).

Definition handle (ev : pointer_event) : M DesignerWindow unit :=
  match ev with
  | LeftDown => OnLeftDown
  | LeftUp pos => OnLeftUp pos
  | Motion pos => OnMotion pos
  end.

(** One handler after the other; an exception ends the handler that raises
    it, not the event loop. *)
Fixpoint run (evs : list pointer_event) (w : DesignerWindow) : DesignerWindow :=
  match evs with
  | [] => w
  | ev :: rest => run rest (exec (handle ev) w)
  end.

(** The hovered index is -1 or the index of a control point, and a window
    that is dragging has a hovered point. *)
Definition consistent (w : DesignerWindow) : Prop :=
  -1 <= hover_idx w < Z.of_nat (length (points w)) /\
  (dragging w = true -> hover_idx w <> -1).

(** Whether the pointer at [pos] is within the radius of the control point
    at cell [pt]: the test of [update_hover_idx], line 119. *)
Definition near (w : DesignerWindow) (pos pt : Vec2 Z) : Prop :=
  (x pos - x pt * csize w) * (x pos - x pt * csize w)
  + (y pos - y pt * csize w) * (y pos - y pt * csize w) <= radius_sq w.

End DesignerEvents.

(** ** [plugins/arrow_designer.py]: what painting checks *)

Module DesignerPaint.
Import ArrowDesigner.

(** [l[i]] on a Python list: a negative index counts from the end, an index
    out of range raises [IndexError]. *)
Definition list_getitem {A} (l : list A) (i : Z) : result A :=
  let n := Z.of_nat (length l) in
  let j := if i <? 0 then i + n else i in
  if (0 <=? j) && (j <? n) then
    match l !! Z.to_nat j with
    | Some a => Ok a
    | None => Raise IndexError
    end
  else Raise IndexError.

(** The assertions and the list indexing of [draw_points(gc, points,
    radius)], lines 127-162, which [OnPaint] calls with the points of the
    arrow tip: how the method ends.  The calls that draw on the graphics
    context are left out. *)
Definition draw_points (w : DesignerWindow) : result unit :=
  let plotted := (fun p => mkVec2 (x p * csize w) (y p * csize w)) <$> points w in
  let replaced :=
    if dragging w then
      match negb (hover_idx w =? -1), dragged_point w with
      | true, Some d => list_setitem plotted (hover_idx w) d
      | _, _ => Raise AssertionError
      end
    else Ok plotted in
  match replaced with
  | Raise e => Raise e
  | Ok plotted =>
      match list_getitem plotted 0 with
      | Raise e => Raise e
      | Ok _ =>
          if hover_idx w =? -1 then Ok tt
          else
            let point :=
              if dragging w then Ok (dragged_point w)
              else match list_getitem plotted (hover_idx w) with
                   | Ok p => Ok (Some p)
                   | Raise e => Raise e
                   end in
            match point with
            | Raise e => Raise e
            | Ok point =>
                if negb ((0 <=? hover_idx w) && (hover_idx w <? 4)) then Raise AssertionError
                else match point with
                     | None => Raise AssertionError
                     | Some _ =>
                         if dragging w then
                           match dragged_point w with
                           | None => Raise AssertionError
                           | Some _ => Ok tt
                           end
                         else Ok tt
                     end
            end
      end
  end.

End DesignerPaint.

(** ** [rkviewer/types.py]: iterating over a vector *)

Module Vec2Iter.

(** A [Vec2] object as an iterator: its two components and the counter
    [_i]. *)
Record t (E : Type) : Type := mk { vec : Vec2 E; _i : Z }.
Arguments mk {E} vec _i.
Arguments vec {E} t.
Arguments _i {E} t.

(** [Vec2.__iter__()], lines 18-20: the object itself, its counter reset. *)
Definition __iter__ {E} (v : t E) : t E := mk (vec v) 0.

(** [Vec2.__next__()], lines 22-30; [None] stands for [StopIteration]. *)
Definition __next__ {E} (v : t E) : option E * t E :=
  if _i v =? 0 then (Some (x (vec v)), mk (vec v) (_i v + 1))
  else if _i v =? 1 then (Some (y (vec v)), mk (vec v) (_i v + 1))
  else (None, v).

(** The loop of [for e in it]: calls of [__next__] until it stops, at most
    [fuel] of them; the elements seen and the iterator as it is left, or
    [None] when the fuel runs out first. *)
Fixpoint drain {E} (fuel : nat) (v : t E) : option (list E * t E) :=
  match fuel with
  | O => None
  | Datatypes.S fuel' =>
      match __next__ v with
      | (None, v') => Some ([], v')
      | (Some e, v') =>
          match drain fuel' v' with
          | None => None
          | Some (es, v'') => Some (e :: es, v'')
          end
      end
  end.

(** [list(v)]: [iter(v)], then the loop. *)
Definition to_list {E} (fuel : nat) (v : t E) : option (list E * t E) :=
  drain fuel (__iter__ v).

(** The outer loop of [for a in v: for b in v: ...] once [iter(v)] has
    returned: each round takes [a] with [__next__] and runs the inner loop,
    which starts with [iter(v)] on the same object. *)
Fixpoint nested {E} (fuel : nat) (v : t E) : option (list (E * E) * t E) :=
  match fuel with
  | O => None
  | Datatypes.S fuel' =>
      match __next__ v with
      | (None, v') => Some ([], v')
      | (Some a, v') =>
          match to_list fuel' v' with
          | None => None
          | Some (bs, v'') =>
              match nested fuel' v'' with
              | None => None
              | Some (ps, v3) => Some (((fun b => (a, b)) <$> bs) ++ ps, v3)
              end
          end
      end
  end.

(** [[(a, b) for a in v for b in v]] *)
Definition pairs {E} (fuel : nat) (v : t E) : option (list (E * E) * t E) :=
  nested fuel (__iter__ v).

End Vec2Iter.

(** ** [forms.py]: the caret of a paired-number field *)

Module Caret.

(** Whether [p] is a prefix of [s]. *)
Fixpoint starts_with (p s : string) : bool :=
  match p, s with
  | EmptyString, _ => true
  | String a p', String b s' => Ascii.eqb a b && starts_with p' s'
  | String _ _, EmptyString => false
  end.

(** [s.index(sub)]: the position of the first occurrence of [sub] in [s];
    [None] stands for its [ValueError]. *)
Fixpoint index_sub (sub s : string) : option Z :=
  if starts_with sub s then Some 0
  else match s with
       | EmptyString => None
       | String _ s' => Z.succ <$> index_sub sub s'
       end.

(** [_SetBestInsertion(ctrl, orig_text, orig_insertion)], lines 201-227:
    the insertion point it sets, for the value [new_text] of the control. *)
Definition _SetBestInsertion (new_text orig_text : string) (orig_insertion : Z)
  : result Z :=
  match PyStr.index "," orig_text with
  | None => Raise ValueError
  | Some mid =>
      if mid <? orig_insertion then Ok (PyStr.len new_text)
      else
        match PyStr.split "," new_text with
        | [t0; t1] =>
            let left := PyStr.strip t0 in
            match index_sub left new_text with
            | None => Raise ValueError
            | Some lstart => Ok (lstart + PyStr.len left)
            end
        | _ => Raise AssertionError
        end
  end.

End Caret.

(** The number of occurrences of a character in a string. *)
Fixpoint count_char (c : ascii) (s : string) : nat :=
  match s with
  | EmptyString => 0
  | String d s' => (if Ascii.eqb d c then 1 else 0) + count_char c s'
  end.

(** The settings of [Scenario] on a platform other than Windows, where the
    colour picker carries the alpha and the forms have no opacity field. *)
Module OffWindows.

Definition ext : Externals := SpecModel.externals false (dec 10 1) (dec 10 1) 2.

End OffWindows.

(** ** The multi-node transforms and the range test on binary64 numbers

    The quantities of [forms.py] are Python [float]s: IEEE 754 binary64
    numbers, whose sums, differences, products and quotients are rounded and
    which include the infinities and NaN.  [Float64] repeats over the
    primitive floats the code whose result depends on that: the two [else]
    branches of [NodeForm._OnPosText] and [NodeForm._OnSizeText], and the
    range test of [float_ctrl_fn]. *)
Module Float64.
Import PrimFloat.
Local Open Scope float_scope.

Abbreviation Vec := (Vec2 float).

(** Modelled from the spec: [a + b], [a - b] and [a.elem_mul(b)] on the
    vectors of [canvas/geometry.py], which is not among the sources:
    component by component, each a [float] operation. *)
Definition vadd (a b : Vec) : Vec := mkVec2 (x a + x b) (y a + y b).
Definition vsub (a b : Vec) : Vec := mkVec2 (x a - x b) (y a - y b).
Definition elem_mul (a b : Vec) : Vec := mkVec2 (x a * x b) (y a * y b).

(** Python's [a / b] on floats raises [ZeroDivisionError] for a divisor
    equal to zero, of either sign. *)
Definition py_div (a b : float) : result float :=
  if b =? 0 then Raise ZeroDivisionError else Ok (a / b).

(** Sequencing of operations that may raise. *)
Definition and_then {A B} (r : result A) (k : A -> result B) : result B :=
  match r with
  | Ok a => k a
  | Raise e => Raise e
  end.

(** Modelled from the spec: [a.elem_div(b)] of [canvas/geometry.py], which
    is not among the sources. *)
Definition elem_div (a b : Vec) : result Vec :=
  and_then (py_div (x a) (x b)) (fun qx =>
  and_then (py_div (y a) (y b)) (fun qy =>
  Ok (mkVec2 qx qy))).

(** Modelled from the spec: [a != b] on the vectors of
    [canvas/geometry.py]: some component differs, by the [!=] of floats. *)
Definition vne (a b : Vec) : bool := negb (x a =? x b) || negb (y a =? y b).

(** [Rect(position, size)] *)
Record Rect : Type := mkRect { position : Vec; size : Vec }.

(** The attributes of a node that the two handlers read and write. *)
Record Node : Type := mkNode { index : Z; node_position : Vec; node_size : Vec }.

(** The calls on the controller that the two handlers make. *)
Inductive call : Type :=
| start_group
| end_group
| move_node (neti nodei : Z) (pos : Vec)
| set_node_size (neti nodei : Z) (sz : Vec).

(** [min(a, b)], the first of two equal arguments, and [min(...)] over a
    sequence: [ValueError] when it is empty. *)
Definition fmin (a b : float) : float := if b <? a then b else a.

Definition py_min (l : list float) : result float :=
  match l with
  | [] => Raise ValueError
  | a :: rest => Ok (foldl fmin a rest)
  end.

Definition fmax (a b : float) : float := if a <? b then b else a.

(** Modelled from the spec: [clamp_rect_pos] and [clamp_rect_size] of
    [canvas/geometry.py] are not among the sources.  Section 4.2: the first
    translates the rectangle minimally so that it lies within the bounds,
    the second shrinks the size so that the rectangle fits, starting from
    its fixed position. *)
Definition clamp_rect_pos (r bounds : Rect) : Vec :=
  let lo := position bounds in
  let hi := vsub (vadd (position bounds) (size bounds)) (size r) in
  mkVec2 (fmin (x hi) (fmax (x lo) (x (position r))))
         (fmin (y hi) (fmax (y lo) (y (position r)))).

Definition clamp_rect_size (r : Rect) (botright : Vec) : Vec :=
  mkVec2
    (if x botright <? x (position r) + x (size r)
     then x botright - x (position r) else x (size r))
    (if y botright <? y (position r) + y (size r)
     then y botright - y (position r) else y (size r)).

(** What a handler did: it showed the badge of its field, or it made the
    calls of the list and hid the badge. *)
Inductive outcome : Type :=
| Rejected
| Sent (calls : list call).

Section Handlers.
Variables (net_index : Z) (min_node_width min_node_height : float).
Variables (canvas_realsize : Vec) (_bounding_rect : Rect).

(** The [else] branch of [_OnPosText], lines 574-585: the selected nodes
    as the loop of line 580 leaves them, and the calls. *)
Definition OnPosText_multi (nodes : list Node) (pos : Vec) : list Node * list call :=
  let bounds := mkRect (mkVec2 0 0) canvas_realsize in
  let clamped := clamp_rect_pos (mkRect pos (size _bounding_rect)) bounds in
  if vne (position _bounding_rect) pos || vne pos clamped then
    let offset := vsub clamped (position _bounding_rect) in
    let nodes' :=
      (fun node => mkNode (index node) (vadd (node_position node) offset) (node_size node))
        <$> nodes in
    (nodes',
     start_group ::
     ((fun node => move_node net_index (index node) (node_position node)) <$> nodes')
     ++ [end_group])
  else (nodes, []).

(** The [else] branch of [_OnSizeText], lines 614-638. *)
Definition OnSizeText_multi (nodes : list Node) (sz : Vec) : result outcome :=
  and_then (py_min ((fun n => x (node_size n)) <$> nodes)) (fun min_nw =>
  and_then (py_min ((fun n => y (node_size n)) <$> nodes)) (fun min_nh =>
  and_then (py_div min_node_width min_nw) (fun rx =>
  and_then (py_div min_node_height min_nh) (fun ry =>
  let min_ratio := mkVec2 rx ry in
  let limit := elem_mul (size _bounding_rect) min_ratio in
  if (x sz <? x limit) || (y sz <? y limit) then Ok Rejected
  else
    let clamped := clamp_rect_size (mkRect (position _bounding_rect) sz) canvas_realsize in
    if vne (size _bounding_rect) clamped || vne sz clamped then
      and_then (elem_div clamped (size _bounding_rect)) (fun ratio =>
      Ok (Sent
        (start_group ::
         concat ((fun node =>
                    let rel_pos := vsub (node_position node) (position _bounding_rect) in
                    let new_pos := vadd (position _bounding_rect) (elem_mul rel_pos ratio) in
                    [move_node net_index (index node) new_pos;
                     set_node_size net_index (index node) (elem_mul (node_size node) ratio)])
                   <$> nodes)
         ++ [end_group])))
    else Ok (Sent []))))).

End Handlers.

(** The range test of [float_ctrl_fn], lines 302-314: the value of [good]
    for the [float] that was read. *)
Definition good (lo hi : option float) (left_incl right_incl : bool) (value : float) : bool :=
  let below :=
    match lo with
    | None => false
    | Some l => if left_incl then value <? l else value <=? l
    end in
  let above :=
    match hi with
    | None => false
    | Some h => if right_incl then h <? value else h <=? value
    end in
  negb (below || above).

(** The range test of the stoichiometry fields, lines 907-908 and 917-918:
    the range [(0, None)] with [left_incl=False]. *)
Definition stoich_good (value : float) : bool := good (Some 0) None false true value.

(** Three selected nodes enclosed by the rectangle of size (30,30) at the
    origin, at the offsets 0, 1 and 7 from it. *)
Definition vec (a b : float) : Vec := mkVec2 a b.












Definition zero : float := 0.

End Float64.

(** * Theorems *)

Arguments get_nodes_by_idx : simpl never.
Arguments py_min : simpl never.
Arguments py_div : simpl never.
Arguments elem_div : simpl never.
Arguments elem_mul : simpl never.
Arguments vadd : simpl never.
Arguments vsub : simpl never.
Arguments set_len : simpl never.
Arguments PyStr.len : simpl never.
Arguments parse_num_pair : simpl never.
Arguments selected : simpl never.

(** ** Running computations *)

Lemma exec_bind {S A B} (c : M S A) (k : A -> M S B) (s : S) :
  exec (c ≫= k) s =
  match eval c s with
  | Ok a => exec (k a) (exec c s)
  | Raise _ => exec c s
  end.
Proof.
  unfold exec, eval, mbind, M_bind, Py.bind. destruct (c s) as [[a|e] s']; reflexivity.
Qed.

Lemma eval_bind {S A B} (c : M S A) (k : A -> M S B) (s : S) :
  eval (c ≫= k) s =
  match eval c s with
  | Ok a => eval (k a) (exec c s)
  | Raise e => Raise e
  end.
Proof.
  unfold exec, eval, mbind, M_bind, Py.bind. destruct (c s) as [[a|e] s']; reflexivity.
Qed.


(** One step of a computation: the binds and the primitives of the monad. *)
Ltac py_run :=
  unfold mbind, M_bind, mret, M_ret, Py.bind, Py.get, Py.ret, Py.lift, Py.modify,
    Py.gets, Py.when, Py.assert, Py.raise;
  cbv beta iota zeta.

Lemma new_effects_app {S} `{F : Form S} (c : M S unit) (s : S) (es : list effect) :
  effects (base (exec c s)) = effects (base s) ++ es ->
  new_effects c s = es.
Proof. unfold new_effects. intros ->. by rewrite drop_app_length. Qed.

Lemma new_effects_same {S} `{F : Form S} (c : M S unit) (s : S) :
  effects (base (exec c s)) = effects (base s) ->
  new_effects c s = [].
Proof. intros H. apply new_effects_app. by rewrite app_nil_r. Qed.


(** ** [parse_precisions] *)

(** What [parse_precisions] computes for a text of two pieces: the first
    component is the precision of the first piece; the second subtracts the
    position of the point in the second piece from the length of the
    first. *)
Lemma parse_precisions_pieces (text n0 n1 : string) :
  PyStr.split "," text = [n0; n1] ->
  parse_precisions text =
  Ok (decimal_precision_of n0,
      match PyStr.index "." (PyStr.strip n1) with
      | Some i => PyStr.len (PyStr.strip n0) - i - 1
      | None => 0
      end).
Proof. intros H. unfold parse_precisions, decimal_precision_of. by rewrite H. Qed.

(** When both numerals have the same length after stripping, the result is
    the pair of their precisions. *)
Lemma parse_precisions_same_length (text n0 n1 : string) :
  PyStr.split "," text = [n0; n1] ->
  PyStr.len (PyStr.strip n0) = PyStr.len (PyStr.strip n1) ->
  parse_precisions text = Ok (decimal_precision_of n0, decimal_precision_of n1).
Proof.
  intros H Hl. rewrite (parse_precisions_pieces _ _ _ H).
  unfold decimal_precision_of. by rewrite Hl.
Qed.

(** C10.  On the text [1.5, 22.75] the function returns (1, 0), while the
    numerals have 1 and 2 digits after the decimal point: the second
    component is computed from the length of the first numeral. *)
Theorem parse_precisions_second_uses_first_length :
  parse_precisions "1.5, 22.75" = Ok (1, 0) /\
  decimal_precision_of "1.5" = 1 /\
  decimal_precision_of " 22.75" = 2.
Proof. split_and!; reflexivity. Qed.
(** ** The arrow-tip designer *)

Section ArrowDesignerFacts.
Import ArrowDesigner.

Lemma lt_half_spec (d c : Z) : lt_half d c = true <-> 2 * d < c.
Proof.
  unfold lt_half. rewrite bool_decide_eq_true.
  assert (H2 : (0 < 2)%Qc) by (rewrite <- Z2Qc_inj_0, <- Z2Qc_inj_2, <- Z2Qc_inj_lt; lia).
  rewrite (Qcmult_lt_mono_pos_r _ _ 2%Qc H2).
  assert (Hne : (2 : Qc) <> 0%Qc) by (intros E; rewrite E in H2; by apply (irreflexivity Qclt 0%Qc)).
  replace (Qc_of_Z c / 2 * 2)%Qc with (Qc_of_Z c) by (field; exact Hne).
  rewrite <- Z2Qc_inj_2, <- Z2Qc_inj_mul, <- Z2Qc_inj_lt. lia.
Qed.

(** The landing coordinate of one axis. *)
Lemma landing_axis (c v : Z) :
  0 < c ->
  (if lt_half (v - (v - v mod c)) c then v - v mod c else v - v mod c + c) =
  (if lt_half (v mod c) c then v / c * c else v / c * c + c).
Proof.
  intros Hc.
  replace (v - (v - v mod c)) with (v mod c) by lia.
  replace (v - v mod c) with (v / c * c) by (pose proof (Z.div_mod v c); lia).
  reflexivity.
Qed.

Lemma landing_axis_multiple (c v : Z) :
  0 < c ->
  (if lt_half (v - (v - v mod c)) c then v - v mod c else v - v mod c + c) mod c = 0.
Proof.
  intros Hc. rewrite landing_axis by done.
  destruct (lt_half (v mod c) c).
  - apply Z.mod_mul. lia.
  - replace (v / c * c + c) with ((v / c + 1) * c) by lia. apply Z.mod_mul. lia.
Qed.

Lemma landing_axis_fixed (c v : Z) :
  0 < c -> v mod c = 0 ->
  (if lt_half (v - (v - v mod c)) c then v - v mod c else v - v mod c + c) = v.
Proof.
  intros Hc Hv. rewrite Hv.
  replace (v - (v - 0)) with 0 by lia.
  assert (lt_half 0 c = true) as -> by (apply lt_half_spec; lia).
  lia.
Qed.

End ArrowDesignerFacts.

(** C4.  For a positive cell size [c], the landing position of a release at
    [p] is, on each axis on its own, [floor(p/c)*c] when [p mod c < c/2] and
    [floor(p/c)*c + c] otherwise; a landing position lands on itself; and a
    release while dragging stores at the dragged control point the cell index
    of the landing position, its pixel coordinates divided by [c] - with
    [c = 20], a release at pixel (51,39) stores cell (3,2). *)
Theorem grid_snap_landing_and_commit (w : ArrowDesigner.DesignerWindow) (p pos : Vec2 Z) :
  0 < ArrowDesigner.csize w ->
  let c := ArrowDesigner.csize w in
  let below_half := fun v : Z => (Qc_of_Z (v mod c) < Qc_of_Z c / 2)%Qc in
  let drop := ArrowDesigner.projected_landing w p in
  (below_half (x p) -> x drop = x p / c * c) /\
  (~ below_half (x p) -> x drop = x p / c * c + c) /\
  (below_half (y p) -> y drop = y p / c * c) /\
  (~ below_half (y p) -> y drop = y p / c * c + c) /\
  ArrowDesigner.projected_landing w drop = drop /\
  (ArrowDesigner.dragging w = true ->
   ArrowDesigner.dragged_point w = Some p ->
   0 <= ArrowDesigner.hover_idx w < Z.of_nat (length (ArrowDesigner.points w)) ->
   let w' := exec (ArrowDesigner.OnLeftUp pos) w in
   eval (ArrowDesigner.OnLeftUp pos) w = Ok tt /\
   ArrowDesigner.dragging w' = false /\
   ArrowDesigner.points w' !! Z.to_nat (ArrowDesigner.hover_idx w)
     = Some (mkVec2 (x drop / c) (y drop / c)) /\
   x drop = x drop / c * c /\ y drop = y drop / c * c) /\
  (c = 20 -> p = mkVec2 51 39 -> mkVec2 (x drop / c) (y drop / c) = mkVec2 3 2).
Proof.
  intros Hc c below_half drop.
  assert (Hx : x drop = if ArrowDesigner.lt_half (x p mod c) c
                        then x p / c * c else x p / c * c + c)
    by (apply landing_axis; exact Hc).
  assert (Hy : y drop = if ArrowDesigner.lt_half (y p mod c) c
                        then y p / c * c else y p / c * c + c)
    by (apply landing_axis; exact Hc).
  assert (Hb : forall v, below_half v <-> ArrowDesigner.lt_half (v mod c) c = true).
  { intros v. unfold below_half, ArrowDesigner.lt_half. by rewrite bool_decide_eq_true. }
  assert (Hmx : x drop mod c = 0) by (apply landing_axis_multiple; exact Hc).
  assert (Hmy : y drop mod c = 0) by (apply landing_axis_multiple; exact Hc).
  split_and!.
  - intros H%Hb. by rewrite Hx, H.
  - intros H. rewrite Hx. destruct (ArrowDesigner.lt_half (x p mod c) c) eqn:E; [|done].
    by destruct H; apply Hb.
  - intros H%Hb. by rewrite Hy, H.
  - intros H. rewrite Hy. destruct (ArrowDesigner.lt_half (y p mod c) c) eqn:E; [|done].
    by destruct H; apply Hb.
  - unfold ArrowDesigner.projected_landing at 1. fold c.
    rewrite (landing_axis_fixed c (x drop) Hc Hmx), (landing_axis_fixed c (y drop) Hc Hmy).
    by destruct drop.
  - intros Hdrag Hpt [Hlo Hhi] w'.
    assert (Hne : (ArrowDesigner.hover_idx w =? -1) = false) by (apply Z.eqb_neq; lia).
    assert (Hset : forall v, ArrowDesigner.list_setitem (ArrowDesigner.points w)
                     (ArrowDesigner.hover_idx w) v
                   = Ok (<[Z.to_nat (ArrowDesigner.hover_idx w) := v]> (ArrowDesigner.points w))).
    { intros v. unfold ArrowDesigner.list_setitem.
      destruct (Z.ltb_spec (ArrowDesigner.hover_idx w) 0); [lia|].
      destruct (Z.leb_spec 0 (ArrowDesigner.hover_idx w)); [|lia].
      destruct (Z.ltb_spec (ArrowDesigner.hover_idx w)
                  (Z.of_nat (length (ArrowDesigner.points w)))); [|lia].
      reflexivity. }
    set (w1 := ArrowDesigner.set_points
                 (<[Z.to_nat (ArrowDesigner.hover_idx w) := mkVec2 (x drop / c) (y drop / c)]>
                    (ArrowDesigner.points w)) (ArrowDesigner.set_dragging false w)).
    assert (Hrun : ArrowDesigner.OnLeftUp pos w =
              (Ok tt, ArrowDesigner.set_hover_idx
                 (ArrowDesigner.first_hovered w1 pos 0 (ArrowDesigner.points w1)) w1)).
    { unfold ArrowDesigner.OnLeftUp, mbind, M_bind, Py.bind, Py.get, Py.when.
      rewrite Hdrag, Hpt. unfold Py.assert. rewrite Hne. cbn.
      unfold Py.lift. rewrite Hset. reflexivity. }
    subst w'. unfold exec, eval. rewrite Hrun. cbn.
    split_and!; try done.
    + apply list_lookup_insert_eq. lia.
    + rewrite Z.mul_comm. apply Z.div_exact; [unfold c; lia | exact Hmx].
    + rewrite Z.mul_comm. apply Z.div_exact; [unfold c; lia | exact Hmy].
  - intros Hc20 ->. rewrite Hx, Hy, Hc20. reflexivity.
Qed.

(** The release of the specification's scenario: cell size 20, the point at
    cell (2,1) dragged and released at pixel (51,39). *)
Lemma grid_snap_landing_and_commit_witness :
  let w := ArrowDesigner.mkDesignerWindow 20 [mkVec2 0 0; mkVec2 2 1; mkVec2 5 5; mkVec2 9 3]
             144 1 (Some (mkVec2 51 39)) true in
  ArrowDesigner.projected_landing w (mkVec2 51 39) = mkVec2 60 40 /\
  ArrowDesigner.points (exec (ArrowDesigner.OnLeftUp (mkVec2 51 39)) w) !! 1%nat
    = Some (mkVec2 3 2).
Proof.
  intros w.
  pose proof (grid_snap_landing_and_commit w (mkVec2 51 39) (mkVec2 51 39) eq_refl) as H.
  cbv zeta in H.
  destruct H as (_ & _ & _ & _ & _ & Hup & _).
  destruct (Hup eq_refl eq_refl) as (_ & _ & Hp & _).
  { split; [discriminate | reflexivity]. }
  split; [reflexivity | exact Hp].
Defined.

(** ** The node form: how the size and position handlers run *)

Section NodeFormRuns.
Context `{Ext : Externals}.

Lemma log_effects_nil (s : NodeForm) : log_effects [] s = s.
Proof.
  destruct s as [[n b f sel es] ns br rs]. unfold log_effects, add_effects, set_nf_base.
  cbn. by rewrite app_nil_r.
Qed.

Lemma log_effects_app (es1 es2 : list effect) (s : NodeForm) :
  log_effects es2 (log_effects es1 s) = log_effects (es1 ++ es2) s.
Proof.
  unfold log_effects, add_effects, set_nf_base. cbn. by rewrite app_assoc.
Qed.

(** A loop whose body only records effects records them node after node. *)
Lemma for_each_effects {A} (body : A -> M NodeForm unit) (f : A -> list effect) :
  (forall a s, body a s = (Ok tt, log_effects (f a) s)) ->
  forall (l : list A) (s : NodeForm),
    for_each l body s = (Ok tt, log_effects (concat (f <$> l)) s).
Proof.
  intros Hbody l. induction l as [|a l IH]; intros s.
  - cbn. by rewrite log_effects_nil.
  - cbn [for_each]. py_run. rewrite Hbody, IH, log_effects_app. reflexivity.
Qed.

Lemma controller_run (c : call) (s : NodeForm) :
  controller c s = (Ok tt, log_effects [Controller c] s).
Proof. reflexivity. Qed.

Lemma assign_self_changes_run (b : bool) (s : NodeForm) :
  assign_self_changes b s = (Ok tt, with_flag b s).
Proof. reflexivity. Qed.

Lemma SetValidationState_run (good : bool) (c : ctrl) (msg : message) (s : NodeForm) :
  _SetValidationState good c msg s
  = (Ok tt, with_badge c (if good then None else Some msg) s).
Proof. reflexivity. Qed.

Lemma post_DidMoveNodesEvent_run (nodes : list Node) (offset : Vec) (s : NodeForm) :
  post_DidMoveNodesEvent nodes offset s
  = (Ok tt, log_effects [DidMoveNodesEvent nodes offset false] s).
Proof. reflexivity. Qed.

Lemma calls_of_controller (cs : list call) : calls_of (Controller <$> cs) = cs.
Proof. unfold calls_of. induction cs as [|c cs IH]; cbn; [done|by rewrite IH]. Qed.

Lemma calls_of_app (l1 l2 : list effect) : calls_of (l1 ++ l2) = calls_of l1 ++ calls_of l2.
Proof. unfold calls_of. apply omap_app. Qed.

Lemma OnSizeText_single_node (s : NodeForm) (text : string) (w h : Qc) (node : Node) :
  parse_num_pair text = Some (w, h) ->
  get_nodes_by_idx (_nodes s) (_selected_idx (nf_base s)) = [node] ->
  NodeForm__OnSizeText text s = OnSizeText_single node (mkVec2 w h) s.
Proof.
  intros Hp Hn. unfold NodeForm__OnSizeText. rewrite Hp. py_run. by rewrite Hn.
Qed.

Lemma OnSizeText_several_nodes (s : NodeForm) (text : string) (w h : Qc) :
  parse_num_pair text = Some (w, h) ->
  (2 <= length (get_nodes_by_idx (_nodes s) (_selected_idx (nf_base s))))%nat ->
  NodeForm__OnSizeText text s =
  OnSizeText_multi (get_nodes_by_idx (_nodes s) (_selected_idx (nf_base s))) (mkVec2 w h) s.
Proof.
  intros Hp Hn. unfold NodeForm__OnSizeText. rewrite Hp. py_run.
  destruct (get_nodes_by_idx (_nodes s) (_selected_idx (nf_base s))) as [|n1 [|n2 l]];
    cbn in Hn; try lia; reflexivity.
Qed.


(** The multi-node branch when the smallest width and height are not zero
    and the form has its bounding rectangle: rejection, resize or nothing. *)
Lemma OnSizeText_multi_run (s : NodeForm) (nodes : list Node) (sz : Vec)
    (br : Rect) (min_nw min_nh : Qc) :
  py_min ((fun n => x (node_size n)) <$> nodes) = Ok min_nw ->
  py_min ((fun n => y (node_size n)) <$> nodes) = Ok min_nh ->
  min_nw <> 0%Qc -> min_nh <> 0%Qc ->
  _bounding_rect s = Some br ->
  let limit := elem_mul (size br)
                 (mkVec2 (min_node_width / min_nw)%Qc (min_node_height / min_nh)%Qc) in
  let clamped := clamp_rect_size (mkRect (position br) sz) (canvas_realsize s) in
  OnSizeText_multi nodes sz s =
  (if bool_decide (x sz < x limit)%Qc || bool_decide (y sz < y limit)%Qc then
     (Ok tt, with_badge size_ctrl
               (Some (mkMessage "Size of bounding box needs to be at least ({}, {})"
                        [ArgStr (no_rzeros (x limit) 2); ArgStr (no_rzeros (y limit) 2)])) s)
   else if bool_decide (size br ≠ clamped) || bool_decide (sz ≠ clamped) then
     match elem_div clamped (size br) with
     | Raise e => (Raise e, s)
     | Ok ratio =>
         (Ok tt, with_badge size_ctrl None
                   (log_effects (resize_effects (net_index (nf_base s)) br ratio nodes)
                      (with_flag true s)))
     end
   else (Ok tt, with_badge size_ctrl None s)).
Proof.
  intros Hw Hh Hnw Hnh Hbr limit clamped.
  unfold OnSizeText_multi. py_run. rewrite Hw. py_run. rewrite Hh. py_run.
  unfold py_div. rewrite !bool_decide_eq_false_2 by done. py_run.
  rewrite Hbr. fold limit.
  destruct (bool_decide (x sz < x limit)%Qc || bool_decide (y sz < y limit)%Qc); [reflexivity|].
  py_run. fold clamped.
  destruct (bool_decide (size br ≠ clamped) || bool_decide (sz ≠ clamped)); [|reflexivity].
  py_run. destruct (elem_div clamped (size br)) as [ratio|e]; [|reflexivity].
  py_run. rewrite assign_self_changes_run, controller_run.
  rewrite (for_each_effects _ (fun n =>
       [Controller (move_node (net_index (nf_base s)) (index n)
          (vadd (position br) (elem_mul (vsub (node_position n) (position br)) ratio)));
        Controller (set_node_size (net_index (nf_base s)) (index n)
          (elem_mul (node_size n) ratio))])).
  2:{ intros n s0. rewrite controller_run, controller_run, log_effects_app. reflexivity. }
  rewrite controller_run, !log_effects_app, SetValidationState_run.
  reflexivity.
Qed.

(** The multi-node branch when the smallest width or height is zero: the
    division for [min_ratio] raises, and the form is as it was. *)
Lemma OnSizeText_multi_zero (s : NodeForm) (nodes : list Node) (sz : Vec)
    (min_nw min_nh : Qc) :
  py_min ((fun n => x (node_size n)) <$> nodes) = Ok min_nw ->
  py_min ((fun n => y (node_size n)) <$> nodes) = Ok min_nh ->
  min_nw = 0%Qc \/ min_nh = 0%Qc ->
  OnSizeText_multi nodes sz s = (Raise ZeroDivisionError, s).
Proof.
  intros Hw Hh Hz.
  unfold OnSizeText_multi. py_run. rewrite Hw. py_run. rewrite Hh. py_run.
  unfold py_div.
  destruct (decide (min_nw = 0%Qc)) as [Hnw|Hnw].
  - by rewrite (bool_decide_eq_true_2 _ Hnw).
  - rewrite (bool_decide_eq_false_2 _ Hnw).
    destruct Hz as [Hz|Hz]; [done|]. by rewrite (bool_decide_eq_true_2 _ Hz).
Qed.

End NodeFormRuns.

(** ** The size handler *)

Section SizeText.
Context `{Ext : Externals}.

Lemma elem_div_ok (a b r : Vec) :
  elem_div a b = Ok r ->
  x b <> 0%Qc /\ y b <> 0%Qc /\ r = mkVec2 (x a / x b)%Qc (y a / y b)%Qc.
Proof.
  unfold elem_div, py_div. intros H.
  destruct (decide (x b = 0%Qc)) as [Hx|Hx].
  { rewrite (bool_decide_eq_true_2 _ Hx) in H. discriminate. }
  rewrite (bool_decide_eq_false_2 _ Hx) in H.
  destruct (decide (y b = 0%Qc)) as [Hy|Hy].
  { rewrite (bool_decide_eq_true_2 _ Hy) in H. discriminate. }
  rewrite (bool_decide_eq_false_2 _ Hy) in H.
  by inversion H.
Qed.

Lemma elem_div_defined (a b : Vec) :
  x b <> 0%Qc -> y b <> 0%Qc ->
  elem_div a b = Ok (mkVec2 (x a / x b)%Qc (y a / y b)%Qc).
Proof.
  intros Hx Hy. unfold elem_div, py_div.
  by rewrite (bool_decide_eq_false_2 _ Hx), (bool_decide_eq_false_2 _ Hy).
Qed.


End SizeText.


Section SizeRejectedScenario.
Local Existing Instance Scenario.ext.


End SizeRejectedScenario.

Section ZeroWidthScenario.
Local Existing Instance Scenario.ext.

(** C6, as stated, fails: with a selected node of width zero the handler
    computes [min_width / min(selected widths)] with a zero divisor.  It
    raises [ZeroDivisionError]; no validation message is shown. *)
Lemma zero_width_node_divides_by_zero :
  let s := Scenario.zero_width in
  let nodes := get_nodes_by_idx (_nodes s) (_selected_idx (nf_base s)) in
  (exists n, n ∈ nodes /\ x (node_size n) = 0%Qc) /\
  py_min ((fun n => x (node_size n)) <$> nodes) = Ok 0%Qc /\
  eval (NodeForm__OnSizeText "40,40") s = Raise ZeroDivisionError /\
  badges (nf_base (exec (NodeForm__OnSizeText "40,40") s)) size_ctrl = None.
Proof.
  intros s nodes.
  assert (Hn : nodes = _nodes s) by (vm_compute; reflexivity).
  split_and!.
  - exists (Scenario.node 0 "A" (Scenario.vec 0 0) (Scenario.vec 0 10)).
    split; [rewrite Hn; apply list_elem_of_here | exact Z2Qc_inj_0].
  - rewrite Hn. unfold py_min. cbn. f_equal. apply Qc_is_canon. reflexivity.
  - vm_compute. reflexivity.
  - vm_compute. reflexivity.
Qed.

End ZeroWidthScenario.

(** C6, amended.  The multi-node size handler has no guard for nodes of
    size zero.  When the smallest selected width or height is zero, the
    division for [min_ratio] raises [ZeroDivisionError] and the handler ends
    there, the form as it was: no message, no flag, no controller call.
    When the smallest selected width and height and both components of the
    cached bounding size are not zero, the handler returns normally. *)
Theorem multi_resize_zero_size_unguarded `{Ext : Externals}
    (s : NodeForm) (text : string) (w h min_nw min_nh : Qc) :
  parse_num_pair text = Some (w, h) ->
  let nodes := get_nodes_by_idx (_nodes s) (_selected_idx (nf_base s)) in
  (2 <= length nodes)%nat ->
  py_min ((fun n => x (node_size n)) <$> nodes) = Ok min_nw ->
  py_min ((fun n => y (node_size n)) <$> nodes) = Ok min_nh ->
  (min_nw = 0%Qc \/ min_nh = 0%Qc ->
   NodeForm__OnSizeText text s = (Raise ZeroDivisionError, s)) /\
  (min_nw <> 0%Qc -> min_nh <> 0%Qc ->
   forall br, _bounding_rect s = Some br ->
   x (size br) <> 0%Qc -> y (size br) <> 0%Qc ->
   eval (NodeForm__OnSizeText text) s = Ok tt).
Proof.
  intros Hp nodes Hlen Hw Hh. split.
  - intros Hz. rewrite (OnSizeText_several_nodes s text w h Hp Hlen).
    by apply (OnSizeText_multi_zero s _ _ min_nw min_nh).
  - intros Hnw Hnh br Hbr Hx Hy.
    unfold eval. rewrite (OnSizeText_several_nodes s text w h Hp Hlen). fold nodes.
    rewrite (OnSizeText_multi_run s nodes _ br min_nw min_nh Hw Hh Hnw Hnh Hbr).
    rewrite (elem_div_defined _ _ Hx Hy).
    repeat match goal with |- context [if ?b then _ else _] => destruct b end; reflexivity.
Qed.

Section ZeroWidthWitness.
Local Existing Instance Scenario.ext.

(** The selection with a node of width zero, and the size [40,40]. *)
Lemma multi_resize_zero_size_unguarded_witness :
  NodeForm__OnSizeText "40,40" Scenario.zero_width
  = (Raise ZeroDivisionError, Scenario.zero_width).
Proof.
  assert (Hp : parse_num_pair "40,40" = Some (Qc_of_Z 40, Qc_of_Z 40))
    by (vm_compute; reflexivity).
  assert (Hn : get_nodes_by_idx (_nodes Scenario.zero_width)
                 (_selected_idx (nf_base Scenario.zero_width))
               = _nodes Scenario.zero_width) by (vm_compute; reflexivity).
  refine (proj1 (multi_resize_zero_size_unguarded Scenario.zero_width "40,40"
                   _ _ (Qc_of_Z 0) (Qc_of_Z 10) Hp _ _ _) _).
  - rewrite Hn. cbn. lia.
  - rewrite Hn. reflexivity.
  - rewrite Hn. reflexivity.
  - left. exact Z2Qc_inj_0.
Defined.

End ZeroWidthWitness.



Section ResizeScenario.
Local Existing Instance Scenario.ext.


End ResizeScenario.

(** ** The position handler *)

Section PosText.
Context `{Ext : Externals}.

Lemma mutate_selected_run (f : Node -> Node) (s : NodeForm) :
  mutate_selected f s =
  (Ok tt, set_nodes ((fun n => if selected (_selected_idx (nf_base s)) n then f n else n)
                       <$> _nodes s) s).
Proof. reflexivity. Qed.

Lemma OnPosText_several_nodes (s : NodeForm) (text : string) (px py : Qc) :
  parse_num_pair text = Some (px, py) ->
  (0 ≤ px)%Qc -> (0 ≤ py)%Qc ->
  (2 <= length (get_nodes_by_idx (_nodes s) (_selected_idx (nf_base s))))%nat ->
  NodeForm__OnPosText text s =
  (OnPosText_multi (get_nodes_by_idx (_nodes s) (_selected_idx (nf_base s))) (mkVec2 px py);;
   _SetValidationState true pos_ctrl (literal "")) s.
Proof.
  intros Hp Hx Hy Hn. unfold NodeForm__OnPosText. rewrite Hp.
  rewrite (bool_decide_eq_false_2 (px < 0)%Qc) by (by apply Qcle_not_lt).
  rewrite (bool_decide_eq_false_2 (py < 0)%Qc) by (by apply Qcle_not_lt).
  cbn [orb]. py_run.
  destruct (get_nodes_by_idx (_nodes s) (_selected_idx (nf_base s))) as [|n1 [|n2 l]];
    cbn in Hn; try lia; reflexivity.
Qed.

Lemma OnPosText_single_node (s : NodeForm) (text : string) (px py : Qc) (node : Node) :
  parse_num_pair text = Some (px, py) ->
  (0 ≤ px)%Qc -> (0 ≤ py)%Qc ->
  get_nodes_by_idx (_nodes s) (_selected_idx (nf_base s)) = [node] ->
  NodeForm__OnPosText text s =
  (OnPosText_single node (mkVec2 px py);;
   _SetValidationState true pos_ctrl (literal "")) s.
Proof.
  intros Hp Hx Hy Hn. unfold NodeForm__OnPosText. rewrite Hp.
  rewrite (bool_decide_eq_false_2 (px < 0)%Qc) by (by apply Qcle_not_lt).
  rewrite (bool_decide_eq_false_2 (py < 0)%Qc) by (by apply Qcle_not_lt).
  cbn [orb]. py_run. by rewrite Hn.
Qed.

(** The multi-node branch of the position handler, for a form that has its
    bounding rectangle: a rigid move in one group, or nothing. *)
Lemma OnPosText_multi_run (s : NodeForm) (nodes : list Node) (pos : Vec) (br : Rect) :
  _bounding_rect s = Some br ->
  let clamped := clamp_rect_pos (mkRect pos (size br))
                   (mkRect (mkVec2 0%Qc 0%Qc) (canvas_realsize s)) in
  let offset := vsub clamped (position br) in
  let move := fun n => set_position (vadd (node_position n) offset) n in
  OnPosText_multi nodes pos s =
  (if bool_decide (position br ≠ pos) || bool_decide (pos ≠ clamped) then
     (Ok tt,
      log_effects
        ([DidMoveNodesEvent (move <$> nodes) offset false]
         ++ concat ((fun n => [Controller (move_node (net_index (nf_base s)) (index n)
                                             (node_position n))]) <$> (move <$> nodes))
         ++ [Controller end_group])
        (set_nodes ((fun n => if selected (_selected_idx (nf_base s)) n then move n else n)
                      <$> _nodes s)
           (log_effects [Controller start_group] (with_flag true s))))
   else (Ok tt, s)).
Proof.
  intros Hbr clamped offset move.
  unfold OnPosText_multi. py_run. rewrite Hbr. fold clamped.
  destruct (bool_decide (position br ≠ pos) || bool_decide (pos ≠ clamped)); [|reflexivity].
  fold offset. fold move.
  rewrite assign_self_changes_run, controller_run, mutate_selected_run.
  rewrite post_DidMoveNodesEvent_run.
  rewrite (for_each_effects _ (fun n =>
     [Controller (move_node (net_index (nf_base s)) (index n) (node_position n))])).
  2:{ intros n s0. by rewrite controller_run. }
  rewrite controller_run, !log_effects_app. reflexivity.
Qed.

Lemma vsub_self (v : Vec) : vsub v v = mkVec2 0%Qc 0%Qc.
Proof. destruct v as [vx vy]. unfold vsub. cbn. f_equal; ring. Qed.

(** Moving the selected nodes of a list commutes with selecting them. *)
Lemma get_nodes_by_idx_moved (sel : gset Z) (f : Node -> Node) (l : list Node) :
  (forall n, index (f n) = index n) ->
  get_nodes_by_idx ((fun n => if selected sel n then f n else n) <$> l) sel
  = f <$> get_nodes_by_idx l sel.
Proof.
  intros Hf. unfold get_nodes_by_idx. induction l as [|n l IH]; [done|].
  rewrite fmap_cons, !filter_cons.
  destruct (selected sel n) eqn:E.
  - assert (selected sel (f n) = true) as E' by (unfold selected in *; by rewrite Hf).
    rewrite !decide_True by done. by rewrite fmap_cons, IH.
  - rewrite !decide_False by (by rewrite E). exact IH.
Qed.


End PosText.



Section MoveScenario.
Local Existing Instance Scenario.ext.


End MoveScenario.

(** ** Aggregation of the values of a selection *)

Section Aggregation.
Context `{Ext : Externals}.

(** The set of the values of a non-empty list has one element exactly when
    all values of the list are that one. *)
Lemma elements_list_to_set_single `{Countable A} (l : list A) (v : A) :
  l <> [] ->
  elements (list_to_set l : gset A) = [v] <-> forall a, a ∈ l -> a = v.
Proof.
  intros Hl. split.
  - intros He a Ha.
    assert (a ∈ elements (list_to_set l : gset A)) as Hin
      by (apply elem_of_elements, elem_of_list_to_set, Ha).
    rewrite He in Hin. by apply list_elem_of_singleton in Hin.
  - intros Hall.
    assert ((list_to_set l : gset A) = {[v]}) as ->.
    { apply set_eq. intros a. rewrite elem_of_list_to_set, elem_of_singleton. split.
      - apply Hall.
      - intros ->. destruct l as [|b l]; [done|].
        rewrite <- (Hall b) by apply list_elem_of_here. apply list_elem_of_here. }
    apply elements_singleton.
Qed.

Lemma elements_two_distinct `{Countable A} (X : gset A) (a b : A) :
  a ∈ X -> b ∈ X -> a <> b -> forall v, elements X <> [v].
Proof.
  intros Ha Hb Hab v He.
  apply elem_of_elements in Ha. apply elem_of_elements in Hb.
  rewrite He in Ha, Hb.
  apply list_elem_of_singleton in Ha. apply list_elem_of_singleton in Hb. congruence.
Qed.

Lemma GetMultiFloatText_single (v : Qc) (prec : Z) :
  _GetMultiFloatText {[v]} prec = no_rzeros v prec.
Proof. unfold _GetMultiFloatText. by rewrite elements_singleton. Qed.

Lemma GetMultiFloatText_distinct (values : gset Qc) (prec : Z) (a b : Qc) :
  a ∈ values -> b ∈ values -> a <> b -> _GetMultiFloatText values prec = "?".
Proof.
  intros Ha Hb Hab. unfold _GetMultiFloatText.
  pose proof (elements_two_distinct values a b Ha Hb Hab) as Hne.
  destruct (elements values) as [|v [|w l]]; [done| |done].
  by destruct (Hne v).
Qed.

Lemma Qcinv_nonneg (n : Z) : 0 <= n -> (0 ≤ / Qc_of_Z n)%Qc.
Proof.
  intros Hn. destruct (decide (n = 0)) as [->|Hne].
  - apply Qcle_ngt. intros H. revert H. vm_compute. discriminate.
  - apply Qclt_le_weak, Qcinv_pos. rewrite <- Z2Qc_inj_0.
    apply (proj1 (Z2Qc_inj_lt 0 n)). lia.
Qed.

Lemma qabs_self_difference (a : Qc) : SpecModel.qabs (a - a) = 0%Qc.
Proof.
  replace (a - a)%Qc with 0%Qc by ring. unfold SpecModel.qabs.
  by rewrite bool_decide_eq_false_2 by (apply (irreflexivity Qclt)).
Qed.

End Aggregation.

Section MixedScenario.
Local Existing Instance Scenario.ext.

(** C5, as stated, fails: 1.001 and 1.002 are equal after rounding to two
    decimals, and each alone is shown as [1], but together they are shown
    as [?]. *)
Lemma values_equal_after_rounding_shown_mixed :
  let a := dec 1001 1000 in
  let b := dec 1002 1000 in
  SpecModel.round_to 2 a = SpecModel.round_to 2 b /\
  no_rzeros a 2 = "1" /\
  no_rzeros b 2 = "1" /\
  _GetMultiFloatText {[a; b]} 2 = "?".
Proof.
  intros a b. split_and!.
  - apply Qc_is_canon. vm_compute. reflexivity.
  - vm_compute. reflexivity.
  - vm_compute. reflexivity.
  - vm_compute. reflexivity.
Qed.

End MixedScenario.

(** C5, amended.  The numeric aggregation compares the values as they are,
    without rounding: for a set of exactly one value it returns that value
    formatted to the precision; for a set with two different values it
    returns [?], in particular when two of them differ by more than
    [10^-P], and also when they differ only past the precision. *)
Theorem float_text_common_iff_one_value `{Ext : Externals} (values : gset Qc) (prec : Z) :
  (forall v, values = {[v]} -> _GetMultiFloatText values prec = no_rzeros v prec) /\
  (forall a b, a ∈ values -> b ∈ values -> a <> b ->
     _GetMultiFloatText values prec = "?") /\
  (forall a b, a ∈ values -> b ∈ values ->
     (/ Qc_of_Z (10 ^ prec) < SpecModel.qabs (a - b))%Qc ->
     _GetMultiFloatText values prec = "?").
Proof.
  split_and!.
  - intros v ->. apply GetMultiFloatText_single.
  - intros a b. apply GetMultiFloatText_distinct.
  - intros a b Ha Hb Hlt. apply (GetMultiFloatText_distinct values prec a b Ha Hb).
    intros ->. rewrite qabs_self_difference in Hlt.
    apply (Qclt_not_le _ _ Hlt), Qcinv_nonneg, Z.pow_nonneg. lia.
Qed.

Section FloatTextWitness.
Local Existing Instance Scenario.ext.

(** The widths 1 and 1.5 together, and the width 1.5 alone. *)
Lemma float_text_common_iff_one_value_witness :
  _GetMultiFloatText {[dec 3 2]} 2 = no_rzeros (dec 3 2) 2 /\
  _GetMultiFloatText {[dec 1 1; dec 3 2]} 2 = "?".
Proof.
  destruct (float_text_common_iff_one_value {[dec 1 1; dec 3 2]} 2) as (_ & _ & H3).
  destruct (float_text_common_iff_one_value {[dec 3 2]} 2) as (H1 & _).
  split.
  - apply H1. reflexivity.
  - apply (H3 (dec 1 1) (dec 3 2)).
    + apply elem_of_union_l, elem_of_singleton. reflexivity.
    + apply elem_of_union_r, elem_of_singleton. reflexivity.
    + vm_compute. reflexivity.
Defined.

End FloatTextWitness.

(** ** Colours *)

Section Colours.

Lemma byte_high_bits (v n : Z) : Wx.byte v -> 8 <= n -> Z.testbit v n = false.
Proof.
  intros [Hlo Hhi] Hn.
  rewrite <- (Z.mod_small v (2 ^ 8)) by (change (2 ^ 8) with 256; lia).
  apply Z.mod_pow2_bits_high. lia.
Qed.

Lemma testbit_255 (n : Z) : 0 <= n -> Z.testbit 255 n = (n <? 8).
Proof. intros Hn. change 255 with (Z.ones 8). apply Z.testbit_ones_nonneg; lia. Qed.

(** The packed value of a well-formed colour gives back its channels. *)
Lemma unpack_red (c : Wx.Colour) : Wx.wf c -> Z.land (Wx.GetRGB c) 255 = Wx.Red c.
Proof.
  intros (Hr & Hg & Hb & _). unfold Wx.GetRGB. apply Z.bits_inj'. intros n Hn.
  rewrite Z.land_spec, !Z.lor_spec, !Z.shiftl_spec, testbit_255 by lia.
  destruct (Z.ltb_spec n 8).
  - rewrite (Z.testbit_neg_r _ (n - 8)), (Z.testbit_neg_r _ (n - 16)) by lia.
    by rewrite !orb_false_r, andb_true_r.
  - by rewrite andb_false_r, (byte_high_bits _ n Hr).
Qed.

Lemma unpack_green (c : Wx.Colour) :
  Wx.wf c -> Z.land (Z.shiftr (Wx.GetRGB c) 8) 255 = Wx.Green c.
Proof.
  intros (Hr & Hg & Hb & _). unfold Wx.GetRGB. apply Z.bits_inj'. intros n Hn.
  rewrite Z.land_spec, Z.shiftr_spec, !Z.lor_spec, !Z.shiftl_spec, testbit_255 by lia.
  replace (n + 8 - 8) with n by lia. replace (n + 8 - 16) with (n - 8) by lia.
  rewrite (byte_high_bits _ (n + 8) Hr) by lia.
  destruct (Z.ltb_spec n 8).
  - rewrite (Z.testbit_neg_r _ (n - 8)) by lia.
    by rewrite orb_false_r, andb_true_r.
  - by rewrite andb_false_r, (byte_high_bits _ n Hg).
Qed.

Lemma unpack_blue (c : Wx.Colour) :
  Wx.wf c -> Z.land (Z.shiftr (Wx.GetRGB c) 16) 255 = Wx.Blue c.
Proof.
  intros (Hr & Hg & Hb & _). unfold Wx.GetRGB. apply Z.bits_inj'. intros n Hn.
  rewrite Z.land_spec, Z.shiftr_spec, !Z.lor_spec, !Z.shiftl_spec, testbit_255 by lia.
  replace (n + 16 - 8) with (n + 8) by lia. replace (n + 16 - 16) with n by lia.
  rewrite (byte_high_bits _ (n + 16) Hr), (byte_high_bits _ (n + 8) Hg) by lia.
  destruct (Z.ltb_spec n 8).
  - by rewrite andb_true_r.
  - by rewrite andb_false_r, (byte_high_bits _ n Hb).
Qed.

Lemma GetRGB_SetRGB (c d : Wx.Colour) :
  Wx.wf c -> Wx.GetRGB (Wx.SetRGB (Wx.GetRGB c) d) = Wx.GetRGB c.
Proof.
  intros Hc. unfold Wx.SetRGB.
  rewrite (unpack_red c Hc), (unpack_green c Hc), (unpack_blue c Hc). reflexivity.
Qed.

End Colours.

(** C9.  On a platform with a separate alpha field, for a non-empty list of
    well-formed colours: the colour returned carries the RGB value of every
    colour of the list exactly when they all have the same RGB value; the
    alpha returned is a value exactly when every colour has that alpha, and
    is [None] - shown as [?] - exactly when they do not share one; and there
    are lists whose RGB value is common while their alpha is not. *)
Theorem multi_color_channels_independent `{Ext : Externals}
    (colors : list Wx.Colour) (prec : Z) :
  on_msw = true ->
  colors <> [] ->
  Forall Wx.wf colors ->
  let result := _GetMultiColor colors in
  ((exists v, forall c, c ∈ colors -> Wx.GetRGB c = v) <->
   (forall c, c ∈ colors -> Wx.GetRGB result.1 = Wx.GetRGB c)) /\
  (forall a, result.2 = Some a <-> forall c, c ∈ colors -> Wx.Alpha c = a) /\
  (result.2 = None <-> ~ exists a, forall c, c ∈ colors -> Wx.Alpha c = a) /\
  (result.2 = None -> _AlphaToText result.2 prec = "?") /\
  (let mixed := _GetMultiColor [Wx.mkColour 255 0 0 255; Wx.mkColour 255 0 0 128] in
   Wx.GetRGB mixed.1 = 255 /\ mixed.2 = None).
Proof.
  intros Hmsw Hne Hwf result.
  assert (Hrgb : forall v, elements (list_to_set (Wx.GetRGB <$> colors) : gset Z) = [v]
                           <-> forall c, c ∈ colors -> Wx.GetRGB c = v).
  { intros v. rewrite elements_list_to_set_single by (by destruct colors).
    split.
    - intros H c Hc. apply H, list_elem_of_fmap. by exists c.
    - intros H a (c & -> & Hc)%list_elem_of_fmap. by apply H. }
  assert (Halpha : forall a, elements (list_to_set (Wx.Alpha <$> colors) : gset Z) = [a]
                             <-> forall c, c ∈ colors -> Wx.Alpha c = a).
  { intros a. rewrite elements_list_to_set_single by (by destruct colors).
    split.
    - intros H c Hc. apply H, list_elem_of_fmap. by exists c.
    - intros H b (c & -> & Hc)%list_elem_of_fmap. by apply H. }
  assert (Hr1 : result.1 = match elements (list_to_set (Wx.GetRGB <$> colors) : gset Z) with
                           | [v] => Wx.SetRGB v Wx.BLACK
                           | _ => Wx.BLACK
                           end).
  { subst result. unfold _GetMultiColor. by rewrite Hmsw. }
  assert (Hr2 : result.2 = match elements (list_to_set (Wx.Alpha <$> colors) : gset Z) with
                           | [a] => Some a
                           | _ => None
                           end).
  { subst result. unfold _GetMultiColor. by rewrite Hmsw. }
  assert (Hsome : forall a, result.2 = Some a <-> forall c, c ∈ colors -> Wx.Alpha c = a).
  { intros a. rewrite <- Halpha, Hr2.
    destruct (elements (list_to_set (Wx.Alpha <$> colors) : gset Z)) as [|b [|b' l]].
    - split; intros; discriminate.
    - split; intros; congruence.
    - split; intros; discriminate. }
  split_and!.
  - split.
    + intros [v Hv] c Hc. rewrite Hr1. rewrite (proj2 (Hrgb v) Hv).
      rewrite <- (Hv c Hc). apply GetRGB_SetRGB.
      by apply (proj1 (Forall_forall _ _) Hwf).
    + intros Hall. exists (Wx.GetRGB result.1). intros c Hc. symmetry. by apply Hall.
  - exact Hsome.
  - split.
    + intros Hnone [a Ha]. apply Hsome in Ha. congruence.
    + intros Hno. destruct (result.2) as [a|] eqn:E; [|done].
      destruct Hno. exists a. by apply Hsome.
  - intros ->. reflexivity.
  - unfold _GetMultiColor. rewrite Hmsw. split; vm_compute; reflexivity.
Qed.

Section ColourWitness.
Local Existing Instance Scenario.ext.

(** An opaque red and a half-transparent red: the same RGB value, no common
    alpha. *)
Lemma multi_color_channels_independent_witness :
  let result := _GetMultiColor [Scenario.red; Scenario.faint_red] in
  (forall c, c ∈ [Scenario.red; Scenario.faint_red] -> Wx.GetRGB result.1 = Wx.GetRGB c) /\
  result.2 = None /\
  _AlphaToText result.2 2 = "?".
Proof.
  intros result.
  destruct (multi_color_channels_independent [Scenario.red; Scenario.faint_red] 2)
    as (Hrgb & _ & Hnone & Htext & _).
  - reflexivity.
  - discriminate.
  - repeat constructor; vm_compute; discriminate.
  - assert (Hn : result.2 = None) by (vm_compute; reflexivity).
    split_and!.
    + apply Hrgb. exists 255. intros c Hc.
      apply elem_of_cons in Hc as [->|Hc]; [reflexivity|].
      apply list_elem_of_singleton in Hc as ->. reflexivity.
    + exact Hn.
    + apply Htext. exact Hn.
Defined.

End ColourWitness.

(** ** Groups opened by the handlers of the node form *)

Section Groups.
Context `{Ext : Externals}.

Lemma get_bind_run {S A} (k : S -> M S A) (s : S) : (get ≫= k) s = k s s.
Proof. reflexivity. Qed.

(** A loop over the selected nodes inside one group, after the flag is
    set. *)
Lemma grouped_loop_run (nodes : list Node) (body : Node -> M NodeForm unit)
    (f : Node -> list effect) (s : NodeForm) :
  (forall n s0, body n s0 = (Ok tt, log_effects (f n) s0)) ->
  (assign_self_changes true;; controller start_group;; for_each nodes body;;
   controller end_group) s
  = (Ok tt, log_effects ([Controller start_group] ++ concat (f <$> nodes)
                         ++ [Controller end_group]) (with_flag true s)).
Proof.
  intros Hbody. py_run.
  rewrite assign_self_changes_run, controller_run, (for_each_effects body f Hbody),
    controller_run, !log_effects_app.
  reflexivity.
Qed.

Lemma new_effects_logged (c : M NodeForm unit) (s : NodeForm) (es : list effect) (b : bool) r :
  c s = (r, log_effects es (with_flag b s)) -> new_effects c s = es.
Proof. intros H. apply new_effects_app. unfold exec. by rewrite H. Qed.

Lemma OnFillColorChanged_run (c : Wx.Colour) (s : NodeForm) :
  exists rest, new_effects (NodeForm__OnFillColorChanged c) s = Controller start_group :: rest.
Proof.
  assert (exists rest, NodeForm__OnFillColorChanged c s
            = (Ok tt, log_effects (Controller start_group :: rest) (with_flag true s)))
    as [rest Hrun].
  { unfold NodeForm__OnFillColorChanged. rewrite get_bind_run. cbv beta zeta.
    destruct on_msw; eexists.
    - apply (grouped_loop_run _ _ (fun n =>
        [Controller (set_node_fill_rgb (net_index (nf_base s)) (index n) c)])).
      intros n s0. by rewrite controller_run.
    - apply (grouped_loop_run _ _ (fun n =>
        [Controller (set_node_fill_rgb (net_index (nf_base s)) (index n) c);
         Controller (set_node_fill_alpha (net_index (nf_base s)) (index n) (Wx.Alpha c))])).
      intros n s0. py_run. by rewrite !controller_run, log_effects_app. }
  exists rest. by apply (new_effects_logged _ _ _ true (Ok tt)).
Qed.

(** The border colour handler: on Windows one group like the others; off
    Windows the group is opened and the first node raises. *)
Lemma OnBorderColorChanged_run (c : Wx.Colour) (s : NodeForm) :
  exists rest, new_effects (NodeForm__OnBorderColorChanged c) s
               = Controller start_group :: rest.
Proof.
  assert (exists r rest, NodeForm__OnBorderColorChanged c s
            = (r, log_effects (Controller start_group :: rest) (with_flag true s)))
    as (r & rest & Hrun).
  { unfold NodeForm__OnBorderColorChanged. rewrite get_bind_run. cbv beta zeta.
    destruct on_msw.
    - do 2 eexists.
      apply (grouped_loop_run _ _ (fun n =>
        [Controller (set_node_border_rgb (net_index (nf_base s)) (index n) c)])).
      intros n s0. by rewrite controller_run.
    - destruct (get_nodes_by_idx (_nodes s) (_selected_idx (nf_base s))) as [|n l].
      + exists (Ok tt), [Controller end_group].
        py_run. rewrite assign_self_changes_run, controller_run. cbn [for_each]. py_run.
        by rewrite controller_run, log_effects_app.
      + exists (Raise AttributeError), [].
        py_run. rewrite assign_self_changes_run, controller_run. cbn [for_each]. py_run.
        reflexivity. }
  exists rest. by apply (new_effects_logged _ _ _ true r).
Qed.

Lemma FillAlphaCallback_run (alpha : Qc) (s : NodeForm) :
  exists rest, new_effects (NodeForm__FillAlphaCallback alpha) s = Controller start_group :: rest.
Proof.
  eexists. eapply new_effects_logged.
  unfold NodeForm__FillAlphaCallback. rewrite get_bind_run. cbv beta zeta.
  apply (grouped_loop_run _ _ (fun n =>
    [Controller (set_node_fill_alpha (net_index (nf_base s)) (index n)
                   (py_int (alpha * Qc_of_Z 255)%Qc))])).
  intros n s0. by rewrite controller_run.
Qed.

Lemma BorderAlphaCallback_run (alpha : Qc) (s : NodeForm) :
  exists rest, new_effects (NodeForm__BorderAlphaCallback alpha) s
               = Controller start_group :: rest.
Proof.
  eexists. eapply new_effects_logged.
  unfold NodeForm__BorderAlphaCallback. rewrite get_bind_run. cbv beta zeta.
  apply (grouped_loop_run _ _ (fun n =>
    [Controller (set_node_border_alpha (net_index (nf_base s)) (index n)
                   (py_int (alpha * Qc_of_Z 255)%Qc))])).
  intros n s0. by rewrite controller_run.
Qed.

Lemma BorderWidthCallback_run (width : Qc) (s : NodeForm) :
  exists rest, new_effects (NodeForm__BorderWidthCallback width) s
               = Controller start_group :: rest.
Proof.
  eexists. eapply new_effects_logged.
  unfold NodeForm__BorderWidthCallback. rewrite get_bind_run. cbv beta zeta.
  apply (grouped_loop_run _ _ (fun n =>
    [Controller (set_node_border_width (net_index (nf_base s)) (index n) width)])).
  intros n s0. by rewrite controller_run.
Qed.

(** The single-node branch of the position handler when nothing changes. *)
Lemma OnPosText_single_unchanged (s : NodeForm) (node : Node) (pos : Vec) :
  node_position node = pos ->
  clamp_rect_pos (mkRect pos (node_size node))
    (mkRect (mkVec2 0%Qc 0%Qc) (canvas_realsize s)) = pos ->
  OnPosText_single node pos s = (Ok tt, s).
Proof.
  intros Hn Hc. unfold OnPosText_single. py_run. rewrite Hc, Hn.
  by rewrite !bool_decide_eq_false_2 by (intros H; by apply H).
Qed.

(** The single-node branch of the size handler: a rejection, one call
    outside any group, or nothing. *)
Lemma OnSizeText_single_run (s : NodeForm) (node : Node) (sz : Vec) :
  let clamped := clamp_rect_size (mkRect (node_position node) sz) (canvas_realsize s) in
  exists msg,
  OnSizeText_single node sz s =
  (if bool_decide (x sz < min_node_width)%Qc || bool_decide (y sz < min_node_height)%Qc then
     (Ok tt, with_badge size_ctrl (Some msg) s)
   else if bool_decide (node_size node ≠ clamped) || bool_decide (sz ≠ clamped) then
     (Ok tt, with_badge size_ctrl None
               (log_effects [Controller (set_node_size (net_index (nf_base s)) (index node)
                                           (mkVec2 (x clamped) (y clamped)))]
                  (with_flag true s)))
   else (Ok tt, with_badge size_ctrl None s)).
Proof.
  intros clamped. eexists. unfold OnSizeText_single. py_run.
  destruct (bool_decide (x sz < min_node_width)%Qc || bool_decide (y sz < min_node_height)%Qc);
    [reflexivity|].
  fold clamped.
  destruct (bool_decide (node_size node ≠ clamped) || bool_decide (sz ≠ clamped));
    reflexivity.
Qed.

End Groups.

Section UnchangedColourScenario.
Local Existing Instance Scenario.ext.

(** C8, as stated, fails: a node whose fill colour is red, and red picked
    again.  The proposed value is the current one, yet a group is opened and
    the colour is set. *)
Lemma unchanged_fill_colour_opens_group :
  let s := Scenario.one_node in
  fill_color <$> get_nodes_by_idx (_nodes s) (_selected_idx (nf_base s)) = [Scenario.red] /\
  calls_of (new_effects (NodeForm_handle (FillColorChanged Scenario.red)) s)
  = [start_group; set_node_fill_rgb 0 0 Scenario.red; end_group].
Proof. split; vm_compute; reflexivity. Qed.

End UnchangedColourScenario.

(** C8, amended.  For the position and size texts of a node form: when the
    proposed value equals the current value and its own clamped value, the
    handler records no effect at all - no controller call, no group; the
    size handler of a single node never opens a group.  The colour, alpha
    and width handlers compare nothing: each opens a group first, whatever
    the current values. *)
Theorem unchanged_text_edit_opens_no_group `{Ext : Externals}
    (s : NodeForm) (text : string) (a b : Qc) :
  parse_num_pair text = Some (a, b) ->
  let nodes := get_nodes_by_idx (_nodes s) (_selected_idx (nf_base s)) in
  let v := mkVec2 a b in
  let bounds := mkRect (mkVec2 0%Qc 0%Qc) (canvas_realsize s) in
  ((0 ≤ a)%Qc -> (0 ≤ b)%Qc ->
   (forall node, nodes = [node] -> node_position node = v ->
      clamp_rect_pos (mkRect v (node_size node)) bounds = v ->
      new_effects (NodeForm__OnPosText text) s = []) /\
   (forall br, (2 <= length nodes)%nat -> _bounding_rect s = Some br ->
      position br = v -> clamp_rect_pos (mkRect v (size br)) bounds = v ->
      new_effects (NodeForm__OnPosText text) s = [])) /\
  (forall node, nodes = [node] ->
     (start_group ∉ calls_of (new_effects (NodeForm__OnSizeText text) s)) /\
     (node_size node = v ->
      clamp_rect_size (mkRect (node_position node) v) (canvas_realsize s) = v ->
      new_effects (NodeForm__OnSizeText text) s = [])) /\
  (forall br min_nw min_nh, (2 <= length nodes)%nat -> _bounding_rect s = Some br ->
     py_min ((fun n => x (node_size n)) <$> nodes) = Ok min_nw ->
     py_min ((fun n => y (node_size n)) <$> nodes) = Ok min_nh ->
     min_nw <> 0%Qc -> min_nh <> 0%Qc ->
     size br = v -> clamp_rect_size (mkRect (position br) v) (canvas_realsize s) = v ->
     new_effects (NodeForm__OnSizeText text) s = []) /\
  (forall c, head (calls_of (new_effects (NodeForm__OnFillColorChanged c) s))
             = Some start_group) /\
  (forall c, head (calls_of (new_effects (NodeForm__OnBorderColorChanged c) s))
             = Some start_group) /\
  (forall q, head (calls_of (new_effects (NodeForm__FillAlphaCallback q) s))
             = Some start_group) /\
  (forall q, head (calls_of (new_effects (NodeForm__BorderAlphaCallback q) s))
             = Some start_group) /\
  (forall q, head (calls_of (new_effects (NodeForm__BorderWidthCallback q) s))
             = Some start_group).
Proof.
  intros Hp nodes v bounds. split_and!.
  - intros Ha Hb. split.
    + intros node Hn Hpos Hc. apply new_effects_same. unfold exec.
      rewrite (OnPosText_single_node s text a b node Hp Ha Hb Hn). py_run.
      by rewrite (OnPosText_single_unchanged s node (mkVec2 a b) Hpos Hc).
    + intros br Hlen Hbr Hpos Hc. apply new_effects_same. unfold exec.
      rewrite (OnPosText_several_nodes s text a b Hp Ha Hb Hlen). py_run.
      rewrite (OnPosText_multi_run s _ (mkVec2 a b) br Hbr). fold bounds v. rewrite Hc, Hpos.
      by rewrite !bool_decide_eq_false_2 by (intros H; by apply H).
  - intros node Hn.
    pose proof (OnSizeText_single_node s text a b node Hp Hn) as Hrun.
    destruct (OnSizeText_single_run s node (mkVec2 a b)) as [msg Hs].
    rewrite Hs in Hrun. clear Hs. fold v in Hrun. split.
    + revert Hrun.
      destruct (bool_decide (x v < min_node_width)%Qc || bool_decide (y v < min_node_height)%Qc).
      { intros Hrun. rewrite new_effects_same by (unfold exec; by rewrite Hrun).
        apply not_elem_of_nil. }
      destruct (bool_decide (node_size node ≠ clamp_rect_size (mkRect (node_position node) v)
                                                (canvas_realsize s))
                || bool_decide (v ≠ clamp_rect_size (mkRect (node_position node) v)
                                      (canvas_realsize s))).
      * intros Hrun. erewrite new_effects_app by (unfold exec; rewrite Hrun; reflexivity).
        cbn. intros H%list_elem_of_singleton. discriminate.
      * intros Hrun. rewrite new_effects_same by (unfold exec; by rewrite Hrun).
        apply not_elem_of_nil.
    + intros Hsz Hc. rewrite Hc, Hsz in Hrun.
      rewrite (bool_decide_eq_false_2 (v ≠ v)) in Hrun by (intros H; by apply H).
      apply new_effects_same. unfold exec. rewrite Hrun.
      by destruct (bool_decide (x v < min_node_width)%Qc
                   || bool_decide (y v < min_node_height)%Qc).
  - intros br mw mh Hlen Hbr Hw Hh Hnw Hnh Hsz Hc.
    apply new_effects_same. unfold exec.
    rewrite (OnSizeText_several_nodes s text a b Hp Hlen). fold nodes v.
    rewrite (OnSizeText_multi_run s nodes v br mw mh Hw Hh Hnw Hnh Hbr).
    rewrite Hc, Hsz.
    rewrite (bool_decide_eq_false_2 (v ≠ v)) by (intros H; by apply H).
    by destruct (bool_decide _ || bool_decide _).
  - intros c. destruct (OnFillColorChanged_run c s) as [rest ->]. reflexivity.
  - intros c. destruct (OnBorderColorChanged_run c s) as [rest ->]. reflexivity.
  - intros q. destruct (FillAlphaCallback_run q s) as [rest ->]. reflexivity.
  - intros q. destruct (BorderAlphaCallback_run q s) as [rest ->]. reflexivity.
  - intros q. destruct (BorderWidthCallback_run q s) as [rest ->]. reflexivity.
Qed.

Section UnchangedTextWitness.
Local Existing Instance Scenario.ext.

(** The node at (5,5) of the scenario, and the position text [5,5]. *)
Lemma unchanged_text_edit_opens_no_group_witness :
  new_effects (NodeForm__OnPosText "5,5") Scenario.one_node = [].
Proof.
  assert (Hp : parse_num_pair "5,5" = Some (Qc_of_Z 5, Qc_of_Z 5))
    by (vm_compute; reflexivity).
  destruct (unchanged_text_edit_opens_no_group Scenario.one_node "5,5" _ _ Hp)
    as (Hpos & _).
  destruct Hpos as (Hsingle & _).
  - vm_compute. discriminate.
  - vm_compute. discriminate.
  - apply (Hsingle (Scenario.node 0 "A" (Scenario.vec 5 5) (Scenario.vec 20 20))).
    + vm_compute. reflexivity.
    + reflexivity.
    + vm_compute. reflexivity.
Defined.

End UnchangedTextWitness.

(** ** Echo suppression: the flag and the refresh *)

Lemma mutated_app (l1 l2 : list effect) : mutated (l1 ++ l2) = mutated l1 || mutated l2.
Proof. unfold mutated. by rewrite calls_of_app, existsb_app. Qed.

Section Echo.
Context {S : Type} `{F : Form S}.
Hypothesis base_with_base : forall b s, base (with_base b s) = b.

Lemma calm_logged (s s' : S) : calm s s' -> logged s s'.
Proof. intros (new & He & Hf & _). by exists new. Qed.

Lemma calm_flagged (s s' : S) : calm s s' -> flagged s s'.
Proof.
  intros (new & He & Hf & Hm). exists new. split_and!; [done| |].
  - by rewrite Hf.
  - by rewrite Hm.
Qed.

Lemma logged_refl (s : S) : logged s s.
Proof. exists []. by rewrite app_nil_r. Qed.

Lemma calm_refl (s : S) : calm s s.
Proof. exists []. by rewrite app_nil_r. Qed.

Lemma logged_trans (s1 s2 s3 : S) : logged s1 s2 -> logged s2 s3 -> logged s1 s3.
Proof.
  intros (n1 & He1 & Hf1) (n2 & He2 & Hf2). exists (n1 ++ n2).
  split; [by rewrite He2, He1, app_assoc | by rewrite Hf2].
Qed.

Lemma calm_trans (s1 s2 s3 : S) : calm s1 s2 -> calm s2 s3 -> calm s1 s3.
Proof.
  intros (n1 & He1 & Hf1 & Hm1) (n2 & He2 & Hf2 & Hm2). exists (n1 ++ n2).
  split_and!; [by rewrite He2, He1, app_assoc | by rewrite Hf2 |].
  by rewrite mutated_app, Hm1, Hm2.
Qed.

Lemma flagged_trans (s1 s2 s3 : S) : flagged s1 s2 -> flagged s2 s3 -> flagged s1 s3.
Proof.
  intros (n1 & He1 & Hk1 & Hm1) (n2 & He2 & Hk2 & Hm2). exists (n1 ++ n2).
  split_and!; [by rewrite He2, He1, app_assoc | auto |].
  rewrite mutated_app. intros [H|H]%orb_true_iff; auto.
Qed.

(** Once the flag is set, recording effects keeps it in order. *)
Lemma logged_flagged (s s' : S) :
  _self_changes (base s) = true -> logged s s' -> flagged s s'.
Proof.
  intros Hs (new & He & Hf). exists new. rewrite Hf. by split_and!.
Qed.

Lemma quiet_logging {A} (c : M S A) : quiet c -> logging c.
Proof. intros H s. apply calm_logged, H. Qed.

Lemma quiet_careful {A} (c : M S A) : quiet c -> careful c.
Proof. intros H s. apply calm_flagged, H. Qed.

Lemma logging_bind {A B} (c : M S A) (k : A -> M S B) :
  logging c -> (forall a, logging (k a)) -> logging (c ≫= k).
Proof.
  intros Hc Hk s. rewrite exec_bind. destruct (eval c s); [|apply Hc].
  eapply logged_trans; [apply Hc | apply Hk].
Qed.

Lemma quiet_bind {A B} (c : M S A) (k : A -> M S B) :
  quiet c -> (forall a, quiet (k a)) -> quiet (c ≫= k).
Proof.
  intros Hc Hk s. rewrite exec_bind. destruct (eval c s); [|apply Hc].
  eapply calm_trans; [apply Hc | apply Hk].
Qed.

Lemma careful_bind {A B} (c : M S A) (k : A -> M S B) :
  careful c -> (forall a, careful (k a)) -> careful (c ≫= k).
Proof.
  intros Hc Hk s. rewrite exec_bind. destruct (eval c s); [|apply Hc].
  eapply flagged_trans; [apply Hc | apply Hk].
Qed.

Lemma quiet_ret {A} (a : A) : quiet (mret a : M S A).
Proof. intros s. apply calm_refl. Qed.

Lemma quiet_raise {A} (e : exn) : quiet (raise e : M S A).
Proof. intros s. apply calm_refl. Qed.

Lemma quiet_get : quiet (get : M S S).
Proof. intros s. apply calm_refl. Qed.

Lemma quiet_lift {A} (r : result A) : quiet (lift r : M S A).
Proof. intros s. apply calm_refl. Qed.

Lemma quiet_assert (b : bool) : quiet (assert b : M S unit).
Proof. intros s. unfold assert. destruct b; apply calm_refl. Qed.

Lemma quiet_SetValidationState (good : bool) (c : ctrl) (msg : message) :
  quiet (_SetValidationState good c msg : M S unit).
Proof.
  intros s. exists []. unfold _SetValidationState, on_base, exec, modify. cbn.
  rewrite base_with_base. cbn. by rewrite app_nil_r.
Qed.

(** A change of the fields a form adds to its base class. *)
Lemma quiet_modify (f : S -> S) : (forall s, base (f s) = base s) -> quiet (modify f).
Proof.
  intros Hf s. exists []. unfold exec, modify. cbn. rewrite Hf. by rewrite app_nil_r.
Qed.

Lemma logging_controller (c : call) : logging (controller c : M S unit).
Proof.
  intros s. exists [Controller c]. unfold controller, on_base, exec, modify. cbn.
  by rewrite base_with_base.
Qed.

Lemma logging_for_each {A} (l : list A) (body : A -> M S unit) :
  (forall a, logging (body a)) -> logging (for_each l body).
Proof.
  intros Hbody. induction l as [|a l IH].
  - intros s. apply logged_refl.
  - cbn [for_each]. apply logging_bind; [apply Hbody | intros _; apply IH].
Qed.

(** The pattern of every mutating handler: set the flag, then call. *)
Lemma careful_after_flag (c : M S unit) :
  logging c -> careful (assign_self_changes true;; c).
Proof.
  intros Hc s. rewrite exec_bind.
  assert (Hs : exec (assign_self_changes true) s = with_base (set_self_changes true (base s)) s)
    by reflexivity.
  assert (He : eval (assign_self_changes true) s = Ok tt) by reflexivity.
  rewrite He, Hs.
  apply (flagged_trans s (with_base (set_self_changes true (base s)) s)).
  - exists []. rewrite base_with_base. split_and!; [cbn; by rewrite app_nil_r | done | discriminate].
  - apply logged_flagged; [by rewrite base_with_base | apply Hc].
Qed.

Lemma careful_float_ctrl_fn `{Ext : Externals} (c : ctrl) (callback : Qc -> M S unit)
    (lo hi : option Qc) (li ri : bool) (text : string) :
  (forall v, careful (callback v)) ->
  careful (float_ctrl_fn c callback lo hi li ri text).
Proof.
  intros Hcb. unfold float_ctrl_fn.
  destruct (py_float text) as [v|]; [|apply quiet_careful, quiet_SetValidationState].
  cbv zeta.
  match goal with |- careful (if ?b then _ else _) => destruct b end.
  - apply quiet_careful, quiet_SetValidationState.
  - apply careful_bind; [apply Hcb|]. intros _.
    apply quiet_careful, quiet_SetValidationState.
Qed.

(** What a refresh needs of [UpdateAllFields]: it marks its entry in the
    trace and leaves the flag cleared, whether it returns or raises. *)
Hypothesis UpdateAllFields_marks :
  forall s, exists rest,
    effects (base (exec UpdateAllFields s)) = effects (base s) ++ UpdateAllFieldsCalled :: rest.
Hypothesis UpdateAllFields_clears :
  forall s, _self_changes (base (exec UpdateAllFields s)) = false.

Lemma on_base_eval (f : EditPanelForm -> EditPanelForm) (s : S) :
  eval (on_base f) s = Ok tt.
Proof. reflexivity. Qed.

Lemma on_base_exec (f : EditPanelForm -> EditPanelForm) (s : S) :
  exec (on_base f) s = with_base (f (base s)) s.
Proof. reflexivity. Qed.

(** The two last statements of [Update]. *)
Lemma Update_tail (s : S) :
  exec (on_base (set_badges (fun _ => None));; assign_self_changes false) s
  = with_base (set_self_changes false (set_badges (fun _ => None) (base s)))
      (with_base (set_badges (fun _ => None) (base s)) s).
Proof.
  rewrite exec_bind, on_base_eval, on_base_exec. unfold assign_self_changes.
  by rewrite on_base_exec, base_with_base.
Qed.

Lemma Update_exec (s : S) :
  exec Update s =
  if negb (set_len (_selected_idx (base s)) =? 0) && negb (_self_changes (base s)) then
    match eval UpdateAllFields s with
    | Ok _ => exec (on_base (set_badges (fun _ => None));; assign_self_changes false)
                (exec UpdateAllFields s)
    | Raise _ => exec UpdateAllFields s
    end
  else exec (on_base (set_badges (fun _ => None));; assign_self_changes false) s.
Proof.
  unfold Update. rewrite exec_bind. cbn [eval exec get fst snd].
  rewrite exec_bind.
  destruct (negb (set_len (_selected_idx (base s)) =? 0) && negb (_self_changes (base s)));
    reflexivity.
Qed.

Lemma Update_clears (s : S) : _self_changes (base (exec Update s)) = false.
Proof.
  rewrite Update_exec.
  destruct (negb (set_len (_selected_idx (base s)) =? 0) && negb (_self_changes (base s))).
  - destruct (eval UpdateAllFields s); [|apply UpdateAllFields_clears].
    by rewrite Update_tail, base_with_base.
  - by rewrite Update_tail, base_with_base.
Qed.

Lemma Update_suppressed (s : S) :
  _self_changes (base s) = true -> effects (base (exec Update s)) = effects (base s).
Proof.
  intros Hs. rewrite Update_exec, Hs, andb_false_r.
  by rewrite Update_tail, base_with_base.
Qed.

Lemma Update_repopulates (s : S) :
  _self_changes (base s) = false ->
  set_len (_selected_idx (base s)) <> 0 ->
  exists rest, effects (base (exec Update s))
               = effects (base s) ++ UpdateAllFieldsCalled :: rest.
Proof.
  intros Hs Hsel. rewrite Update_exec.
  apply Z.eqb_neq in Hsel. rewrite Hs, Hsel. cbn [negb andb].
  destruct (UpdateAllFields_marks s) as [rest Hrest].
  exists rest. destruct (eval UpdateAllFields s); [|done].
  by rewrite Update_tail, base_with_base.
Qed.

End Echo.

Section EchoRun.
Context {S E R : Type} `{F : Form S}.
Variable handle : E -> M S unit.
Variable refresh : R -> M S unit.
Hypothesis handle_careful : forall e, careful (handle e).
Hypothesis refresh_suppressed :
  forall r s, _self_changes (base s) = true -> new_effects (refresh r) s = [].

Lemma careful_flag {A} (c : M S A) (s : S) :
  careful c ->
  (_self_changes (base s) = true -> _self_changes (base (exec c s)) = true) /\
  (mutated (drop (length (effects (base s))) (effects (base (exec c s)))) = true ->
   _self_changes (base (exec c s)) = true).
Proof.
  intros Hc. destruct (Hc s) as (new & He & Hk & Hm). split; [done|].
  by rewrite He, drop_app_length.
Qed.

(** In no sequence of edits and refreshes does the refresh that follows a
    mutating edit repopulate the fields. *)
Lemma echo_never (evs : list (event E R)) :
  forall (s : S) (pending : bool),
    (pending = true -> _self_changes (base s) = true) ->
    echo_repopulates handle refresh pending evs s = false.
Proof.
  induction evs as [|[e|r] evs IH]; intros s pending Hpend; [done| |].
  - cbn [echo_repopulates]. apply IH.
    destruct (careful_flag (handle e) s (handle_careful e)) as [Hk Hm].
    intros [Hp|Hmut]%orb_true_iff; [by apply Hk, Hpend | by apply Hm].
  - cbn [echo_repopulates]. rewrite IH by done. rewrite orb_false_r.
    destruct pending; [|done].
    by rewrite refresh_suppressed by (by apply Hpend).
Qed.

End EchoRun.

(** How the goals about the handlers of a form are taken apart: binds,
    branches and loops down to the primitives.  [lens] is the fact that the
    form stores its base-class fields, [extra] closes the goals about the
    parts of a handler that have a lemma of their own. *)
Ltac quiet_prim lens :=
  match goal with
  | |- quiet (mret _) => apply quiet_ret
  | |- quiet (Py.ret _) => apply quiet_ret
  | |- quiet (raise _) => apply quiet_raise
  | |- quiet get => apply quiet_get
  | |- quiet (lift _) => apply quiet_lift
  | |- quiet (assert _) => apply quiet_assert
  | |- quiet (_SetValidationState _ _ _) => apply (quiet_SetValidationState lens)
  | |- quiet (modify _) => apply quiet_modify; intros; reflexivity
  end.

Ltac form_auto lens extra :=
  repeat (cbv zeta; first
    [ extra
    | quiet_prim lens
    | match goal with
      | |- logging (controller _) => apply (logging_controller lens)
      | |- quiet (_ ≫= _) => apply quiet_bind; [|intros ?]
      | |- logging (for_each _ _) => apply logging_for_each; intros ?
      | |- logging (_ ≫= _) => apply logging_bind; [|intros ?]
      | |- careful (assign_self_changes true ≫= _) => apply (careful_after_flag lens)
      | |- careful (_ ≫= _) => apply careful_bind; [|intros ?]
      | |- _ (match ?x with _ => _ end) => destruct x
      | |- logging _ => apply quiet_logging; quiet_prim lens
      | |- careful _ => apply quiet_careful; quiet_prim lens
      end ]).

Section NodeFormEcho.
Context `{Ext : Externals}.

Lemma NodeForm_lens (b : EditPanelForm) (s : NodeForm) : base (with_base b s) = b.
Proof. reflexivity. Qed.

Lemma logging_post_DidMoveNodesEvent (nodes : list Node) (offset : Vec) :
  logging (post_DidMoveNodesEvent nodes offset).
Proof. intros s. by exists [DidMoveNodesEvent nodes offset false]. Qed.

Ltac move_event :=
  idtac;
  match goal with
  | |- logging (post_DidMoveNodesEvent _ _) => apply logging_post_DidMoveNodesEvent
  end.

Lemma careful_OnPosText_single (node : Node) (pos : Vec) :
  careful (OnPosText_single node pos).
Proof.
  unfold OnPosText_single, when, mutate_selected.
  form_auto NodeForm_lens move_event.
Qed.

Lemma careful_OnPosText_multi (nodes : list Node) (pos : Vec) :
  careful (OnPosText_multi nodes pos).
Proof.
  unfold OnPosText_multi, when, mutate_selected.
  form_auto NodeForm_lens move_event.
Qed.

Lemma careful_OnSizeText_single (node : Node) (sz : Vec) :
  careful (OnSizeText_single node sz).
Proof.
  unfold OnSizeText_single, when.
  form_auto NodeForm_lens ltac:(fail).
Qed.

Lemma careful_OnSizeText_multi (nodes : list Node) (sz : Vec) :
  careful (OnSizeText_multi nodes sz).
Proof.
  unfold OnSizeText_multi, when.
  form_auto NodeForm_lens ltac:(fail).
Qed.

Lemma careful_FillAlphaCallback (q : Qc) : careful (NodeForm__FillAlphaCallback q).
Proof. unfold NodeForm__FillAlphaCallback. form_auto NodeForm_lens ltac:(fail). Qed.

Lemma careful_BorderAlphaCallback (q : Qc) : careful (NodeForm__BorderAlphaCallback q).
Proof. unfold NodeForm__BorderAlphaCallback. form_auto NodeForm_lens ltac:(fail). Qed.

Lemma careful_BorderWidthCallback (q : Qc) : careful (NodeForm__BorderWidthCallback q).
Proof. unfold NodeForm__BorderWidthCallback. form_auto NodeForm_lens ltac:(fail). Qed.

Ltac node_parts :=
  idtac;
  match goal with
  | |- careful (OnPosText_single _ _) => apply careful_OnPosText_single
  | |- careful (OnPosText_multi _ _) => apply careful_OnPosText_multi
  | |- careful (OnSizeText_single _ _) => apply careful_OnSizeText_single
  | |- careful (OnSizeText_multi _ _) => apply careful_OnSizeText_multi
  | |- careful (float_ctrl_fn _ _ _ _ _ _ _) =>
      apply (careful_float_ctrl_fn NodeForm_lens); intros ?
  | |- careful (NodeForm__FillAlphaCallback _) => apply careful_FillAlphaCallback
  | |- careful (NodeForm__BorderAlphaCallback _) => apply careful_BorderAlphaCallback
  | |- careful (NodeForm__BorderWidthCallback _) => apply careful_BorderWidthCallback
  end.

Lemma careful_NodeForm_handle (e : node_edit) : careful (NodeForm_handle e).
Proof.
  destruct e; cbn [NodeForm_handle].
  - (unfold NodeForm__OnIdText; form_auto NodeForm_lens node_parts).
  - (unfold NodeForm__OnPosText; form_auto NodeForm_lens node_parts).
  - (unfold NodeForm__OnSizeText; form_auto NodeForm_lens node_parts).
  - (unfold NodeForm__OnFillColorChanged; form_auto NodeForm_lens node_parts).
  - (unfold NodeForm__OnBorderColorChanged; form_auto NodeForm_lens node_parts).
  - (unfold when; form_auto NodeForm_lens node_parts).
  - (unfold when; form_auto NodeForm_lens node_parts).
  - (form_auto NodeForm_lens node_parts).
Qed.

(** [NodeForm.UpdateAllFields] marks its entry and leaves the flag
    cleared. *)
Lemma NodeForm_UpdateAllFields_logged (s : NodeForm) :
  exists rest,
    effects (nf_base (exec NodeForm_UpdateAllFields s))
    = effects (nf_base s) ++ UpdateAllFieldsCalled :: rest /\
    _self_changes (nf_base (exec NodeForm_UpdateAllFields s)) = false.
Proof.
  unfold NodeForm_UpdateAllFields.
  rewrite exec_bind. cbn [eval modify fst]. rewrite exec_bind. cbn [eval modify fst].
  match goal with
  | |- context [exec ?c (exec (modify ?f2) (exec (modify ?f1) s))] =>
      assert (logging c) as Hlog;
        [| destruct (Hlog (exec (modify f2) (exec (modify f1) s))) as (new & He & Hf)]
  end.
  - form_auto NodeForm_lens ltac:(fail).
    all: intros ?; by eexists [_].
  - exists new. cbn [base NodeForm_Form] in He, Hf. rewrite He, Hf. cbn.
    by rewrite <- app_assoc.
Qed.

End NodeFormEcho.

Section EchoAssembly.
Context {S E R : Type} `{F : Form S}.
Variable handle : E -> M S unit.
Variable store : R -> S -> S.
Hypothesis base_with_base : forall b s, base (with_base b s) = b.
Hypothesis UpdateAllFields_marks :
  forall s, exists rest,
    effects (base (exec UpdateAllFields s)) = effects (base s) ++ UpdateAllFieldsCalled :: rest.
Hypothesis UpdateAllFields_clears :
  forall s, _self_changes (base (exec UpdateAllFields s)) = false.
Hypothesis handle_careful : forall e, careful (handle e).
Hypothesis store_base : forall r s, base (store r s) = base s.

Lemma refresh_exec (r : R) (s : S) :
  exec (modify (store r);; Update) s = exec Update (store r s).
Proof. by rewrite exec_bind. Qed.

(** A form whose handlers keep the flag in order and whose refresh stores
    the new entities and calls [Update] suppresses its echoes. *)
Lemma echo_suppressed_intro :
  echo_suppressed handle (fun r => modify (store r);; Update).
Proof.
  assert (Hsupp : forall r s, _self_changes (base s) = true ->
                    new_effects (modify (store r);; Update) s = []).
  { intros r s Hs. apply new_effects_same. rewrite refresh_exec.
    rewrite (Update_suppressed base_with_base) by (by rewrite store_base).
    by rewrite store_base. }
  split_and!.
  - intros e s Hm. by apply (careful_flag (handle e) s (handle_careful e)).
  - intros r s Hs. by rewrite Hsupp.
  - intros r s. rewrite refresh_exec.
    by apply (Update_clears base_with_base).
  - intros r s Hs Hsel.
    destruct (Update_repopulates base_with_base UpdateAllFields_marks (store r s))
      as [rest Hrest]; [by rewrite store_base | by rewrite store_base |].
    rewrite (new_effects_app _ _ (UpdateAllFieldsCalled :: rest)); [done|].
    by rewrite refresh_exec, Hrest, store_base.
  - intros evs s. by apply echo_never.
Qed.

End EchoAssembly.

Section ReactionFormEcho.
Context `{Ext : Externals}.

Lemma ReactionForm_lens (b : EditPanelForm) (s : ReactionForm) : base (with_base b s) = b.
Proof. reflexivity. Qed.

Lemma careful_ReactionForm_callbacks (q : Qc) (reai nodei : Z) :
  careful (ReactionForm__FillAlphaCallback q) /\
  careful (ReactionForm__StrokeWidthCallback q) /\
  careful (set_src_stoich reai nodei q) /\
  careful (set_dest_stoich reai nodei q).
Proof.
  unfold ReactionForm__FillAlphaCallback, ReactionForm__StrokeWidthCallback,
    set_src_stoich, set_dest_stoich.
  split_and!; form_auto ReactionForm_lens ltac:(fail).
Qed.

Lemma careful_ReactionForm_handle (e : reaction_edit) : careful (ReactionForm_handle e).
Proof.
  destruct e; cbn [ReactionForm_handle];
    unfold ReactionForm__OnIdText, ReactionForm__OnRateLawText,
      ReactionForm__OnFillColorChanged, when;
    form_auto ReactionForm_lens
      ltac:(idtac; match goal with
            | |- careful (float_ctrl_fn _ _ _ _ _ _ _) =>
                apply (careful_float_ctrl_fn ReactionForm_lens); intros ?
            | |- careful (ReactionForm__FillAlphaCallback ?q) =>
                exact (proj1 (careful_ReactionForm_callbacks q 0 0))
            | |- careful (ReactionForm__StrokeWidthCallback ?q) =>
                exact (proj1 (proj2 (careful_ReactionForm_callbacks q 0 0)))
            | |- careful (set_src_stoich ?r ?n ?q) =>
                exact (proj1 (proj2 (proj2 (careful_ReactionForm_callbacks q r n))))
            | |- careful (set_dest_stoich ?r ?n ?q) =>
                exact (proj2 (proj2 (proj2 (careful_ReactionForm_callbacks q r n))))
            end).
Qed.

Lemma ReactionForm_UpdateAllFields_logged (s : ReactionForm) :
  exists rest,
    effects (rf_base (exec ReactionForm_UpdateAllFields s))
    = effects (rf_base s) ++ UpdateAllFieldsCalled :: rest /\
    _self_changes (rf_base (exec ReactionForm_UpdateAllFields s)) = false.
Proof.
  unfold ReactionForm_UpdateAllFields.
  rewrite exec_bind. cbn [eval modify fst]. rewrite exec_bind. cbn [eval modify fst].
  match goal with
  | |- context [exec ?c (exec (modify ?f2) (exec (modify ?f1) s))] =>
      assert (logging c) as Hlog;
        [| destruct (Hlog (exec (modify f2) (exec (modify f1) s))) as (new & He & Hf)]
  end.
  - form_auto ReactionForm_lens ltac:(fail).
    all: intros ?; by eexists [_].
  - exists new. cbn [base ReactionForm_Form] in He, Hf. rewrite He, Hf. cbn.
    by rewrite <- app_assoc.
Qed.

End ReactionFormEcho.

Section CompartmentFormEcho.
Context `{Ext : Externals}.

Lemma CompartmentForm_lens (b : EditPanelForm) (s : CompartmentForm) :
  base (with_base b s) = b.
Proof. reflexivity. Qed.

Lemma careful_CompartmentForm_OnIdText (new_id : string) :
  careful (CompartmentForm__OnIdText new_id).
Proof. unfold CompartmentForm__OnIdText. form_auto CompartmentForm_lens ltac:(fail). Qed.

Lemma CompartmentForm_UpdateAllFields_logged (s : CompartmentForm) :
  exists rest,
    effects (cf_base (exec CompartmentForm_UpdateAllFields s))
    = effects (cf_base s) ++ UpdateAllFieldsCalled :: rest /\
    _self_changes (cf_base (exec CompartmentForm_UpdateAllFields s)) = false.
Proof.
  unfold CompartmentForm_UpdateAllFields.
  rewrite exec_bind. cbn [eval modify fst]. rewrite exec_bind. cbn [eval modify fst].
  match goal with
  | |- context [exec ?c (exec (modify ?f2) (exec (modify ?f1) s))] =>
      assert (logging c) as Hlog;
        [| destruct (Hlog (exec (modify f2) (exec (modify f1) s))) as (new & He & Hf)]
  end.
  - form_auto CompartmentForm_lens ltac:(fail).
    all: intros ?; by eexists [_].
  - exists new. cbn [base CompartmentForm_Form] in He, Hf. rewrite He, Hf. cbn.
    by rewrite <- app_assoc.
Qed.

End CompartmentFormEcho.

(** C7.  For each of the three forms: a handler that issues a mutation leaves
    [_self_changes] set; a refresh that finds it set does not invoke
    [UpdateAllFields], also when entities are selected; every refresh leaves
    it cleared, so that the refresh after next, finding a selection, does
    invoke [UpdateAllFields]; and in every sequence of edits and refreshes
    the first refresh after a mutating edit never repopulates the fields. *)
Theorem echo_refresh_never_repopulates `{Ext : Externals} :
  echo_suppressed NodeForm_handle UpdateNodes /\
  echo_suppressed ReactionForm_handle UpdateReactions /\
  echo_suppressed CompartmentForm__OnIdText UpdateCompartments.
Proof.
  split_and!.
  - apply (echo_suppressed_intro NodeForm_handle set_nodes NodeForm_lens).
    + intros s. destruct (NodeForm_UpdateAllFields_logged s) as (rest & H & _). by exists rest.
    + intros s. by destruct (NodeForm_UpdateAllFields_logged s) as (rest & _ & H).
    + apply careful_NodeForm_handle.
    + reflexivity.
  - apply (echo_suppressed_intro ReactionForm_handle set_reactions ReactionForm_lens).
    + intros s. destruct (ReactionForm_UpdateAllFields_logged s) as (rest & H & _).
      by exists rest.
    + intros s. by destruct (ReactionForm_UpdateAllFields_logged s) as (rest & _ & H).
    + apply careful_ReactionForm_handle.
    + reflexivity.
  - apply (echo_suppressed_intro CompartmentForm__OnIdText set_compartments
             CompartmentForm_lens).
    + intros s. destruct (CompartmentForm_UpdateAllFields_logged s) as (rest & H & _).
      by exists rest.
    + intros s. by destruct (CompartmentForm_UpdateAllFields_logged s) as (rest & _ & H).
    + apply careful_CompartmentForm_OnIdText.
    + reflexivity.
Qed.

Section EchoScenario.
Local Existing Instance Scenario.ext.

(** The resize of the scenario followed by the refresh it causes: the edit
    issues mutations and sets the flag, the refresh does not repopulate. *)
Lemma echo_refresh_never_repopulates_witness :
  let edit := NodeForm_handle (SizeText "40,40") in
  mutated (new_effects edit Scenario.two_nodes) = true /\
  _self_changes (nf_base (exec edit Scenario.two_nodes)) = true /\
  echo_repopulates NodeForm_handle UpdateNodes false
    [Edit (SizeText "40,40"); Refresh (_nodes Scenario.two_nodes)] Scenario.two_nodes = false.
Proof.
  intros edit.
  destruct echo_refresh_never_repopulates as ((Hflag & _ & _ & _ & Hseq) & _).
  assert (Hm : mutated (new_effects edit Scenario.two_nodes) = true)
    by (vm_compute; reflexivity).
  split_and!; [exact Hm | exact (Hflag _ _ Hm) | apply Hseq].
Defined.

End EchoScenario.

(** * Further properties *)

(** ** The designer window under sequences of pointer events *)

Section DesignerFacts.
Import ArrowDesigner DesignerEvents.

Lemma first_hovered_range (w : DesignerWindow) (pos : Vec2 Z) (pts : list (Vec2 Z)) :
  forall i, first_hovered w pos i pts = -1 \/
            i <= first_hovered w pos i pts < i + Z.of_nat (length pts).
Proof.
  induction pts as [|pt pts IH]; intros i; [by left|].
  cbn [first_hovered]. cbv zeta.
  destruct (_ <=? radius_sq w).
  - right. cbn [length]. lia.
  - destruct (IH (i + 1)) as [H|H]; [by left | right; cbn [length]; lia].
Qed.

Lemma first_hovered_none (w : DesignerWindow) (pos : Vec2 Z) (pts : list (Vec2 Z)) :
  forall i, 0 <= i ->
    (first_hovered w pos i pts = -1 <-> forall pt, pt ∈ pts -> ~ near w pos pt).
Proof.
  induction pts as [|pt pts IH]; intros i Hi.
  - split; [intros _ pt H; by apply not_elem_of_nil in H | done].
  - cbn [first_hovered]. cbv zeta.
    destruct (Z.leb_spec ((x pos - x pt * csize w) * (x pos - x pt * csize w)
                          + (y pos - y pt * csize w) * (y pos - y pt * csize w))
                         (radius_sq w)) as [Hn|Hn].
    + split; [lia|]. intros H. destruct (H pt); [apply list_elem_of_here | exact Hn].
    + rewrite IH by lia. split.
      * intros H q [->|Hq]%elem_of_cons; [unfold near; lia | by apply H].
      * intros H q Hq. apply H. by apply list_elem_of_further.
Qed.

Lemma first_hovered_some (w : DesignerWindow) (pos : Vec2 Z) (pts : list (Vec2 Z)) :
  forall i (k : nat), first_hovered w pos i pts = i + Z.of_nat k -> 0 <= i ->
    exists pt, pts !! k = Some pt /\ near w pos pt /\
               forall (j : nat) q, (j < k)%nat -> pts !! j = Some q -> ~ near w pos q.
Proof.
  induction pts as [|pt pts IH]; intros i k Hk Hi.
  - cbn in Hk. lia.
  - cbn [first_hovered] in Hk. cbv zeta in Hk.
    destruct (Z.leb_spec ((x pos - x pt * csize w) * (x pos - x pt * csize w)
                          + (y pos - y pt * csize w) * (y pos - y pt * csize w))
                         (radius_sq w)) as [Hn|Hn].
    + assert (k = 0%nat) as -> by lia.
      exists pt. split_and!; [done | exact Hn | intros; lia].
    + destruct k as [|k].
      { destruct (first_hovered_range w pos pts (i + 1)) as [H|H]; lia. }
      destruct (IH (i + 1) k) as (q & Hq & Hnear & Hfirst); [lia | lia |].
      exists q. split_and!; [done | done |].
      intros [|j] r Hj Hr.
      * cbn in Hr. inversion Hr; subst. unfold near. lia.
      * apply (Hfirst j r); [lia | done].
Qed.

Lemma update_hover_idx_run (pos : Vec2 Z) (w : DesignerWindow) :
  update_hover_idx pos w
  = (Ok tt, set_hover_idx (first_hovered w pos 0 (points w)) w).
Proof. reflexivity. Qed.

Lemma list_setitem_in_range {A} (l : list A) (i : Z) (v : A) :
  0 <= i < Z.of_nat (length l) ->
  list_setitem l i v = Ok (<[Z.to_nat i := v]> l).
Proof.
  intros [Hlo Hhi]. unfold list_setitem.
  destruct (Z.ltb_spec i 0); [lia|].
  destruct (Z.leb_spec 0 i); [|lia].
  destruct (Z.ltb_spec i (Z.of_nat (length l))); [|lia].
  reflexivity.
Qed.

(** A release while dragging, with a dragged point and a hovered index in
    range. *)
Lemma OnLeftUp_commit (pos p : Vec2 Z) (w : DesignerWindow) :
  dragging w = true ->
  dragged_point w = Some p ->
  0 <= hover_idx w < Z.of_nat (length (points w)) ->
  let drop := projected_landing w p in
  let w1 := set_points (<[Z.to_nat (hover_idx w) :=
                            mkVec2 (x drop / csize w) (y drop / csize w)]> (points w))
              (set_dragging false w) in
  OnLeftUp pos w = (Ok tt, set_hover_idx (first_hovered w1 pos 0 (points w1)) w1).
Proof.
  intros Hd Hp Hr drop w1.
  assert (Hne : (hover_idx w =? -1) = false) by (apply Z.eqb_neq; lia).
  unfold OnLeftUp, mbind, M_bind, Py.bind, Py.get, Py.when.
  rewrite Hd, Hp. unfold Py.assert. rewrite Hne. cbn.
  unfold Py.lift. rewrite (list_setitem_in_range _ _ _ Hr). reflexivity.
Qed.

Lemma OnLeftUp_no_point (pos : Vec2 Z) (w : DesignerWindow) :
  dragging w = true -> dragged_point w = None ->
  OnLeftUp pos w = (Raise AssertionError, w).
Proof.
  intros Hd Hp. unfold OnLeftUp, mbind, M_bind, Py.bind, Py.get, Py.when.
  by rewrite Hd, Hp.
Qed.

Lemma OnLeftUp_idle (pos : Vec2 Z) (w : DesignerWindow) :
  dragging w = false -> OnLeftUp pos w = (Ok tt, w).
Proof.
  intros Hd. unfold OnLeftUp, mbind, M_bind, Py.bind, Py.get, Py.when. by rewrite Hd.
Qed.

(** One event keeps a consistent window consistent, keeps the number of
    control points, the cell size and the radius, and raises at most the
    assertion on a missing dragged point. *)
Lemma handle_consistent (ev : pointer_event) (w : DesignerWindow) :
  consistent w ->
  consistent (exec (handle ev) w) /\
  length (points (exec (handle ev) w)) = length (points w) /\
  csize (exec (handle ev) w) = csize w /\
  radius_sq (exec (handle ev) w) = radius_sq w /\
  (eval (handle ev) w = Ok tt \/
   eval (handle ev) w = Raise AssertionError /\
   (exists pos, ev = LeftUp pos) /\ dragging w = true /\ dragged_point w = None /\
   exec (handle ev) w = w).
Proof.
  intros Hc. pose proof Hc as [Hrange Hdrag]. destruct ev as [|pos|pos]; cbn [handle].
  - unfold OnLeftDown, exec, eval, mbind, M_bind, Py.bind, Py.get, Py.when.
    destruct (Z.eqb_spec (hover_idx w) (-1)) as [He|He]; cbn;
      (split; [|split; [|split; [|split]]]); try done; by left.
  - destruct (dragging w) eqn:Hd.
    + destruct (dragged_point w) as [p|] eqn:Hp.
      * assert (Hr : 0 <= hover_idx w < Z.of_nat (length (points w)))
          by (specialize (Hdrag eq_refl); lia).
        unfold exec, eval. rewrite (OnLeftUp_commit pos p w Hd Hp Hr). cbn.
        rewrite length_insert.
        split; [|split; [|split; [|split]]]; try done; [|by left].
        split; [|done]. cbn. rewrite length_insert.
        match goal with |- _ <= first_hovered ?w' ?p' 0 ?l < _ =>
          pose proof (first_hovered_range w' p' l 0) as H
        end.
        rewrite length_insert in H. lia.
      * unfold exec, eval. rewrite (OnLeftUp_no_point pos w Hd Hp). cbn.
        split; [|split; [|split; [|split]]]; try done.
        right. split; [done|]. split; [by exists pos|]. done.
    + unfold exec, eval. rewrite (OnLeftUp_idle pos w Hd). cbn.
      split; [|split; [|split; [|split]]]; try done. by left.
  - unfold OnMotion, exec, eval, mbind, M_bind, Py.bind, Py.get.
    destruct (dragging w) eqn:Hd; cbn.
    + split; [|split; [|split; [|split]]]; try done; try (by left).
      all: try exact Hc.
    + split; [|split; [|split; [|split]]]; try done; try (by left).
      split; cbn; [|by rewrite Hd].
      pose proof (first_hovered_range w pos (points w) 0) as H. lia.
Qed.

(** Every sequence of events keeps a consistent window consistent, with
    the same number of control points, cell size and radius. *)
Lemma run_consistent (evs : list pointer_event) (w : DesignerWindow) :
  consistent w ->
  consistent (run evs w) /\
  length (points (run evs w)) = length (points w) /\
  csize (run evs w) = csize w /\
  radius_sq (run evs w) = radius_sq w.
Proof.
  revert w. induction evs as [|ev evs IH]; intros w Hc; cbn [run]; [done|].
  destruct (handle_consistent ev w Hc) as (Hc' & Hl & Hcs & Hr & _).
  destruct (IH _ Hc') as (H1 & H2 & H3 & H4).
  split; [|split; [|split]]; [done | by rewrite H2 | by rewrite H3 | by rewrite H4].
Qed.

Lemma init_consistent (pts : list (Vec2 Z)) : consistent (init pts).
Proof. split; [cbn; lia | discriminate]. Qed.

Lemma list_getitem_in_range {A} (l : list A) (i : Z) :
  0 <= i < Z.of_nat (length l) -> exists a, DesignerPaint.list_getitem l i = Ok a.
Proof.
  intros [Hlo Hhi]. unfold DesignerPaint.list_getitem.
  destruct (Z.ltb_spec i 0); [lia|].
  destruct (Z.leb_spec 0 i); [|lia].
  destruct (Z.ltb_spec i (Z.of_nat (length l))); [|lia].
  cbn [andb]. destruct (lookup_lt_is_Some_2 l (Z.to_nat i)) as [a Ha]; [lia|].
  exists a. by rewrite Ha.
Qed.

End DesignerFacts.

(** X1.  From a consistent window - the hovered index is -1 or in range, and
    a dragging window has a hovered point - every sequence of pointer events
    leads to a consistent window with the same number of control points,
    cell size and radius; there the next handler returns normally, except a
    release while dragging without a dragged point, which fails its
    assertion and leaves the window as it is.  No handler ever indexes the
    points out of range. *)
Theorem designer_events_keep_window_consistent
    (evs : list DesignerEvents.pointer_event) (w : ArrowDesigner.DesignerWindow) :
  DesignerEvents.consistent w ->
  let w' := DesignerEvents.run evs w in
  DesignerEvents.consistent w' /\
  length (ArrowDesigner.points w') = length (ArrowDesigner.points w) /\
  ArrowDesigner.csize w' = ArrowDesigner.csize w /\
  ArrowDesigner.radius_sq w' = ArrowDesigner.radius_sq w /\
  forall ev,
    eval (DesignerEvents.handle ev) w' <> Raise IndexError /\
    (eval (DesignerEvents.handle ev) w' = Ok tt \/
     eval (DesignerEvents.handle ev) w' = Raise AssertionError /\
     (exists pos, ev = DesignerEvents.LeftUp pos) /\
     ArrowDesigner.dragging w' = true /\
     ArrowDesigner.dragged_point w' = None /\
     exec (DesignerEvents.handle ev) w' = w').
Proof.
  intros Hc w'. subst w'.
  destruct (run_consistent evs w Hc) as (H1 & H2 & H3 & H4).
  split_and!; try done. intros ev.
  destruct (handle_consistent ev _ H1) as (_ & _ & _ & _ & [H|H]).
  - split; [by rewrite H | by left].
  - split; [destruct H as [-> _]; discriminate | by right].
Qed.

(** A fresh window with four control points, the pointer moved onto the
    second, pressed, dragged and released. *)
Lemma designer_events_keep_window_consistent_witness :
  let w := ArrowDesigner.init [mkVec2 0 0; mkVec2 2 1; mkVec2 5 5; mkVec2 9 3] in
  let evs := [DesignerEvents.Motion (mkVec2 41 22); DesignerEvents.LeftDown;
              DesignerEvents.Motion (mkVec2 51 39); DesignerEvents.LeftUp (mkVec2 51 39)] in
  DesignerEvents.consistent (DesignerEvents.run evs w) /\
  length (ArrowDesigner.points (DesignerEvents.run evs w)) = 4%nat.
Proof.
  intros w evs.
  destruct (designer_events_keep_window_consistent evs w) as (H1 & H2 & _).
  - split; [cbn; lia | discriminate].
  - split; [exact H1 | exact H2].
Defined.

(** X2.  [update_hover_idx] sets the hovered index to the first control
    point, in list order, whose pixel position is within the radius of the
    pointer, and to -1 exactly when no control point is. *)
Theorem hover_is_first_point_within_radius
    (w : ArrowDesigner.DesignerWindow) (pos : Vec2 Z) :
  let w' := exec (ArrowDesigner.update_hover_idx pos) w in
  (ArrowDesigner.hover_idx w' = -1 <->
   forall pt, pt ∈ ArrowDesigner.points w -> ~ DesignerEvents.near w pos pt) /\
  (forall k : nat, ArrowDesigner.hover_idx w' = Z.of_nat k ->
     exists pt, ArrowDesigner.points w !! k = Some pt /\
                DesignerEvents.near w pos pt /\
                forall (j : nat) q, (j < k)%nat -> ArrowDesigner.points w !! j = Some q ->
                                    ~ DesignerEvents.near w pos q) /\
  ArrowDesigner.points w' = ArrowDesigner.points w /\
  ArrowDesigner.dragging w' = ArrowDesigner.dragging w.
Proof.
  intros w'. subst w'. unfold exec. rewrite update_hover_idx_run. cbn.
  split_and!; try done.
  - by apply first_hovered_none.
  - intros k Hk. by apply (first_hovered_some w pos (ArrowDesigner.points w) 0 k).
Qed.

(** X3.  For a positive cell size the landing position is, on each axis, a
    multiple of the cell size nearest to the pointer: no grid line is closer
    to the pointer than the one it lands on. *)
Theorem landing_is_a_nearest_grid_line (w : ArrowDesigner.DesignerWindow) (p : Vec2 Z) :
  0 < ArrowDesigner.csize w ->
  let c := ArrowDesigner.csize w in
  let drop := ArrowDesigner.projected_landing w p in
  (x drop mod c = 0 /\ y drop mod c = 0) /\
  forall m : Z,
    Z.abs (x drop - x p) <= Z.abs (m * c - x p) /\
    Z.abs (y drop - y p) <= Z.abs (m * c - y p).
Proof.
  intros Hc c drop.
  assert (Haxis : forall v m,
            Z.abs ((if ArrowDesigner.lt_half (v mod c) c then v / c * c else v / c * c + c) - v)
            <= Z.abs (m * c - v)).
  { intros v m.
    pose proof (Z.div_mod v c ltac:(lia)) as Hdm.
    pose proof (Z.mod_pos_bound v c Hc) as Hr.
    set (q := v / c) in *. set (r := v mod c) in *.
    destruct (ArrowDesigner.lt_half r c) eqn:Hh.
    - apply lt_half_spec in Hh.
      destruct (Z_le_gt_dec m q) as [Hm|Hm]; nia.
    - assert (c <= 2 * r).
      { destruct (Z_lt_ge_dec (2 * r) c) as [H|H]; [|lia].
        apply lt_half_spec in H. congruence. }
      destruct (Z_le_gt_dec m q) as [Hm|Hm]; nia. }
  split.
  - split; apply landing_axis_multiple; exact Hc.
  - intros m. split.
    + replace (x drop) with (if ArrowDesigner.lt_half (x p mod c) c
                             then x p / c * c else x p / c * c + c)
        by (symmetry; apply landing_axis; exact Hc).
      apply Haxis.
    + replace (y drop) with (if ArrowDesigner.lt_half (y p mod c) c
                             then y p / c * c else y p / c * c + c)
        by (symmetry; apply landing_axis; exact Hc).
      apply Haxis.
Qed.

(** A release at pixel (51,39) with cells of 20: it lands on (60,40), no
    farther from the pointer than the grid lines at 40 and 20. *)
Lemma landing_is_a_nearest_grid_line_witness :
  let drop := ArrowDesigner.projected_landing (ArrowDesigner.init []) (mkVec2 51 39) in
  Z.abs (x drop - 51) <= Z.abs (2 * 20 - 51) /\
  Z.abs (y drop - 39) <= Z.abs (2 * 20 - 39).
Proof.
  intros drop.
  destruct (landing_is_a_nearest_grid_line (ArrowDesigner.init []) (mkVec2 51 39))
    as (_ & H).
  - reflexivity.
  - exact (H 2).
Defined.

(** X4.  In a window as [__init__] leaves it, a press on a control point
    followed by a release without any motion in between fails the assertion
    of [OnLeftUp] - no point was ever dragged - and the window stays in the
    dragging state with its control points unchanged. *)
Theorem click_without_motion_fails_in_fresh_window
    (pts : list (Vec2 Z)) (pos : Vec2 Z) :
  (exists pt, pt ∈ pts /\ DesignerEvents.near (ArrowDesigner.init pts) pos pt) ->
  let pressed := DesignerEvents.run [DesignerEvents.Motion pos; DesignerEvents.LeftDown]
                   (ArrowDesigner.init pts) in
  ArrowDesigner.dragging pressed = true /\
  eval (ArrowDesigner.OnLeftUp pos) pressed = Raise AssertionError /\
  exec (ArrowDesigner.OnLeftUp pos) pressed = pressed /\
  ArrowDesigner.points pressed = pts.
Proof.
  intros (pt & Hin & Hnear) pressed.
  assert (Hh : ArrowDesigner.first_hovered (ArrowDesigner.init pts) pos 0 pts <> -1).
  { intros H.
    pose proof (proj1 (first_hovered_none (ArrowDesigner.init pts) pos pts 0 ltac:(lia)) H) as Hno.
    by apply (Hno pt). }
  assert (Hp : pressed = ArrowDesigner.set_dragging true
                 (ArrowDesigner.set_hover_idx
                    (ArrowDesigner.first_hovered (ArrowDesigner.init pts) pos 0 pts)
                    (ArrowDesigner.init pts))).
  { subst pressed. cbn [DesignerEvents.run DesignerEvents.handle].
    unfold ArrowDesigner.OnMotion, ArrowDesigner.OnLeftDown, exec,
      mbind, M_bind, Py.bind, Py.get, Py.when. cbn.
    apply Z.eqb_neq in Hh. by rewrite Hh. }
  rewrite Hp. unfold exec, eval.
  rewrite OnLeftUp_no_point by reflexivity. done.
Qed.

(** A press and release on the control point at cell (2,1), pointer at
    pixel (41,22). *)
Lemma click_without_motion_fails_in_fresh_window_witness :
  let pts := [mkVec2 0 0; mkVec2 2 1; mkVec2 5 5; mkVec2 9 3] in
  eval (ArrowDesigner.OnLeftUp (mkVec2 41 22))
    (DesignerEvents.run [DesignerEvents.Motion (mkVec2 41 22); DesignerEvents.LeftDown]
       (ArrowDesigner.init pts)) = Raise AssertionError.
Proof.
  intros pts.
  destruct (click_without_motion_fails_in_fresh_window pts (mkVec2 41 22)) as (_ & H & _).
  - exists (mkVec2 2 1). split.
    + apply list_elem_of_further, list_elem_of_here.
    + unfold DesignerEvents.near. cbn. lia.
  - exact H.
Defined.

(** X5.  The dragged point is never cleared.  After a drag that set it, a
    press on a control point followed by a release without any motion in
    between moves that control point to the cell nearest to the position of
    the earlier drag, wherever the pointer is now. *)
Theorem click_after_drag_commits_stale_point
    (w : ArrowDesigner.DesignerWindow) (p pos : Vec2 Z) :
  ArrowDesigner.dragging w = false ->
  ArrowDesigner.dragged_point w = Some p ->
  0 <= ArrowDesigner.hover_idx w < Z.of_nat (length (ArrowDesigner.points w)) ->
  let w' := DesignerEvents.run [DesignerEvents.LeftDown; DesignerEvents.LeftUp pos] w in
  let drop := ArrowDesigner.projected_landing w p in
  ArrowDesigner.points w'
  = (<[Z.to_nat (ArrowDesigner.hover_idx w) :=
         mkVec2 (x drop / ArrowDesigner.csize w) (y drop / ArrowDesigner.csize w)]>
       (ArrowDesigner.points w)) /\
  ArrowDesigner.dragging w' = false /\
  ArrowDesigner.dragged_point w' = Some p.
Proof.
  intros Hd Hp Hr w' drop. subst w'.
  cbn [DesignerEvents.run DesignerEvents.handle].
  assert (Hne : (ArrowDesigner.hover_idx w =? -1) = false) by (apply Z.eqb_neq; lia).
  assert (H1 : exec ArrowDesigner.OnLeftDown w = ArrowDesigner.set_dragging true w).
  { unfold ArrowDesigner.OnLeftDown, exec, mbind, M_bind, Py.bind, Py.get, Py.when.
    by rewrite Hne. }
  rewrite H1. unfold exec.
  rewrite (OnLeftUp_commit pos p (ArrowDesigner.set_dragging true w) eq_refl Hp Hr).
  cbn. done.
Qed.

(** A window whose second control point is hovered and which remembers a
    drag to pixel (151,39): a click moves the point to cell (8,2). *)
Lemma click_after_drag_commits_stale_point_witness :
  let w := ArrowDesigner.mkDesignerWindow 20
             [mkVec2 0 0; mkVec2 2 1; mkVec2 5 5; mkVec2 9 3] 144 1
             (Some (mkVec2 151 39)) false in
  ArrowDesigner.points
    (DesignerEvents.run [DesignerEvents.LeftDown; DesignerEvents.LeftUp (mkVec2 41 22)] w)
  = [mkVec2 0 0; mkVec2 8 2; mkVec2 5 5; mkVec2 9 3].
Proof.
  intros w.
  destruct (click_after_drag_commits_stale_point w (mkVec2 151 39) (mkVec2 41 22))
    as (H & _).
  - reflexivity.
  - reflexivity.
  - cbn. lia.
  - rewrite H. vm_compute. reflexivity.
Defined.


(** X6.  Painting a window with four control points, in any state that
    pointer events can bring it to from its initial state: [draw_points]
    fails - on its first assertion - exactly when the window is dragging and
    no point was dragged yet, the state a press without motion leaves; in
    every other state its assertions hold and its indices are in range. *)
Theorem paint_fails_exactly_while_dragging_without_point
    (pts : list (Vec2 Z)) (evs : list DesignerEvents.pointer_event) :
  length pts = 4%nat ->
  let w := DesignerEvents.run evs (ArrowDesigner.init pts) in
  DesignerPaint.draw_points w
  = match ArrowDesigner.dragging w, ArrowDesigner.dragged_point w with
    | true, None => Raise AssertionError
    | _, _ => Ok tt
    end.
Proof.
  intros Hlen w.
  destruct (run_consistent evs (ArrowDesigner.init pts) (init_consistent pts))
    as ((Hrange & Hdrag) & Hl & _). fold w in Hrange, Hdrag, Hl.
  cbn [ArrowDesigner.init ArrowDesigner.points] in Hl. rewrite Hlen in Hl.
  clearbody w. unfold DesignerPaint.draw_points.
  set (plotted := (fun p => mkVec2 (x p * ArrowDesigner.csize w) (y p * ArrowDesigner.csize w))
                    <$> ArrowDesigner.points w).
  assert (Hpl : length plotted = 4%nat) by (subst plotted; by rewrite length_fmap).
  destruct (ArrowDesigner.dragging w) eqn:Ed.
  - specialize (Hdrag eq_refl). apply Z.eqb_neq in Hdrag as Hne. rewrite Hne. cbn [negb].
    destruct (ArrowDesigner.dragged_point w) as [d|]; [|reflexivity].
    rewrite list_setitem_in_range by lia.
    destruct (list_getitem_in_range (<[Z.to_nat (ArrowDesigner.hover_idx w) := d]> plotted) 0)
      as [p0 ->]; [rewrite length_insert; lia|].
    destruct (Z.leb_spec 0 (ArrowDesigner.hover_idx w)); [|lia].
    destruct (Z.ltb_spec (ArrowDesigner.hover_idx w) 4); [|lia].
    reflexivity.
  - destruct (list_getitem_in_range plotted 0) as [p0 ->]; [lia|].
    assert (Hok : (if ArrowDesigner.hover_idx w =? -1 then Ok tt
                   else match match DesignerPaint.list_getitem plotted (ArrowDesigner.hover_idx w)
                                    with
                              | Ok p => Ok (Some p)
                              | Raise e => Raise e
                              end with
                        | Raise e => Raise e
                        | Ok point =>
                            if negb ((0 <=? ArrowDesigner.hover_idx w)
                                     && (ArrowDesigner.hover_idx w <? 4))
                            then Raise AssertionError
                            else match point with
                                 | None => Raise AssertionError
                                 | Some _ => Ok tt
                                 end
                        end) = Ok tt).
    { destruct (Z.eqb_spec (ArrowDesigner.hover_idx w) (-1)) as [|Hne]; [done|].
      destruct (list_getitem_in_range plotted (ArrowDesigner.hover_idx w)) as [p ->]; [lia|].
      destruct (Z.leb_spec 0 (ArrowDesigner.hover_idx w)); [|lia].
      destruct (Z.ltb_spec (ArrowDesigner.hover_idx w) 4); [|lia].
      reflexivity. }
    rewrite Hok. by destruct (ArrowDesigner.dragged_point w).
Qed.

(** A press on the second control point of a fresh window, without any
    motion after it: the next paint fails. *)
Lemma paint_fails_exactly_while_dragging_without_point_witness :
  DesignerPaint.draw_points
    (DesignerEvents.run [DesignerEvents.Motion (mkVec2 41 22); DesignerEvents.LeftDown]
       (ArrowDesigner.init [mkVec2 0 0; mkVec2 2 1; mkVec2 5 5; mkVec2 9 3]))
  = Raise AssertionError.
Proof.
  rewrite (paint_fails_exactly_while_dragging_without_point
             [mkVec2 0 0; mkVec2 2 1; mkVec2 5 5; mkVec2 9 3]
             [DesignerEvents.Motion (mkVec2 41 22); DesignerEvents.LeftDown] eq_refl).
  reflexivity.
Defined.

(** ** [types.py]: iteration over a vector, and the node rectangle *)

Section Vec2Facts.
Context {E : Type}.
Import Vec2Iter.

Lemma drain_from_start (v : Vec2 E) (fuel : nat) :
  drain (3 + fuel) (mk v 0) = Some ([x v; y v], mk v 2).
Proof. reflexivity. Qed.

Lemma drain_short (v : Vec2 E) (fuel : nat) :
  (fuel < 3)%nat -> drain fuel (mk v 0) = None.
Proof. intros H. destruct fuel as [|[|[|fuel]]]; [reflexivity..|lia]. Qed.

End Vec2Facts.

(** X7.  Iterating over a vector yields its two components, [x] then [y],
    whatever the counter was before: [__iter__] resets it.  Three calls of
    [__next__] are needed and enough; the object is left exhausted, and
    every further [__next__] stops again without changing it. *)
Theorem vec2_iteration_yields_x_then_y {E : Type} (v : Vec2Iter.t E) (fuel : nat) :
  (3 <= fuel)%nat ->
  let done := Vec2Iter.mk (Vec2Iter.vec v) 2 in
  Vec2Iter.to_list fuel v = Some ([x (Vec2Iter.vec v); y (Vec2Iter.vec v)], done) /\
  Vec2Iter.__next__ done = (None, done) /\
  (forall short, (short < 3)%nat -> Vec2Iter.to_list short v = None).
Proof.
  intros Hf done. split_and!.
  - unfold Vec2Iter.to_list, Vec2Iter.__iter__.
    replace fuel with (3 + (fuel - 3))%nat by lia. apply drain_from_start.
  - reflexivity.
  - intros short Hs. unfold Vec2Iter.to_list, Vec2Iter.__iter__. by apply drain_short.
Qed.

(** The vector (3,4), half consumed before. *)
Lemma vec2_iteration_yields_x_then_y_witness :
  Vec2Iter.to_list 5 (Vec2Iter.mk (mkVec2 3 4) 1)
  = Some ([3; 4], Vec2Iter.mk (mkVec2 3 4) 2).
Proof.
  destruct (vec2_iteration_yields_x_then_y (Vec2Iter.mk (mkVec2 3 4) 1) 5) as (H & _).
  - lia.
  - exact H.
Defined.

(** X8.  A vector is its own iterator, so two loops over the same vector
    share one counter: the inner loop leaves it exhausted and the outer loop
    stops after its first round.  Of the four pairs of components only the
    two that start with [x] are visited. *)
Theorem vec2_nested_iteration_visits_first_row_only
    {E : Type} (v : Vec2Iter.t E) (fuel : nat) :
  (4 <= fuel)%nat ->
  let vx := x (Vec2Iter.vec v) in
  let vy := y (Vec2Iter.vec v) in
  Vec2Iter.pairs fuel v = Some ([(vx, vx); (vx, vy)], Vec2Iter.mk (Vec2Iter.vec v) 2).
Proof.
  intros Hf vx vy.
  replace fuel with (4 + (fuel - 4))%nat by lia.
  generalize (fuel - 4)%nat. intros k.
  unfold Vec2Iter.pairs, Vec2Iter.__iter__. destruct v as [[a b] i]. reflexivity.
Qed.

Lemma vec2_nested_iteration_visits_first_row_only_witness :
  Vec2Iter.pairs 6 (Vec2Iter.mk (mkVec2 3 4) 0)
  = Some ([(3, 3); (3, 4)], Vec2Iter.mk (mkVec2 3 4) 2).
Proof.
  apply (vec2_nested_iteration_visits_first_row_only (Vec2Iter.mk (mkVec2 3 4) 0) 6). lia.
Defined.

Section ContainsFacts.
Local Open Scope Qc_scope.

Lemma Contains_spec (n : Node) (pos : Vec) :
  Contains n pos = true <->
  x (node_position n) ≤ x pos /\ x pos ≤ x (node_position n) + x (node_size n) /\
  y (node_position n) ≤ y pos /\ y pos ≤ y (node_position n) + y (node_size n).
Proof.
  unfold Contains. rewrite !andb_true_iff, !bool_decide_eq_true. tauto.
Qed.

Lemma Qcle_add_nonneg (a b : Qc) : a ≤ a + b <-> 0 ≤ b.
Proof.
  split; intros H.
  - apply (Qcplus_le_compat (- a) (- a)) in H; [|apply Qcle_refl].
    replace (- a + a) with 0 in H by ring.
    replace (- a + (a + b)) with b in H by ring. exact H.
  - replace a with (a + 0) at 1 by ring.
    apply Qcplus_le_compat; [apply Qcle_refl | exact H].
Qed.

End ContainsFacts.

(** X9.  The rectangle of a node includes its border: a node contains some
    position exactly when neither component of its size is negative; it
    contains its own position exactly when it contains the opposite corner,
    and that is again when neither component of its size is negative. *)
Theorem node_contains_corners_iff_size_nonnegative (n : Node) :
  ((exists pos, Contains n pos = true) <->
   (0 ≤ x (node_size n))%Qc /\ (0 ≤ y (node_size n))%Qc) /\
  (Contains n (node_position n) = Contains n (vadd (node_position n) (node_size n))) /\
  (Contains n (node_position n)
   = bool_decide (0 ≤ x (node_size n))%Qc && bool_decide (0 ≤ y (node_size n))%Qc).
Proof.
  assert (Hown : Contains n (node_position n) = true <->
                 (0 ≤ x (node_size n))%Qc /\ (0 ≤ y (node_size n))%Qc).
  { rewrite Contains_spec, !Qcle_add_nonneg.
    pose proof (Qcle_refl (x (node_position n))).
    pose proof (Qcle_refl (y (node_position n))). tauto. }
  assert (Hfar : Contains n (vadd (node_position n) (node_size n)) = true <->
                 (0 ≤ x (node_size n))%Qc /\ (0 ≤ y (node_size n))%Qc).
  { rewrite Contains_spec. unfold vadd. cbn [x y]. rewrite !Qcle_add_nonneg.
    pose proof (Qcle_refl (x (node_position n) + x (node_size n))%Qc).
    pose proof (Qcle_refl (y (node_position n) + y (node_size n))%Qc). tauto. }
  split_and!.
  - split.
    + intros [pos (H1 & H2 & H3 & H4)%Contains_spec].
      split.
      * apply (proj1 (Qcle_add_nonneg (x (node_position n)) _)).
        by apply (Qcle_trans _ (x pos)).
      * apply (proj1 (Qcle_add_nonneg (y (node_position n)) _)).
        by apply (Qcle_trans _ (y pos)).
    + intros H. exists (node_position n). by apply Hown.
  - apply eq_true_iff_eq. by rewrite Hown, Hfar.
  - apply eq_true_iff_eq. by rewrite Hown, andb_true_iff, !bool_decide_eq_true.
Qed.

(** ** Texts of two numbers: splitting at the comma *)

Section SplitFacts.
Local Arguments append !_ _ / : simpl nomatch.

Lemma split_length (c : ascii) (s : string) :
  length (PyStr.split c s) = Datatypes.S (count_char c s).
Proof.
  induction s as [|d s IH]; [reflexivity|].
  cbn [PyStr.split count_char]. destruct (Ascii.eqb d c).
  - cbn [length]. by rewrite IH.
  - destruct (PyStr.split c s) as [|w ws]; [discriminate IH|].
    cbn [length] in *. by rewrite IH.
Qed.

Lemma split_no_sep (c : ascii) (s : string) :
  count_char c s = 0%nat -> PyStr.split c s = [s].
Proof.
  induction s as [|d s IH]; [reflexivity|].
  cbn [PyStr.split count_char]. destruct (Ascii.eqb d c); [discriminate|].
  intros H. by rewrite IH.
Qed.

Lemma split_single (c : ascii) (s t : string) :
  PyStr.split c s = [t] -> s = t /\ count_char c s = 0%nat.
Proof.
  intros H. pose proof (split_length c s) as Hl. rewrite H in Hl. cbn in Hl.
  assert (Hc : count_char c s = 0%nat) by lia.
  rewrite (split_no_sep c s Hc) in H. injection H as H. by split.
Qed.

Lemma split_app (c : ascii) (xs ys : string) :
  count_char c xs = 0%nat ->
  PyStr.split c (xs +:+ String c ys) = xs :: PyStr.split c ys.
Proof.
  induction xs as [|d xs IH]; cbn [append PyStr.split count_char].
  - intros _. by rewrite Ascii.eqb_refl.
  - destruct (Ascii.eqb d c); [discriminate|]. intros H. by rewrite IH.
Qed.

(** A text splits in two pieces exactly when it is the first piece, the
    separator and the second piece, and neither piece has a separator. *)
Lemma split_two (c : ascii) (s xs ys : string) :
  PyStr.split c s = [xs; ys] <->
  s = xs +:+ String c ys /\ count_char c xs = 0%nat /\ count_char c ys = 0%nat.
Proof.
  split.
  - revert xs. induction s as [|d s IH]; intros xs; [discriminate|].
    cbn [PyStr.split]. destruct (Ascii.eqb_spec d c) as [->|Hd].
    + intros H. inversion H as [[Hx Hs]]. apply split_single in Hs as [-> Hc].
      by split_and!.
    + destruct (PyStr.split c s) as [|w ws] eqn:E; [discriminate|].
      intros H. inversion H as [[Hx Hs]]. subst ws.
      destruct (IH w eq_refl) as (-> & Hw & Hy).
      split_and!; [done | | done].
      cbn [count_char]. by rewrite (proj2 (Ascii.eqb_neq d c) Hd).
  - intros (-> & Hx & Hy). by rewrite split_app, (split_no_sep c ys Hy).
Qed.

Lemma len_app (a b : string) : PyStr.len (a +:+ b) = PyStr.len a + PyStr.len b.
Proof.
  unfold PyStr.len. induction a as [|d a IH]; [cbn; lia|].
  cbn [append String.length]. lia.
Qed.

Lemma len_nonneg (a : string) : 0 <= PyStr.len a.
Proof. unfold PyStr.len. lia. Qed.

Lemma index_range (c : ascii) (s : string) (i : Z) :
  PyStr.index c s = Some i -> 0 <= i < PyStr.len s.
Proof.
  unfold PyStr.len. revert i. induction s as [|d s IH]; intros i; [discriminate|].
  cbn [PyStr.index String.length]. destruct (Ascii.eqb d c).
  - intros [= <-]. lia.
  - destruct (PyStr.index c s) as [j|]; [|discriminate].
    intros [= <-]. specialize (IH j eq_refl). lia.
Qed.

Lemma index_app (c : ascii) (xs ys : string) :
  count_char c xs = 0%nat ->
  PyStr.index c (xs +:+ String c ys) = Some (PyStr.len xs).
Proof.
  unfold PyStr.len. induction xs as [|d xs IH]; cbn [append PyStr.index count_char].
  - intros _. by rewrite Ascii.eqb_refl.
  - destruct (Ascii.eqb d c); [discriminate|]. intros H. rewrite IH by done.
    cbn [String.length]. cbn. f_equal. lia.
Qed.

End SplitFacts.

(** X10.  [parse_num_pair] returns a pair exactly when the text consists of
    two pieces around one comma, neither with a further comma, and [float]
    accepts both pieces; the pair holds their values.  A text with no comma
    or with more than one is never parsed, whatever [float] accepts. *)
Theorem parse_num_pair_iff_two_floats_around_one_comma
    `{Ext : Externals} (text : string) (a b : Qc) :
  (parse_num_pair text = Some (a, b) <->
   exists xstr ystr,
     text = xstr +:+ String "," ystr /\
     count_char "," xstr = 0%nat /\ count_char "," ystr = 0%nat /\
     py_float xstr = Some a /\ py_float ystr = Some b) /\
  (count_char "," text <> 1%nat -> parse_num_pair text = None).
Proof.
  split.
  - unfold parse_num_pair. split.
    + destruct (PyStr.split "," text) as [|xs [|ys [|z l]]] eqn:E; try discriminate.
      apply split_two in E as (Ht & Hx & Hy).
      destruct (py_float xs) as [vx|] eqn:Ex; [|discriminate].
      destruct (py_float ys) as [vy|] eqn:Ey; [|discriminate].
      intros [= <- <-]. by exists xs, ys.
    + intros (xs & ys & Ht & Hx & Hy & Ex & Ey).
      rewrite (proj2 (split_two "," text xs ys)) by done.
      by rewrite Ex, Ey.
  - intros Hc. unfold parse_num_pair.
    pose proof (split_length "," text) as Hl.
    destruct (PyStr.split "," text) as [|xs [|ys [|z l]]]; try done.
    cbn in Hl. lia.
Qed.

Section ParsePairWitness.
Local Existing Instance Scenario.ext.

(** The text [5,5,5] has two commas. *)
Lemma parse_num_pair_iff_two_floats_around_one_comma_witness :
  parse_num_pair "5,5,5" = None.
Proof.
  apply (parse_num_pair_iff_two_floats_around_one_comma "5,5,5" 0%Qc 0%Qc).
  vm_compute. lia.
Defined.

End ParsePairWitness.

(** X11.  [parse_precisions] fails its assertion exactly when the text does
    not have exactly one comma, and returns a pair otherwise; the first
    component of the pair is never negative and is less than the length of
    the text. *)
Theorem parse_precisions_asserts_exactly_one_comma (text : string) :
  (parse_precisions text = Raise AssertionError <-> count_char "," text <> 1%nat) /\
  (count_char "," text = 1%nat <-> exists p, parse_precisions text = Ok p) /\
  (forall px py, parse_precisions text = Ok (px, py) -> 0 <= px < PyStr.len text).
Proof.
  pose proof (split_length "," text) as Hl.
  unfold parse_precisions.
  destruct (PyStr.split "," text) as [|n0 [|n1 [|z l]]] eqn:E; cbn in Hl.
  - lia.
  - split_and!; [split; [lia|done] | split; [lia|intros [p H]; discriminate] | discriminate].
  - split_and!.
    + split; [discriminate|lia].
    + split; [intros _; by eexists | lia].
    + cbv zeta. intros px py [= <- _].
      apply split_two in E as (-> & _ & _).
      assert (Hstrip : PyStr.len (PyStr.strip n0) <= PyStr.len n0).
      { unfold PyStr.strip.
        assert (Hr : forall s, PyStr.len (PyStr.rstrip s) <= PyStr.len s).
        { unfold PyStr.len. induction s as [|c s IHs]; [done|].
          cbn [PyStr.rstrip]. destruct (PyStr.rstrip s) as [|d r].
          - destruct (PyStr.is_space c); cbn [String.length] in *; lia.
          - cbn [String.length] in *. lia. }
        assert (Hlft : forall s, PyStr.len (PyStr.lstrip s) <= PyStr.len s).
        { unfold PyStr.len. induction s as [|c s IHs]; [done|].
          cbn [PyStr.lstrip]. destruct (PyStr.is_space c); cbn [String.length] in *; lia. }
        specialize (Hr (PyStr.lstrip n0)). specialize (Hlft n0). lia. }
      assert (Hsep : PyStr.len (String "," n1) = 1 + PyStr.len n1)
        by (unfold PyStr.len; cbn [String.length]; lia).
      rewrite len_app, Hsep.
      pose proof (len_nonneg n1). pose proof (len_nonneg n0).
      destruct (PyStr.index "." (PyStr.strip n0)) as [i|] eqn:Ei.
      * apply index_range in Ei. lia.
      * lia.
  - split_and!; [split; [lia|done] | split; [lia|intros [p H]; discriminate] | discriminate].
Qed.

(** ** The caret of a paired-number field *)

Section CaretFacts.
Import Caret.
Local Arguments append !_ _ / : simpl nomatch.

Lemma starts_with_app (sub rest : string) : starts_with sub (sub +:+ rest) = true.
Proof.
  induction sub as [|c sub IH]; [by destruct rest|].
  cbn [append starts_with]. by rewrite Ascii.eqb_refl, IH.
Qed.

Lemma index_sub_unfold (sub s : string) :
  index_sub sub s =
  if starts_with sub s then Some 0
  else match s with
       | EmptyString => None
       | String _ s' => Z.succ <$> index_sub sub s'
       end.
Proof. destruct s; reflexivity. Qed.

(** The first occurrence of a text is not after any of its occurrences. *)
Lemma index_sub_occurrence (a sub rest : string) :
  exists k, index_sub sub (a +:+ sub +:+ rest) = Some k /\ 0 <= k <= PyStr.len a.
Proof.
  unfold PyStr.len. induction a as [|d a (k & Hk & Hr)].
  - exists 0. cbn [append]. rewrite index_sub_unfold, starts_with_app.
    split; [done|cbn; lia].
  - cbn [append]. rewrite index_sub_unfold.
    destruct (starts_with sub (String d (a +:+ sub +:+ rest))).
    + exists 0. split; [done|cbn [String.length]; lia].
    + exists (Z.succ k). rewrite Hk. split; [done|cbn [String.length]; lia].
Qed.

Lemma lstrip_suffix (s : string) : exists a, s = a +:+ PyStr.lstrip s.
Proof.
  induction s as [|c s [a Ha]]; [by exists EmptyString|].
  cbn [PyStr.lstrip]. destruct (PyStr.is_space c).
  - exists (String c a). cbn [append]. by rewrite <- Ha.
  - by exists EmptyString.
Qed.

Lemma rstrip_prefix (s : string) : exists b, s = PyStr.rstrip s +:+ b.
Proof.
  induction s as [|c s [b Hb]]; [by exists EmptyString|].
  cbn [PyStr.rstrip]. destruct (PyStr.rstrip s) as [|d r].
  - destruct (PyStr.is_space c).
    + by exists (String c s).
    + by exists s.
  - exists b. cbn [append] in *. by rewrite <- Hb.
Qed.

Lemma append_assoc (a b c : string) : (a +:+ b) +:+ c = a +:+ (b +:+ c).
Proof. induction a as [|d a IH]; [done|]. cbn [append]. by rewrite IH. Qed.

Lemma strip_inside (s : string) : exists a b, s = a +:+ PyStr.strip s +:+ b.
Proof.
  destruct (lstrip_suffix s) as [a Ha]. destruct (rstrip_prefix (PyStr.lstrip s)) as [b Hb].
  exists a, b. unfold PyStr.strip. by rewrite <- Hb.
Qed.

End CaretFacts.

(** X12.  [_SetBestInsertion], for an old text with a comma and a new text
    with exactly one comma, never raises and puts the caret inside the new
    text: at its end when the caret was right of the old comma, and
    otherwise nowhere right of the new comma. *)
Theorem best_insertion_stays_on_its_side_of_comma
    (new_text orig_text : string) (orig_insertion mid : Z) :
  count_char "," new_text = 1%nat ->
  PyStr.index "," orig_text = Some mid ->
  exists caret comma,
    Caret._SetBestInsertion new_text orig_text orig_insertion = Ok caret /\
    PyStr.index "," new_text = Some comma /\
    0 <= caret <= PyStr.len new_text /\
    (mid < orig_insertion -> caret = PyStr.len new_text) /\
    (orig_insertion <= mid -> caret <= comma).
Proof.
  intros Hc Hmid.
  pose proof (split_length "," new_text) as Hl. rewrite Hc in Hl.
  destruct (PyStr.split "," new_text) as [|t0 [|t1 [|z l]]] eqn:E; try discriminate.
  pose proof E as (Ht & H0 & H1)%split_two.
  assert (Hcomma : PyStr.index "," new_text = Some (PyStr.len t0))
    by (rewrite Ht; by apply index_app).
  destruct (strip_inside t0) as (a & b & Hab).
  destruct (index_sub_occurrence a (PyStr.strip t0) (b +:+ String "," t1))
    as (k & Hk & Hkr).
  assert (Hnew : new_text = a +:+ PyStr.strip t0 +:+ (b +:+ String "," t1)).
  { rewrite Ht. rewrite Hab at 1. by rewrite !append_assoc. }
  assert (Hlen0 : PyStr.len t0 = PyStr.len a + PyStr.len (PyStr.strip t0) + PyStr.len b).
  { rewrite Hab at 1. rewrite !len_app. lia. }
  assert (Hlen : PyStr.len new_text = PyStr.len t0 + 1 + PyStr.len t1).
  { rewrite Ht, len_app. unfold PyStr.len. cbn [String.length]. lia. }
  pose proof (len_nonneg a). pose proof (len_nonneg b). pose proof (len_nonneg t1).
  pose proof (len_nonneg (PyStr.strip t0)).
  unfold Caret._SetBestInsertion. rewrite Hmid, E.
  destruct (Z.ltb_spec mid orig_insertion) as [Hlt|Hge].
  - exists (PyStr.len new_text), (PyStr.len t0). split_and!; try done; lia.
  - assert (Hidx : Caret.index_sub (PyStr.strip t0) new_text = Some k)
      by (rewrite Hnew; exact Hk).
    cbv zeta. rewrite Hidx.
    exists (k + PyStr.len (PyStr.strip t0)), (PyStr.len t0).
    split_and!; try done; lia.
Qed.

(** The field showing [12.5,  3] becomes [ 12.50 , 3] while the caret is
    left of the comma: the caret goes behind [12.50]. *)
Lemma best_insertion_stays_on_its_side_of_comma_witness :
  Caret._SetBestInsertion " 12.50 , 3" "12.5,  3" 2 = Ok 6.
Proof.
  destruct (best_insertion_stays_on_its_side_of_comma " 12.50 , 3" "12.5,  3" 2 4)
    as (caret & comma & H & _).
  - reflexivity.
  - reflexivity.
  - rewrite H. vm_compute in H. exact (eq_sym H).
Defined.

(** ** The node form: single nodes, rejected texts, colours *)

Section NodeFormMore.
Context `{Ext : Externals}.

Lemma bool_decide_or_true (P Q : Prop) `{Decision P} `{Decision Q} :
  P \/ Q -> bool_decide P || bool_decide Q = true.
Proof.
  intros [H1|H1]; rewrite (bool_decide_eq_true_2 _ H1); [done|apply orb_true_r].
Qed.

Lemma calls_of_concat_controller {A} (g : A -> list call) (l : list A) :
  calls_of (concat ((fun a => Controller <$> g a) <$> l)) = concat (g <$> l).
Proof.
  induction l as [|a l IH]; [done|].
  rewrite !fmap_cons, !concat_cons, calls_of_app, calls_of_controller, IH. reflexivity.
Qed.

(** The position handler on a text it rejects. *)
Lemma OnPosText_malformed (s : NodeForm) (text : string) :
  parse_num_pair text = None ->
  NodeForm__OnPosText text s
  = (Ok tt, with_badge pos_ctrl
              (Some (literal ("Should be in the form " +:+ dquote +:+ "X, Y" +:+ dquote))) s).
Proof. intros Hp. unfold NodeForm__OnPosText. by rewrite Hp. Qed.

Lemma OnPosText_negative (s : NodeForm) (text : string) (px py : Qc) :
  parse_num_pair text = Some (px, py) ->
  (px < 0 \/ py < 0)%Qc ->
  NodeForm__OnPosText text s
  = (Ok tt, with_badge pos_ctrl
              (Some (literal "Position coordinates should be non-negative")) s).
Proof.
  intros Hp Hneg. unfold NodeForm__OnPosText. rewrite Hp.
  by rewrite (bool_decide_or_true _ _ Hneg).
Qed.

(** The single-node branch of the position handler when something
    changes. *)
Lemma OnPosText_single_moved (s : NodeForm) (node : Node) (pos : Vec) :
  let clamped := clamp_rect_pos (mkRect pos (node_size node))
                   (mkRect (mkVec2 0%Qc 0%Qc) (canvas_realsize s)) in
  node_position node ≠ clamped \/ pos ≠ clamped ->
  OnPosText_single node pos s =
  (Ok tt,
   log_effects
     [Controller start_group;
      DidMoveNodesEvent [set_position clamped node] (mkVec2 0%Qc 0%Qc) false;
      Controller (move_node (net_index (nf_base s)) (index node) clamped);
      Controller end_group]
     (set_nodes ((fun n => if selected (_selected_idx (nf_base s)) n
                           then set_position clamped n else n) <$> _nodes s)
        (with_flag true s))).
Proof.
  intros clamped Hch. unfold OnPosText_single. py_run. fold clamped.
  rewrite (bool_decide_or_true _ _ Hch).
  rewrite assign_self_changes_run, mutate_selected_run, controller_run.
  rewrite post_DidMoveNodesEvent_run, controller_run, controller_run, !log_effects_app.
  cbn [set_position node_position index]. by rewrite vsub_self.
Qed.

(** The colour handlers, call by call. *)
Lemma OnFillColorChanged_exact (c : Wx.Colour) (s : NodeForm) :
  let net := net_index (nf_base s) in
  let per_node := fun n : Node =>
    if on_msw then [set_node_fill_rgb net (index n) c]
    else [set_node_fill_rgb net (index n) c; set_node_fill_alpha net (index n) (Wx.Alpha c)] in
  NodeForm__OnFillColorChanged c s
  = (Ok tt,
     log_effects
       ([Controller start_group]
        ++ concat ((fun n => Controller <$> per_node n)
                     <$> get_nodes_by_idx (_nodes s) (_selected_idx (nf_base s)))
        ++ [Controller end_group])
       (with_flag true s)).
Proof.
  intros net per_node. unfold NodeForm__OnFillColorChanged. rewrite get_bind_run.
  cbv beta zeta. apply grouped_loop_run. intros n s0. subst per_node. cbv beta.
  destruct on_msw.
  - by rewrite controller_run.
  - py_run. by rewrite !controller_run, log_effects_app.
Qed.

Lemma OnBorderColorChanged_exact (c : Wx.Colour) (s : NodeForm) :
  let net := net_index (nf_base s) in
  let nodes := get_nodes_by_idx (_nodes s) (_selected_idx (nf_base s)) in
  NodeForm__OnBorderColorChanged c s
  = if on_msw then
      (Ok tt,
       log_effects
         ([Controller start_group]
          ++ concat ((fun n => Controller <$> [set_node_border_rgb net (index n) c]) <$> nodes)
          ++ [Controller end_group])
         (with_flag true s))
    else match nodes with
         | [] => (Ok tt, log_effects [Controller start_group; Controller end_group]
                           (with_flag true s))
         | _ :: _ => (Raise AttributeError,
                      log_effects [Controller start_group] (with_flag true s))
         end.
Proof.
  intros net nodes. unfold NodeForm__OnBorderColorChanged. rewrite get_bind_run.
  cbv beta zeta. fold nodes. destruct on_msw.
  - apply grouped_loop_run. intros n s0. by rewrite controller_run.
  - destruct nodes as [|n l].
    + py_run. rewrite assign_self_changes_run, controller_run. cbn [for_each]. py_run.
      by rewrite controller_run, log_effects_app.
    + py_run. rewrite assign_self_changes_run, controller_run. cbn [for_each]. py_run.
      reflexivity.
Qed.

End NodeFormMore.

(** X13.  A position text that does not parse, or that has a negative
    coordinate, is rejected: the handler returns normally and changes
    nothing but the badge of the position field, which it shows with a
    message - no controller call, no event, the nodes and the flag as they
    were. *)
Theorem position_text_rejected_changes_only_badge
    `{Ext : Externals} (s : NodeForm) (text : string) :
  (parse_num_pair text = None \/
   exists px py, parse_num_pair text = Some (px, py) /\ (px < 0 \/ py < 0)%Qc) ->
  exists msg,
    NodeForm__OnPosText text s = (Ok tt, with_badge pos_ctrl (Some msg) s) /\
    new_effects (NodeForm__OnPosText text) s = [] /\
    _nodes (exec (NodeForm__OnPosText text) s) = _nodes s /\
    _self_changes (nf_base (exec (NodeForm__OnPosText text) s)) = _self_changes (nf_base s).
Proof.
  intros [Hp | (px & py & Hp & Hneg)].
  - eexists. split; [by apply OnPosText_malformed|].
    unfold new_effects, exec. rewrite (OnPosText_malformed s text Hp). cbn.
    by rewrite drop_all.
  - eexists. split; [by apply (OnPosText_negative s text px py)|].
    unfold new_effects, exec. rewrite (OnPosText_negative s text px py Hp Hneg). cbn.
    by rewrite drop_all.
Qed.

Section PositionRejectedWitness.
Local Existing Instance Scenario.ext.

(** The text [-5,5] typed for the node of the scenario. *)
Lemma position_text_rejected_changes_only_badge_witness :
  new_effects (NodeForm__OnPosText "-5,5") Scenario.one_node = [] /\
  _nodes (exec (NodeForm__OnPosText "-5,5") Scenario.one_node) = _nodes Scenario.one_node.
Proof.
  assert (Hp : parse_num_pair "-5,5" = Some (- Qc_of_Z 5, Qc_of_Z 5)%Qc)
    by (vm_compute; reflexivity).
  destruct (position_text_rejected_changes_only_badge Scenario.one_node "-5,5")
    as (msg & _ & He & Hn & _).
  - right. exists (- Qc_of_Z 5)%Qc, (Qc_of_Z 5). split; [exact Hp|]. left. reflexivity.
  - split; [exact He | exact Hn].
Defined.

End PositionRejectedWitness.

(** X14.  A position typed for a single selected node that changes
    something: the node is moved to the clamped position in the list of the
    form, the flag is set, and one group is issued with one [move_node] to
    the clamped position.  The event posted inside the group reports the
    offset (0,0), because the node is assigned its new position before the
    offset is computed from it. *)
Theorem single_node_move_event_offset_is_zero
    `{Ext : Externals} (s : NodeForm) (text : string) (px py : Qc) (node : Node) :
  parse_num_pair text = Some (px, py) ->
  (0 ≤ px)%Qc -> (0 ≤ py)%Qc ->
  get_nodes_by_idx (_nodes s) (_selected_idx (nf_base s)) = [node] ->
  let pos := mkVec2 px py in
  let clamped := clamp_rect_pos (mkRect pos (node_size node))
                   (mkRect (mkVec2 0%Qc 0%Qc) (canvas_realsize s)) in
  node_position node ≠ clamped \/ pos ≠ clamped ->
  let s' := exec (NodeForm__OnPosText text) s in
  new_effects (NodeForm__OnPosText text) s
  = [Controller start_group;
     DidMoveNodesEvent [set_position clamped node] (mkVec2 0%Qc 0%Qc) false;
     Controller (move_node (net_index (nf_base s)) (index node) clamped);
     Controller end_group] /\
  get_nodes_by_idx (_nodes s') (_selected_idx (nf_base s')) = [set_position clamped node] /\
  _self_changes (nf_base s') = true /\
  badges (nf_base s') pos_ctrl = None.
Proof.
  intros Hp Hx Hy Hn pos clamped Hch s'.
  assert (Hrun : NodeForm__OnPosText text s =
    (Ok tt, with_badge pos_ctrl None
      (log_effects
        [Controller start_group;
         DidMoveNodesEvent [set_position clamped node] (mkVec2 0%Qc 0%Qc) false;
         Controller (move_node (net_index (nf_base s)) (index node) clamped);
         Controller end_group]
        (set_nodes ((fun n => if selected (_selected_idx (nf_base s)) n
                              then set_position clamped n else n) <$> _nodes s)
           (with_flag true s))))).
  { rewrite (OnPosText_single_node s text px py node Hp Hx Hy Hn). py_run.
    by rewrite (OnPosText_single_moved s node (mkVec2 px py) Hch). }
  subst s'. split_and!.
  - apply new_effects_app. unfold exec. by rewrite Hrun.
  - unfold exec. rewrite Hrun. cbn [snd with_badge log_effects set_nodes with_flag set_nf_base
      _nodes nf_base badge_set add_effects set_badges set_self_changes _selected_idx].
    rewrite get_nodes_by_idx_moved by done. by rewrite Hn.
  - unfold exec. by rewrite Hrun.
  - unfold exec. rewrite Hrun. cbn. by rewrite decide_True.
Qed.

Section SingleMoveWitness.
Local Existing Instance Scenario.ext.

(** The node at (5,5) of the scenario, moved to (7,9). *)
Lemma single_node_move_event_offset_is_zero_witness :
  calls_of (new_effects (NodeForm__OnPosText "7,9") Scenario.one_node)
  = [start_group; move_node 0 0 (Scenario.vec 7 9); end_group].
Proof.
  assert (Hp : parse_num_pair "7,9" = Some (Qc_of_Z 7, Qc_of_Z 9))
    by (vm_compute; reflexivity).
  destruct (single_node_move_event_offset_is_zero Scenario.one_node "7,9" _ _
              (Scenario.node 0 "A" (Scenario.vec 5 5) (Scenario.vec 20 20)) Hp)
    as (He & _).
  - vm_compute. discriminate.
  - vm_compute. discriminate.
  - vm_compute. reflexivity.
  - left. vm_compute. discriminate.
  - rewrite He. cbn [calls_of omap]. repeat f_equal.
Defined.

End SingleMoveWitness.

Section NodeFormStyleMore.
Context `{Ext : Externals}.









(** The id handler of the node form with one selected index. *)
Lemma NodeForm_OnIdText_run (s : NodeForm) (new_id : string) (nodei : Z) :
  _selected_idx (nf_base s) = {[nodei]} ->
  let net := net_index (nf_base s) in
  NodeForm__OnIdText new_id s
  = if PyStr.len new_id =? 0 then
      (Ok tt, with_badge id_ctrl (Some (literal "ID cannot be empty")) s)
    else if existsb (fun node => bool_decide (id_ node = new_id)) (_nodes s) then
      (Ok tt, with_badge id_ctrl (Some (literal "Not saved: Duplicate ID")) s)
    else if rename_node_ok net nodei new_id then
      (Ok tt, with_badge id_ctrl None
                (log_effects [Controller (rename_node net nodei new_id)] (with_flag true s)))
    else
      (Raise AssertionError,
       log_effects [Controller (rename_node net nodei new_id)] (with_flag true s)).
Proof.
  intros Hsel net. unfold NodeForm__OnIdText. rewrite get_bind_run. cbv beta zeta.
  rewrite Hsel.
  assert (Hlen : set_len ({[nodei]} : gset Z) = 1)
    by (unfold set_len; by rewrite size_singleton).
  rewrite Hlen, elements_singleton. py_run. cbn [Z.eqb Pos.eqb].
  destruct (PyStr.len new_id =? 0); [reflexivity|].
  destruct (existsb _ (_nodes s)); [reflexivity|].
  py_run. rewrite assign_self_changes_run, controller_run.
  fold net. by destruct (rename_node_ok net nodei new_id).
Qed.

Lemma len_zero (t : string) : (PyStr.len t =? 0) = bool_decide (t = EmptyString).
Proof.
  unfold PyStr.len. destruct t as [|c t]; [done|].
  cbn [String.length]. rewrite bool_decide_eq_false_2 by done.
  apply Z.eqb_neq. lia.
Qed.

Lemma existsb_id (new_id : string) (nodes : list Node) :
  existsb (fun node => bool_decide (id_ node = new_id)) nodes
  = bool_decide (new_id ∈ id_ <$> nodes).
Proof.
  induction nodes as [|n l IH]; [done|].
  cbn [existsb]. rewrite IH, fmap_cons.
  destruct (decide (id_ n = new_id)) as [E|E].
  - rewrite (bool_decide_eq_true_2 _ E). cbn.
    symmetry. apply bool_decide_eq_true_2. rewrite <- E. apply list_elem_of_here.
  - rewrite (bool_decide_eq_false_2 _ E). cbn.
    apply bool_decide_ext. rewrite elem_of_cons.
    split; [by right | intros [H|H]; [by subst | done]].
Qed.

End NodeFormStyleMore.

(** X15.  A size typed for a single selected node that is not below the
    minimum and changes something: the handler issues exactly one
    [set_node_size], with the clamped size and outside any group, sets the
    flag and hides the badge.  Unlike the position handler it does not touch
    the nodes held by the form. *)
Theorem single_node_resize_issues_one_ungrouped_call
    `{Ext : Externals} (s : NodeForm) (text : string) (w h : Qc) (node : Node) :
  parse_num_pair text = Some (w, h) ->
  get_nodes_by_idx (_nodes s) (_selected_idx (nf_base s)) = [node] ->
  ¬ (w < min_node_width)%Qc -> ¬ (h < min_node_height)%Qc ->
  let sz := mkVec2 w h in
  let clamped := clamp_rect_size (mkRect (node_position node) sz) (canvas_realsize s) in
  node_size node ≠ clamped \/ sz ≠ clamped ->
  let s' := exec (NodeForm__OnSizeText text) s in
  new_effects (NodeForm__OnSizeText text) s
  = [Controller (set_node_size (net_index (nf_base s)) (index node) clamped)] /\
  eval (NodeForm__OnSizeText text) s = Ok tt /\
  _nodes s' = _nodes s /\
  _self_changes (nf_base s') = true /\
  badges (nf_base s') size_ctrl = None.
Proof.
  intros Hp Hn Hw Hh sz clamped Hch s'.
  pose proof (OnSizeText_single_node s text w h node Hp Hn) as Hrun.
  destruct (OnSizeText_single_run s node (mkVec2 w h)) as [msg Hs].
  rewrite Hs in Hrun. clear Hs. cbn [x y] in Hrun.
  rewrite (bool_decide_eq_false_2 _ Hw), (bool_decide_eq_false_2 _ Hh) in Hrun.
  cbn [orb] in Hrun. fold sz clamped in Hrun.
  rewrite (bool_decide_or_true _ _ Hch) in Hrun.
  replace (mkVec2 (x clamped) (y clamped)) with clamped in Hrun by (by destruct clamped).
  subst s'. split_and!.
  - apply new_effects_app. unfold exec. by rewrite Hrun.
  - unfold eval. by rewrite Hrun.
  - unfold exec. by rewrite Hrun.
  - unfold exec. by rewrite Hrun.
  - unfold exec. by rewrite Hrun.
Qed.

Section SingleResizeWitness.
Local Existing Instance Scenario.ext.

(** The node of size (20,20) of the scenario, resized to (30,40). *)
Lemma single_node_resize_issues_one_ungrouped_call_witness :
  calls_of (new_effects (NodeForm__OnSizeText "30,40") Scenario.one_node)
  = [set_node_size 0 0 (Scenario.vec 30 40)].
Proof.
  assert (Hp : parse_num_pair "30,40" = Some (Qc_of_Z 30, Qc_of_Z 40))
    by (vm_compute; reflexivity).
  destruct (single_node_resize_issues_one_ungrouped_call Scenario.one_node "30,40" _ _
              (Scenario.node 0 "A" (Scenario.vec 5 5) (Scenario.vec 20 20)) Hp)
    as (He & _).
  - vm_compute. reflexivity.
  - vm_compute. discriminate.
  - vm_compute. discriminate.
  - left. vm_compute. discriminate.
  - rewrite He. cbn [calls_of omap]. repeat f_equal.
Defined.

End SingleResizeWitness.

(** X16.  A fill colour picked in the node form: the handler returns
    normally, sets the flag and issues one group that holds, for every
    selected node in the order of the node list, the call that sets its RGB
    value - followed off Windows by the call that sets its alpha - and
    nothing else.  With nothing selected the group is empty, and the flag
    is set all the same. *)
Theorem fill_colour_change_calls_per_selected_node
    `{Ext : Externals} (s : NodeForm) (c : Wx.Colour) :
  let net := net_index (nf_base s) in
  let nodes := get_nodes_by_idx (_nodes s) (_selected_idx (nf_base s)) in
  let per_node := fun n : Node =>
    if on_msw then [set_node_fill_rgb net (index n) c]
    else [set_node_fill_rgb net (index n) c; set_node_fill_alpha net (index n) (Wx.Alpha c)] in
  let s' := exec (NodeForm__OnFillColorChanged c) s in
  eval (NodeForm__OnFillColorChanged c) s = Ok tt /\
  calls_of (new_effects (NodeForm__OnFillColorChanged c) s)
  = [start_group] ++ concat (per_node <$> nodes) ++ [end_group] /\
  _self_changes (nf_base s') = true /\
  _nodes s' = _nodes s /\
  badges (nf_base s') = badges (nf_base s).
Proof.
  intros net nodes per_node s'. subst s'.
  assert (Hrun : NodeForm__OnFillColorChanged c s
                 = (Ok tt,
                    log_effects
                      ([Controller start_group]
                       ++ concat ((fun n => Controller <$> per_node n) <$> nodes)
                       ++ [Controller end_group])
                      (with_flag true s)))
    by apply OnFillColorChanged_exact.
  split_and!.
  - unfold eval. by rewrite Hrun.
  - erewrite new_effects_app by (unfold exec; rewrite Hrun; reflexivity).
    by rewrite !calls_of_app, (calls_of_concat_controller per_node nodes).
  - unfold exec. by rewrite Hrun.
  - unfold exec. by rewrite Hrun.
  - unfold exec. by rewrite Hrun.
Qed.

(** X17.  Off Windows the border colour handler fails on its first selected
    node: it reads an attribute the form does not have.  By then the flag is
    set and a group is opened; the group is never closed and no colour is
    set.  On Windows, and with nothing selected, the handler returns
    normally and closes its group. *)
Theorem border_colour_off_windows_leaves_group_open
    `{Ext : Externals} (s : NodeForm) (c : Wx.Colour) :
  let handler := NodeForm__OnBorderColorChanged c in
  let nodes := get_nodes_by_idx (_nodes s) (_selected_idx (nf_base s)) in
  (on_msw = false -> nodes <> [] ->
   eval handler s = Raise AttributeError /\
   calls_of (new_effects handler s) = [start_group] /\
   _self_changes (nf_base (exec handler s)) = true) /\
  (on_msw = true \/ nodes = [] ->
   eval handler s = Ok tt /\
   last (calls_of (new_effects handler s)) = Some end_group).
Proof.
  intros handler nodes. subst handler.
  pose proof (OnBorderColorChanged_exact c s) as Hrun. cbv zeta in Hrun. fold nodes in Hrun.
  split.
  - intros Hmsw Hne. rewrite Hmsw in Hrun.
    destruct nodes as [|n l]; [done|].
    unfold eval, exec. rewrite Hrun. split_and!; try done.
    erewrite new_effects_app by (unfold exec; rewrite Hrun; reflexivity). done.
  - intros Hok.
    assert (exists es, NodeForm__OnBorderColorChanged c s
                       = (Ok tt, log_effects (es ++ [Controller end_group]) (with_flag true s)))
      as [es Hes].
    { destruct on_msw.
      - eexists. rewrite Hrun. by rewrite app_assoc.
      - destruct Hok as [Hok|Hok]; [done|]. rewrite Hok in Hrun.
        exists [Controller start_group]. by rewrite Hrun. }
    unfold eval. rewrite Hes. split; [done|].
    erewrite new_effects_app by (unfold exec; rewrite Hes; reflexivity).
    rewrite calls_of_app. cbn. by rewrite last_snoc.
Qed.

Section BorderColourWitness.
Local Existing Instance OffWindows.ext.

(** The node of the scenario on a platform other than Windows. *)
Lemma border_colour_off_windows_leaves_group_open_witness :
  eval (NodeForm__OnBorderColorChanged Scenario.red) Scenario.one_node
  = Raise AttributeError /\
  calls_of (new_effects (NodeForm__OnBorderColorChanged Scenario.red) Scenario.one_node)
  = [start_group].
Proof.
  destruct (border_colour_off_windows_leaves_group_open Scenario.one_node Scenario.red)
    as (H & _).
  destruct H as (H1 & H2 & _).
  - reflexivity.
  - vm_compute. discriminate.
  - split; [exact H1 | exact H2].
Defined.

End BorderColourWitness.

(** X18.  The identifier typed for the one selected node.  An empty
    identifier, and an identifier that some node of the form already has -
    the selected node included - are rejected with a badge and reach the
    controller not at all.  Any other identifier sets the flag and issues
    exactly one [rename_node]; if the controller refuses it, the handler
    fails its assertion after the call.  The nodes held by the form are
    never changed. *)
Theorem node_id_edit_renames_fresh_nonempty_only
    `{Ext : Externals} (s : NodeForm) (new_id : string) (nodei : Z) :
  _selected_idx (nf_base s) = {[nodei]} ->
  let handler := NodeForm__OnIdText new_id in
  let net := net_index (nf_base s) in
  let rejected := bool_decide (new_id = EmptyString)
                  || bool_decide (new_id ∈ id_ <$> _nodes s) in
  new_effects handler s
  = (if rejected then [] else [Controller (rename_node net nodei new_id)]) /\
  eval handler s
  = (if rejected || rename_node_ok net nodei new_id then Ok tt else Raise AssertionError) /\
  _self_changes (nf_base (exec handler s))
  = (if rejected then _self_changes (nf_base s) else true) /\
  (rejected = true -> exists msg, badges (nf_base (exec handler s)) id_ctrl = Some msg) /\
  _nodes (exec handler s) = _nodes s.
Proof.
  intros Hsel handler net rejected. subst handler.
  pose proof (NodeForm_OnIdText_run s new_id nodei Hsel) as Hrun. cbv zeta in Hrun.
  rewrite len_zero, existsb_id in Hrun. fold net in Hrun.
  subst rejected.
  destruct (bool_decide (new_id = EmptyString)).
  { cbn [orb]. unfold eval, exec. split_and!; try (by rewrite Hrun).
    - apply new_effects_same. unfold exec. by rewrite Hrun.
    - intros _. rewrite Hrun. eexists. cbn. by rewrite decide_True. }
  destruct (bool_decide (new_id ∈ id_ <$> _nodes s)).
  { cbn [orb]. unfold eval, exec. split_and!; try (by rewrite Hrun).
    - apply new_effects_same. unfold exec. by rewrite Hrun.
    - intros _. rewrite Hrun. eexists. cbn. by rewrite decide_True. }
  cbn [orb].
  destruct (rename_node_ok net nodei new_id);
    unfold eval, exec; (split_and!; try (by rewrite Hrun); try done);
    apply new_effects_app; unfold exec; by rewrite Hrun.
Qed.

Section NodeIdWitness.
Local Existing Instance Scenario.ext.

(** The node [A] of the scenario renamed to [A]: rejected as a duplicate. *)
Lemma node_id_edit_renames_fresh_nonempty_only_witness :
  new_effects (NodeForm__OnIdText "A") Scenario.one_node = [].
Proof.
  destruct (node_id_edit_renames_fresh_nonempty_only Scenario.one_node "A" 0) as (H & _).
  - reflexivity.
  - rewrite H. vm_compute. reflexivity.
Defined.

End NodeIdWitness.


Section OpacityWitness.
Local Existing Instance Scenario.ext.


End OpacityWitness.

(** X20.  With no node of the form selected, a well-formed size text makes
    the size handler raise [ValueError] - the minimum of no widths - and a
    well-formed position text makes the position handler raise
    [AttributeError] when the form has no bounding rectangle yet; both leave
    the form as it was.  The fill colour handler still sets the flag and
    issues a group, an empty one. *)
Theorem handlers_with_no_selected_node
    `{Ext : Externals} (s : NodeForm) (text : string) (a b : Qc) (c : Wx.Colour) :
  get_nodes_by_idx (_nodes s) (_selected_idx (nf_base s)) = [] ->
  parse_num_pair text = Some (a, b) ->
  NodeForm__OnSizeText text s = (Raise ValueError, s) /\
  ((0 ≤ a)%Qc -> (0 ≤ b)%Qc -> _bounding_rect s = None ->
   NodeForm__OnPosText text s = (Raise AttributeError, s)) /\
  calls_of (new_effects (NodeForm__OnFillColorChanged c) s) = [start_group; end_group] /\
  _self_changes (nf_base (exec (NodeForm__OnFillColorChanged c) s)) = true.
Proof.
  intros Hn Hp. split_and!.
  - unfold NodeForm__OnSizeText. rewrite Hp. py_run. rewrite Hn.
    unfold OnSizeText_multi. py_run. reflexivity.
  - intros Ha Hb Hbr. unfold NodeForm__OnPosText. rewrite Hp.
    rewrite (bool_decide_eq_false_2 (a < 0)%Qc) by (by apply Qcle_not_lt).
    rewrite (bool_decide_eq_false_2 (b < 0)%Qc) by (by apply Qcle_not_lt).
    cbn [orb]. py_run. rewrite Hn. unfold OnPosText_multi. py_run. by rewrite Hbr.
  - pose proof (OnFillColorChanged_exact c s) as Hrun. cbv zeta in Hrun.
    rewrite Hn in Hrun.
    erewrite new_effects_app by (unfold exec; rewrite Hrun; reflexivity). done.
  - pose proof (OnFillColorChanged_exact c s) as Hrun. cbv zeta in Hrun.
    unfold exec. by rewrite Hrun.
Qed.

Section NoSelectionWitness.
Local Existing Instance Scenario.ext.

(** The form of the scenario with its selection cleared. *)
Lemma handlers_with_no_selected_node_witness :
  let s := Scenario.form [Scenario.node 0 "A" (Scenario.vec 5 5) (Scenario.vec 20 20)] ∅ None in
  NodeForm__OnSizeText "5,5" s = (Raise ValueError, s).
Proof.
  intros s.
  assert (Hp : parse_num_pair "5,5" = Some (Qc_of_Z 5, Qc_of_Z 5))
    by (vm_compute; reflexivity).
  destruct (handlers_with_no_selected_node s "5,5" _ _ Scenario.red eq_refl Hp) as (H & _).
  exact H.
Defined.

End NoSelectionWitness.

(** ** Colours with their alpha packed *)

Section PackedAlpha.

Lemma GetRGB_high_bits (c : Wx.Colour) (n : Z) :
  Wx.wf c -> 24 <= n -> Z.testbit (Wx.GetRGB c) n = false.
Proof.
  intros (Hr & Hg & Hb & _) Hn. unfold Wx.GetRGB.
  rewrite !Z.lor_spec, !Z.shiftl_spec by lia.
  by rewrite (byte_high_bits _ n Hr), (byte_high_bits _ (n - 8) Hg),
    (byte_high_bits _ (n - 16) Hb) by lia.
Qed.

(** The three colour channels of a packed value do not depend on the alpha
    packed above them. *)
Lemma unpack_below_alpha (g a k : Z) :
  0 <= k <= 16 ->
  Z.land (Z.shiftr (Z.lor g (Z.shiftl a 24)) k) 255 = Z.land (Z.shiftr g k) 255.
Proof.
  intros Hk. apply Z.bits_inj'. intros n Hn.
  rewrite !Z.land_spec, !Z.shiftr_spec, Z.lor_spec, Z.shiftl_spec, testbit_255 by lia.
  destruct (Z.ltb_spec n 8).
  - by rewrite (Z.testbit_neg_r _ (n + k - 24)), orb_false_r by lia.
  - by rewrite !andb_false_r.
Qed.

Lemma unpack_alpha (c : Wx.Colour) :
  Wx.wf c -> Z.land (Z.shiftr (Wx.GetRGBA c) 24) 255 = Wx.Alpha c.
Proof.
  intros Hc. pose proof Hc as (_ & _ & _ & Ha). unfold Wx.GetRGBA.
  apply Z.bits_inj'. intros n Hn.
  rewrite Z.land_spec, Z.shiftr_spec, Z.lor_spec, Z.shiftl_spec, testbit_255 by lia.
  rewrite (GetRGB_high_bits c (n + 24) Hc) by lia.
  replace (n + 24 - 24) with n by lia. cbn [orb].
  destruct (Z.ltb_spec n 8).
  - by rewrite andb_true_r.
  - by rewrite andb_false_r, (byte_high_bits _ n Ha).
Qed.

(** Packing a well-formed colour and unpacking it gives the colour back. *)
Lemma SetRGBA_GetRGBA (c d : Wx.Colour) :
  Wx.wf c -> Wx.SetRGBA (Wx.GetRGBA c) d = c.
Proof.
  intros Hc. unfold Wx.SetRGBA.
  rewrite (unpack_alpha c Hc). unfold Wx.GetRGBA.
  rewrite <- (Z.shiftr_0_r (Z.lor (Wx.GetRGB c) (Z.shiftl (Wx.Alpha c) 24))) at 1.
  rewrite !unpack_below_alpha by lia. rewrite Z.shiftr_0_r.
  rewrite (unpack_red c Hc), (unpack_green c Hc), (unpack_blue c Hc).
  by destruct c.
Qed.

Lemma GetRGBA_inj (c d : Wx.Colour) :
  Wx.wf c -> Wx.wf d -> Wx.GetRGBA c = Wx.GetRGBA d -> c = d.
Proof.
  intros Hc Hd E.
  rewrite <- (SetRGBA_GetRGBA c Wx.BLACK Hc), <- (SetRGBA_GetRGBA d Wx.BLACK Hd).
  by rewrite E.
Qed.

End PackedAlpha.

(** X21.  Off Windows, where the colour picker carries the alpha, the
    colour shown for a non-empty list of well-formed colours is their common
    colour, alpha included, exactly when they are all the same colour;
    otherwise - also when they differ in alpha only - it is opaque black.
    No separate alpha is ever returned. *)
Theorem multi_color_off_windows_needs_equal_alpha
    `{Ext : Externals} (colors : list Wx.Colour) :
  on_msw = false ->
  colors <> [] ->
  Forall Wx.wf colors ->
  let result := _GetMultiColor colors in
  result.2 = None /\
  (forall c, (forall d, d ∈ colors -> d = c) -> result.1 = c) /\
  ((forall c, exists d, d ∈ colors /\ d <> c) -> result.1 = Wx.BLACK).
Proof.
  intros Hmsw Hne Hwf result.
  assert (Hres : result = (match elements (list_to_set (Wx.GetRGBA <$> colors) : gset Z) with
                           | [v] => Wx.SetRGBA v Wx.BLACK
                           | _ => Wx.BLACK
                           end, None)).
  { subst result. unfold _GetMultiColor. by rewrite Hmsw. }
  assert (Hone : forall v, elements (list_to_set (Wx.GetRGBA <$> colors) : gset Z) = [v]
                           <-> forall c, c ∈ colors -> Wx.GetRGBA c = v).
  { intros v. rewrite elements_list_to_set_single by (by destruct colors).
    split.
    - intros H c Hc. apply H, list_elem_of_fmap. by exists c.
    - intros H a (c & -> & Hc)%list_elem_of_fmap. by apply H. }
  rewrite Hres. cbn [fst snd]. split_and!; [done| |].
  - intros c Hall.
    assert (Hc : c ∈ colors).
    { destruct colors as [|d l]; [done|]. rewrite <- (Hall d) by apply list_elem_of_here.
      apply list_elem_of_here. }
    rewrite (proj2 (Hone (Wx.GetRGBA c))) by (intros d Hd; by rewrite (Hall d Hd)).
    apply SetRGBA_GetRGBA. by apply (proj1 (Forall_forall _ _) Hwf).
  - intros Hdiff.
    destruct (elements (list_to_set (Wx.GetRGBA <$> colors) : gset Z)) as [|v [|w l]] eqn:E;
      [done| |done].
    clear E. pose proof (proj1 (Hone v) eq_refl) as E.
    destruct colors as [|c0 l0]; [done|].
    destruct (Hdiff c0) as (d & Hd & Hneq). destruct Hneq.
    apply GetRGBA_inj.
    + by apply (proj1 (Forall_forall _ _) Hwf).
    + apply (proj1 (Forall_forall _ _) Hwf). apply list_elem_of_here.
    + rewrite (E d Hd). symmetry. apply E, list_elem_of_here.
Qed.

Section PackedAlphaWitness.
Local Existing Instance OffWindows.ext.

(** An opaque red and a half-transparent red: shown as black. *)
Lemma multi_color_off_windows_needs_equal_alpha_witness :
  (_GetMultiColor [Scenario.red; Scenario.faint_red]).1 = Wx.BLACK.
Proof.
  destruct (multi_color_off_windows_needs_equal_alpha [Scenario.red; Scenario.faint_red])
    as (_ & _ & H).
  - reflexivity.
  - discriminate.
  - repeat constructor; vm_compute; discriminate.
  - apply H. intros c. destruct (decide (c = Scenario.red)) as [->|Hc].
    + exists Scenario.faint_red. split; [apply list_elem_of_further, list_elem_of_here|].
      discriminate.
    + exists Scenario.red. split; [apply list_elem_of_here|]. congruence.
Defined.

End PackedAlphaWitness.

(** ** The reaction and compartment forms *)

Section OtherForms.
Context `{Ext : Externals}.

Lemma single_selection (sel : gset Z) :
  set_len sel = 1 -> exists i, sel = {[i]}.
Proof.
  unfold set_len. intros H.
  destruct (size_1_elem_of sel) as [i Hi]; [lia|].
  exists i. by apply leibniz_equiv.
Qed.

Lemma single_selection_len (i : Z) : set_len ({[i]} : gset Z) = 1.
Proof. unfold set_len. by rewrite size_singleton. Qed.

End OtherForms.

(** X22.  The identifier handler of the compartment form never reaches the
    controller: whatever is typed and whatever is selected, it records no
    effect and leaves the compartments and the flag as they were.  For a
    non-empty identifier it never returns normally; with one compartment
    selected it raises [AttributeError], reading the list of reactions that
    a compartment form does not have. *)
Theorem compartment_id_edit_never_reaches_controller
    `{Ext : Externals} (s : CompartmentForm) (new_id : string) :
  let handler := CompartmentForm__OnIdText new_id in
  new_effects handler s = [] /\
  _compartments (exec handler s) = _compartments s /\
  _self_changes (cf_base (exec handler s)) = _self_changes (cf_base s) /\
  (new_id <> EmptyString -> eval handler s <> Ok tt) /\
  (new_id <> EmptyString -> set_len (_selected_idx (cf_base s)) = 1 ->
   handler s = (Raise AttributeError, s)).
Proof.
  intros handler. subst handler.
  assert (Hrun : CompartmentForm__OnIdText new_id s =
    if set_len (_selected_idx (cf_base s)) =? 1 then
      if bool_decide (new_id = EmptyString) then
        (Ok tt, set_cf_base (badge_set id_ctrl (Some (literal "ID cannot be empty"))
                               (cf_base s)) s)
      else (Raise AttributeError, s)
    else (Raise AssertionError, s)).
  { unfold CompartmentForm__OnIdText. rewrite get_bind_run. cbv beta zeta.
    destruct (set_len (_selected_idx (cf_base s)) =? 1) eqn:Elen; [|reflexivity].
    apply Z.eqb_eq in Elen. destruct (single_selection _ Elen) as [i Hi].
    rewrite Hi, elements_singleton. py_run. rewrite len_zero.
    by destruct (bool_decide (new_id = EmptyString)). }
  assert (Hsame : forall r, CompartmentForm__OnIdText new_id s = (r, s) ->
            new_effects (CompartmentForm__OnIdText new_id) s = [] /\
            _compartments (exec (CompartmentForm__OnIdText new_id) s) = _compartments s /\
            _self_changes (cf_base (exec (CompartmentForm__OnIdText new_id) s))
            = _self_changes (cf_base s)).
  { intros r Hr. unfold new_effects, exec. rewrite Hr. cbn. by rewrite drop_all. }
  destruct (set_len (_selected_idx (cf_base s)) =? 1) eqn:Elen.
  - destruct (decide (new_id = EmptyString)) as [Hid|Hid].
    + rewrite (bool_decide_eq_true_2 _ Hid) in Hrun. split_and!; try done.
      * unfold new_effects, exec. rewrite Hrun. cbn. by rewrite drop_all.
      * unfold exec. by rewrite Hrun.
      * unfold exec. by rewrite Hrun.
    + rewrite (bool_decide_eq_false_2 _ Hid) in Hrun.
      destruct (Hsame _ Hrun) as (H1 & H2 & H3). split_and!; try done.
      intros _. unfold eval. by rewrite Hrun.
  - destruct (Hsame _ Hrun) as (H1 & H2 & H3). split_and!; try done.
    + intros _. unfold eval. by rewrite Hrun.
    + intros _ H. apply Z.eqb_neq in Elen. done.
Qed.

Section CompartmentWitness.
Local Existing Instance Scenario.ext.

(** One compartment, selected, and a new name typed for it. *)
Lemma compartment_id_edit_never_reaches_controller_witness :
  let s := mkCompartmentForm (mkEditPanelForm 0 (fun _ => None) false {[0]} [])
             [mkCompartment 0 "c0"] in
  CompartmentForm__OnIdText "cell" s = (Raise AttributeError, s).
Proof.
  intros s.
  destruct (compartment_id_edit_never_reaches_controller s "cell") as (_ & _ & _ & _ & H).
  apply H; [discriminate | reflexivity].
Defined.

End CompartmentWitness.

(** X23.  The identifier and the rate law typed for the one selected
    reaction.  An empty identifier and the identifier of any reaction of the
    form are rejected and reach the controller not at all; any other sets
    the flag and issues exactly one [rename_reaction], whose answer is not
    looked at.  A rate law is not validated: every text, the empty one
    included, sets the flag and is sent with one [set_reaction_ratelaw].
    Both handlers return normally and leave the reactions of the form as
    they were. *)
Theorem reaction_id_and_ratelaw_edits
    `{Ext : Externals} (s : ReactionForm) (text : string) (reai : Z) :
  _selected_idx (rf_base s) = {[reai]} ->
  let net := net_index (rf_base s) in
  let rejected := bool_decide (text = EmptyString)
                  || bool_decide (text ∈ r_id <$> _reactions s) in
  (new_effects (ReactionForm__OnIdText text) s
   = (if rejected then [] else [Controller (rename_reaction net reai text)]) /\
   eval (ReactionForm__OnIdText text) s = Ok tt /\
   _self_changes (rf_base (exec (ReactionForm__OnIdText text) s))
   = (if rejected then _self_changes (rf_base s) else true) /\
   _reactions (exec (ReactionForm__OnIdText text) s) = _reactions s) /\
  (new_effects (ReactionForm__OnRateLawText text) s
   = [Controller (set_reaction_ratelaw net reai text)] /\
   eval (ReactionForm__OnRateLawText text) s = Ok tt /\
   _self_changes (rf_base (exec (ReactionForm__OnRateLawText text) s)) = true /\
   _reactions (exec (ReactionForm__OnRateLawText text) s) = _reactions s).
Proof.
  intros Hsel net rejected.
  assert (Hex : existsb (fun rxn => bool_decide (r_id rxn = text)) (_reactions s)
                = bool_decide (text ∈ r_id <$> _reactions s)).
  { induction (_reactions s) as [|r l IH]; [done|].
    cbn [existsb]. rewrite IH, fmap_cons.
    destruct (decide (r_id r = text)) as [E|E].
    - rewrite (bool_decide_eq_true_2 _ E). cbn.
      symmetry. apply bool_decide_eq_true_2. rewrite <- E. apply list_elem_of_here.
    - rewrite (bool_decide_eq_false_2 _ E). cbn.
      apply bool_decide_ext. rewrite elem_of_cons.
      split; [by right | intros [H|H]; [by subst | done]]. }
  split.
  - assert (Hrun : ReactionForm__OnIdText text s =
      if rejected then
        (Ok tt, snd (_SetValidationState false id_ctrl
                       (literal (if bool_decide (text = EmptyString)
                                 then "ID cannot be empty"
                                 else "Not saved: Duplicate ID")) s))
      else
        (Ok tt, snd ((assign_self_changes true;;
                      controller (rename_reaction net reai text);;
                      _SetValidationState true id_ctrl (literal "")) s))).
    { unfold ReactionForm__OnIdText. rewrite get_bind_run. cbv beta zeta.
      rewrite Hsel, single_selection_len, elements_singleton. py_run.
      rewrite len_zero, Hex. subst rejected.
      destruct (bool_decide (text = EmptyString)); [reflexivity|].
      destruct (bool_decide (text ∈ r_id <$> _reactions s)); reflexivity. }
    destruct rejected; (split_and!;
      [ first [apply new_effects_same | apply new_effects_app]; unfold exec; by rewrite Hrun
      | unfold eval; by rewrite Hrun
      | unfold exec; by rewrite Hrun
      | unfold exec; by rewrite Hrun ]).
  - assert (Hrun : ReactionForm__OnRateLawText text s =
        (Ok tt, snd ((assign_self_changes true;;
                      controller (set_reaction_ratelaw net reai text)) s))).
    { unfold ReactionForm__OnRateLawText. rewrite get_bind_run. cbv beta zeta.
      rewrite Hsel, single_selection_len, elements_singleton. reflexivity. }
    split_and!.
    + apply new_effects_app. unfold exec. by rewrite Hrun.
    + unfold eval. by rewrite Hrun.
    + unfold exec. by rewrite Hrun.
    + unfold exec. by rewrite Hrun.
Qed.

Section ReactionWitness.
Local Existing Instance Scenario.ext.

(** A reaction [J0], selected, and its rate law cleared. *)
Lemma reaction_id_and_ratelaw_edits_witness :
  let s := mkReactionForm (mkEditPanelForm 0 (fun _ => None) false {[0]} [])
             [mkReaction 0 "J0" Scenario.red 1%Qc "k1*A"] in
  new_effects (ReactionForm__OnRateLawText "") s
  = [Controller (set_reaction_ratelaw 0 0 "")].
Proof.
  intros s.
  destruct (reaction_id_and_ratelaw_edits s "" 0 eq_refl) as (_ & H & _).
  exact H.
Defined.

End ReactionWitness.

(** X24.  The identifier handlers of the three forms and the rate law
    handler assert that exactly one entity is selected: with none or several
    selected each raises [AssertionError] and leaves its form exactly as it
    was. *)
Theorem single_entity_edits_assert_one_selected
    `{Ext : Externals} (text : string) :
  (forall s : NodeForm, set_len (_selected_idx (nf_base s)) <> 1 ->
     NodeForm__OnIdText text s = (Raise AssertionError, s)) /\
  (forall s : ReactionForm, set_len (_selected_idx (rf_base s)) <> 1 ->
     ReactionForm__OnIdText text s = (Raise AssertionError, s) /\
     ReactionForm__OnRateLawText text s = (Raise AssertionError, s)) /\
  (forall s : CompartmentForm, set_len (_selected_idx (cf_base s)) <> 1 ->
     CompartmentForm__OnIdText text s = (Raise AssertionError, s)).
Proof.
  split_and!.
  - intros s H%Z.eqb_neq. unfold NodeForm__OnIdText. rewrite get_bind_run. cbv beta zeta.
    by rewrite H.
  - intros s H%Z.eqb_neq. split.
    + unfold ReactionForm__OnIdText. rewrite get_bind_run. cbv beta zeta. by rewrite H.
    + unfold ReactionForm__OnRateLawText. rewrite get_bind_run. cbv beta zeta. by rewrite H.
  - intros s H%Z.eqb_neq. unfold CompartmentForm__OnIdText. rewrite get_bind_run.
    cbv beta zeta. by rewrite H.
Qed.

Section AssertWitness.
Local Existing Instance Scenario.ext.

(** The two selected nodes of the scenario and an identifier typed. *)
Lemma single_entity_edits_assert_one_selected_witness :
  NodeForm__OnIdText "C" Scenario.two_nodes = (Raise AssertionError, Scenario.two_nodes).
Proof.
  destruct (single_entity_edits_assert_one_selected "C") as (H & _).
  apply H. vm_compute. discriminate.
Defined.

End AssertWitness.

(** X25.  The stoichiometry fields.  A text that [float] reads as a finite
    value above zero is accepted: the handler sets the flag, hides the
    badge and issues exactly one call with the value, for the reactant or
    the product as the field says.  A text that [float] reads as a finite
    value of zero or below, or does not read, only shows the badge of the
    field.  The test of the field is [value <= 0]: over binary64 numbers it
    also lets NaN and the positive infinity pass, and stops the negative
    infinity and zero. *)
Theorem stoichiometry_field_accepts_positive_values
    `{Ext : Externals} (s : ReactionForm) (reai nodei : Z) (text : string) :
  let net := net_index (rf_base s) in
  let src := ReactionForm_handle (SrcStoichText reai nodei text) in
  let dest := ReactionForm_handle (DestStoichText reai nodei text) in
  match py_float text with
  | Some v =>
      if bool_decide (v ≤ 0)%Qc then
        new_effects src s = [] /\ new_effects dest s = [] /\
        (exists msg, badges (rf_base (exec src s)) (stoich_ctrl reai nodei) = Some msg) /\
        _self_changes (rf_base (exec src s)) = _self_changes (rf_base s)
      else
        new_effects src s = [Controller (set_src_node_stoich net reai nodei v)] /\
        new_effects dest s = [Controller (set_dest_node_stoich net reai nodei v)] /\
        badges (rf_base (exec src s)) (stoich_ctrl reai nodei) = None /\
        _self_changes (rf_base (exec src s)) = true
  | None =>
      new_effects src s = [] /\ new_effects dest s = [] /\
      (exists msg, badges (rf_base (exec src s)) (stoich_ctrl reai nodei) = Some msg) /\
      _self_changes (rf_base (exec src s)) = _self_changes (rf_base s)
  end /\
  Float64.stoich_good PrimFloat.nan = true /\
  Float64.stoich_good PrimFloat.infinity = true /\
  Float64.stoich_good PrimFloat.neg_infinity = false /\
  Float64.stoich_good Float64.zero = false.
Proof.
  intros net src dest.
  split; [|by vm_compute].
  subst src dest. cbn [ReactionForm_handle].
  unfold float_ctrl_fn.
  destruct (py_float text) as [v|].
  - cbv zeta. rewrite orb_false_r.
    destruct (bool_decide (v ≤ 0)%Qc).
    + split_and!.
      * by apply new_effects_same.
      * by apply new_effects_same.
      * unfold exec. cbn -[decide ctrl_eq_dec].
        destruct (decide (stoich_ctrl reai nodei = stoich_ctrl reai nodei)); [by eexists|done].
      * reflexivity.
    + split_and!.
      * by apply new_effects_app.
      * by apply new_effects_app.
      * unfold exec. py_run.
        change (set_src_stoich reai nodei v s)
          with (Ok tt, set_rf_base (add_effect (Controller (set_src_node_stoich net reai nodei v))
                                      (set_self_changes true (rf_base s))) s).
        cbn -[decide ctrl_eq_dec].
        by destruct (decide (stoich_ctrl reai nodei = stoich_ctrl reai nodei)).
      * reflexivity.
  - split_and!.
    + by apply new_effects_same.
    + by apply new_effects_same.
    + unfold exec. cbn -[decide ctrl_eq_dec].
        destruct (decide (stoich_ctrl reai nodei = stoich_ctrl reai nodei)); [by eexists|done].
    + reflexivity.
Qed.

(** ** Selection changes and refreshes *)

Section SelectionChange.
Context {S : Type} `{F : Form S}.
Hypothesis base_with_base : forall b s, base (with_base b s) = b.
Hypothesis UpdateAllFields_logged :
  forall s, exists rest,
    effects (base (exec UpdateAllFields s)) = effects (base s) ++ UpdateAllFieldsCalled :: rest /\
    _self_changes (base (exec UpdateAllFields s)) = false.

(** The body the three [UpdateSelection] methods share. *)
Lemma UpdateSelection_run (sel : gset Z) (s : S) :
  let c := on_base (set_selected_idx sel);;
           when (negb (set_len sel =? 0)) UpdateAllFields in
  (set_len sel <> 0 ->
   repopulated (new_effects c s) = true /\ _self_changes (base (exec c s)) = false) /\
  (set_len sel = 0 ->
   c s = (Ok tt, with_base (set_selected_idx sel (base s)) s)).
Proof.
  intros c. subst c. split.
  - intros Hsel%Z.eqb_neq. rewrite Hsel. cbn [negb when].
    assert (He : exec (on_base (set_selected_idx sel);; UpdateAllFields) s
                 = exec UpdateAllFields (with_base (set_selected_idx sel (base s)) s))
      by (by rewrite exec_bind).
    destruct (UpdateAllFields_logged (with_base (set_selected_idx sel (base s)) s))
      as (rest & Hrest & Hflag).
    rewrite base_with_base in Hrest. cbn [effects set_selected_idx] in Hrest.
    split.
    + rewrite (new_effects_app _ _ (UpdateAllFieldsCalled :: rest)); [done|].
      by rewrite He.
    + by rewrite He.
  - intros Hsel. rewrite Hsel. reflexivity.
Qed.

(** A refresh that returns normally has hidden every badge. *)
Lemma Update_hides_badges (s : S) :
  eval Update s = Ok tt -> forall c, badges (base (exec Update s)) c = None.
Proof.
  unfold Update, eval, exec. py_run.
  destruct (negb (set_len (_selected_idx (base s)) =? 0) && negb (_self_changes (base s))).
  - destruct (UpdateAllFields s) as [[[]|e] s1]; [|discriminate].
    intros _ c. unfold assign_self_changes, on_base. py_run. cbn [snd].
    by rewrite !base_with_base.
  - intros _ c. unfold assign_self_changes, on_base. py_run. cbn [snd].
    by rewrite !base_with_base.
Qed.

End SelectionChange.

Section NodeFieldsUpdate.
Context `{Ext : Externals}.

(** What [NodeForm.UpdateAllFields] leaves of the form, however it ends. *)
Lemma NodeForm_UpdateAllFields_keeps (s : NodeForm) :
  let s' := exec NodeForm_UpdateAllFields s in
  _self_changes (nf_base s') = false /\
  _nodes s' = _nodes s /\
  _selected_idx (nf_base s') = _selected_idx (nf_base s).
Proof.
  intros s'. subst s'.
  unfold NodeForm_UpdateAllFields, exec. py_run.
  cbn [nf_base set_nf_base _selected_idx add_effect set_self_changes _nodes].
  destruct (set_len (_selected_idx (nf_base s)) =? 0); [by split_and!|]. cbn [negb].
  destruct (set_len (_selected_idx (nf_base s)) =? 1).
  - destruct (get_nodes_by_idx (_nodes s) (_selected_idx (nf_base s))) as [|n [|n' l]];
      by split_and!.
  - by split_and!.
Qed.

End NodeFieldsUpdate.

(** X26.  A change of the selection to a non-empty one repopulates the
    fields of each of the three forms and clears the flag, whether or not
    the flag was set.  A change to the empty selection only stores it. *)
Theorem selection_change_repopulates_despite_flag `{Ext : Externals} (sel : gset Z) :
  (set_len sel <> 0 ->
   (forall s : NodeForm,
      repopulated (new_effects (NodeForm_UpdateSelection sel) s) = true /\
      _self_changes (nf_base (exec (NodeForm_UpdateSelection sel) s)) = false) /\
   (forall s : ReactionForm,
      repopulated (new_effects (ReactionForm_UpdateSelection sel) s) = true /\
      _self_changes (rf_base (exec (ReactionForm_UpdateSelection sel) s)) = false) /\
   (forall s : CompartmentForm,
      repopulated (new_effects (CompartmentForm_UpdateSelection sel) s) = true /\
      _self_changes (cf_base (exec (CompartmentForm_UpdateSelection sel) s)) = false)) /\
  (set_len sel = 0 ->
   (forall s : NodeForm,
      NodeForm_UpdateSelection sel s = (Ok tt, set_nf_base (set_selected_idx sel (nf_base s)) s)) /\
   (forall s : ReactionForm,
      ReactionForm_UpdateSelection sel s
      = (Ok tt, set_rf_base (set_selected_idx sel (rf_base s)) s)) /\
   (forall s : CompartmentForm,
      CompartmentForm_UpdateSelection sel s
      = (Ok tt, set_cf_base (set_selected_idx sel (cf_base s)) s))).
Proof.
  split.
  - intros Hsel. split_and!; intros s.
    + by apply (UpdateSelection_run NodeForm_lens NodeForm_UpdateAllFields_logged sel s).
    + by apply (UpdateSelection_run ReactionForm_lens ReactionForm_UpdateAllFields_logged sel s).
    + by apply (UpdateSelection_run CompartmentForm_lens
                  CompartmentForm_UpdateAllFields_logged sel s).
  - intros Hsel. split_and!; intros s.
    + by apply (UpdateSelection_run NodeForm_lens NodeForm_UpdateAllFields_logged sel s).
    + by apply (UpdateSelection_run ReactionForm_lens ReactionForm_UpdateAllFields_logged sel s).
    + by apply (UpdateSelection_run CompartmentForm_lens
                  CompartmentForm_UpdateAllFields_logged sel s).
Qed.

Section SelectionWitness.
Local Existing Instance Scenario.ext.

(** The two nodes of the scenario selected again while the flag is set. *)
Lemma selection_change_repopulates_despite_flag_witness :
  let s := with_flag true Scenario.two_nodes in
  repopulated (new_effects (NodeForm_UpdateSelection {[0; 1]}) s) = true /\
  _self_changes (nf_base (exec (NodeForm_UpdateSelection {[0; 1]}) s)) = false.
Proof.
  intros s.
  destruct (selection_change_repopulates_despite_flag {[0; 1]}) as (H & _).
  destruct H as (H & _).
  - vm_compute. discriminate.
  - apply H.
Defined.

End SelectionWitness.

(** X27.  Echo suppression does not survive a change of selection: when a
    non-empty selection is set between an edit of the node form and the
    refresh that follows, that refresh repopulates the fields, whatever the
    edit was. *)
Theorem selection_change_cancels_echo_suppression
    `{Ext : Externals} (s : NodeForm) (e : node_edit) (sel : gset Z) (nodes : list Node) :
  set_len sel <> 0 ->
  let edited := exec (NodeForm_handle e) s in
  let reselected := exec (NodeForm_UpdateSelection sel) edited in
  repopulated (new_effects (UpdateNodes nodes) reselected) = true.
Proof.
  intros Hsel edited reselected.
  destruct (UpdateSelection_run NodeForm_lens NodeForm_UpdateAllFields_logged sel edited)
    as [Hne _].
  destruct (Hne Hsel) as [_ Hflag]. fold (NodeForm_UpdateSelection sel) in Hflag.
  fold reselected in Hflag.
  assert (Hkeep : _selected_idx (nf_base reselected) = sel).
  { subst reselected. unfold NodeForm_UpdateSelection. rewrite exec_bind.
    apply Z.eqb_neq in Hsel. rewrite Hsel. cbn [negb when eval on_base modify fst].
    destruct (NodeForm_UpdateAllFields_keeps
                (exec (on_base (set_selected_idx sel)) edited)) as (_ & _ & H).
    exact H. }
  assert (Hmarks : forall s0 : NodeForm, exists rest,
             effects (base (exec UpdateAllFields s0))
             = effects (base s0) ++ UpdateAllFieldsCalled :: rest).
  { intros s0. destruct (NodeForm_UpdateAllFields_logged s0) as (rest & H & _). by exists rest. }
  destruct (Update_repopulates NodeForm_lens Hmarks (set_nodes nodes reselected))
    as [rest Hrest].
  - exact Hflag.
  - cbn [base NodeForm_Form nf_base set_nodes]. by rewrite Hkeep.
  - rewrite (new_effects_app _ _ (UpdateAllFieldsCalled :: rest)); [done|].
    unfold UpdateNodes. by rewrite exec_bind.
Qed.

Section CancelWitness.
Local Existing Instance Scenario.ext.

(** The resize of the scenario, the same two nodes selected again, and the
    refresh: the fields are repopulated. *)
Lemma selection_change_cancels_echo_suppression_witness :
  repopulated
    (new_effects (UpdateNodes (_nodes Scenario.two_nodes))
       (exec (NodeForm_UpdateSelection {[0; 1]})
          (exec (NodeForm_handle (SizeText "40,40")) Scenario.two_nodes))) = true.
Proof.
  apply (selection_change_cancels_echo_suppression Scenario.two_nodes (SizeText "40,40")
           {[0; 1]} (_nodes Scenario.two_nodes)).
  vm_compute. discriminate.
Defined.

End CancelWitness.

(** X28.  How [NodeForm.UpdateAllFields] ends on a form whose selected
    nodes are as many as its selected indices: with nothing selected it
    fails its assertion, otherwise it returns normally.  In both cases the
    flag is cleared first, and the nodes and the selection are left as they
    were.  The bounding rectangle is recomputed only when the selection has
    two or more indices; with one selected the form keeps the rectangle it
    had. *)
Theorem node_fields_update_outcome `{Ext : Externals} (s : NodeForm) :
  let sel := _selected_idx (nf_base s) in
  let nodes := get_nodes_by_idx (_nodes s) sel in
  let s' := exec NodeForm_UpdateAllFields s in
  Z.of_nat (length nodes) = set_len sel ->
  eval NodeForm_UpdateAllFields s
  = (if set_len sel =? 0 then Raise AssertionError else Ok tt) /\
  _self_changes (nf_base s') = false /\
  _bounding_rect s'
  = (if (set_len sel =? 0) || (set_len sel =? 1) then _bounding_rect s
     else Some (get_bounding_rect (rect <$> nodes))) /\
  _nodes s' = _nodes s /\
  _selected_idx (nf_base s') = sel.
Proof.
  intros sel nodes s' Hlen. subst s'.
  unfold NodeForm_UpdateAllFields, eval, exec. py_run.
  cbn [nf_base set_nf_base _selected_idx add_effect set_self_changes _nodes].
  fold sel. fold nodes.
  destruct (set_len sel =? 0); [by split_and!|]. cbn [negb orb].
  destruct (set_len sel =? 1) eqn:E1.
  - apply Z.eqb_eq in E1. rewrite E1 in Hlen.
    destruct nodes as [|n [|n' l]]; cbn [length] in Hlen; [lia| |lia].
    by split_and!.
  - by split_and!.
Qed.

Section FieldsUpdateWitness.
Local Existing Instance Scenario.ext.

(** The two selected nodes of the scenario: the fields are filled and the
    bounding rectangle is the one of the two nodes. *)
Lemma node_fields_update_outcome_witness :
  let s := Scenario.two_nodes in
  eval NodeForm_UpdateAllFields s = Ok tt /\
  _bounding_rect (exec NodeForm_UpdateAllFields s)
  = Some (get_bounding_rect (rect <$> _nodes s)).
Proof.
  intros s.
  destruct (node_fields_update_outcome s) as (H1 & _ & H2 & _).
  - vm_compute. reflexivity.
  - split; [exact H1 | exact H2].
Defined.

End FieldsUpdateWitness.

(** X29.  A refresh that returns normally has hidden every validation
    badge of its form - also the suppressed refresh after an edit, and also
    when the text that was rejected is still in its field. *)
Theorem refresh_hides_every_badge `{Ext : Externals} (c : ctrl) :
  (forall (s : NodeForm) nodes,
     eval (UpdateNodes nodes) s = Ok tt ->
     badges (nf_base (exec (UpdateNodes nodes) s)) c = None) /\
  (forall (s : ReactionForm) reactions,
     eval (UpdateReactions reactions) s = Ok tt ->
     badges (rf_base (exec (UpdateReactions reactions) s)) c = None) /\
  (forall (s : CompartmentForm) comps,
     eval (UpdateCompartments comps) s = Ok tt ->
     badges (cf_base (exec (UpdateCompartments comps) s)) c = None) /\
  (forall (s : NodeForm) nodes,
     _self_changes (nf_base s) = true -> eval (UpdateNodes nodes) s = Ok tt).
Proof.
  split_and!.
  - intros s nodes. unfold UpdateNodes. rewrite eval_bind, exec_bind.
    cbn [eval modify fst]. intros H.
    by apply (Update_hides_badges NodeForm_lens).
  - intros s reactions. unfold UpdateReactions. rewrite eval_bind, exec_bind.
    cbn [eval modify fst]. intros H.
    by apply (Update_hides_badges ReactionForm_lens).
  - intros s comps. unfold UpdateCompartments. rewrite eval_bind, exec_bind.
    cbn [eval modify fst]. intros H.
    by apply (Update_hides_badges CompartmentForm_lens).
  - intros s nodes Hflag. unfold UpdateNodes, Update, eval. py_run.
    cbn [base NodeForm_Form nf_base set_nodes]. by rewrite Hflag, andb_false_r.
Qed.

Section BadgeWitness.
Local Existing Instance Scenario.ext.

(** A size below the minimum typed for the node of the scenario, then a
    refresh: the badge of the size field is shown, then hidden. *)
Lemma refresh_hides_every_badge_witness :
  let rejected := exec (NodeForm__OnSizeText "1,1") Scenario.one_node in
  (exists msg, badges (nf_base rejected) size_ctrl = Some msg) /\
  badges (nf_base (exec (UpdateNodes (_nodes rejected)) rejected)) size_ctrl = None.
Proof.
  intros rejected. split.
  - eexists. vm_compute. reflexivity.
  - destruct (refresh_hides_every_badge size_ctrl) as (H & _).
    apply H. vm_compute. reflexivity.
Defined.

End BadgeWitness.

(** X30.  How [CompartmentForm.UpdateAllFields] ends: it fails its
    assertion exactly when the number of compartments of the form with a
    selected index differs from the number of selected indices, and returns
    normally otherwise - also with nothing selected, where the other two
    forms fail.  When it returns it has written the identifiers of the
    selected compartments, joined in the order of the list of the form; in
    every case the flag is cleared and the compartments are left as they
    were. *)
Theorem compartment_fields_update_outcome `{Ext : Externals} (s : CompartmentForm) :
  let sel := _selected_idx (cf_base s) in
  let comps := filter (fun c => c_index c ∈ sel) (_compartments s) in
  let s' := exec CompartmentForm_UpdateAllFields s in
  let matched := Z.of_nat (length comps) =? set_len sel in
  eval CompartmentForm_UpdateAllFields s
  = (if matched then Ok tt else Raise AssertionError) /\
  new_effects CompartmentForm_UpdateAllFields s
  = UpdateAllFieldsCalled ::
    (if matched
     then [FieldsUpdated (mkFieldValues (String.concat "; " (c_id <$> comps))
                            None None None None None None "" None)]
     else []) /\
  _self_changes (cf_base s') = false /\
  _compartments s' = _compartments s.
Proof.
  intros sel comps s' matched. subst s'.
  assert (Hrun : CompartmentForm_UpdateAllFields s =
    (if matched then Ok tt else Raise AssertionError,
     set_cf_base
       (mkEditPanelForm (net_index (cf_base s)) (badges (cf_base s)) false sel
          (effects (cf_base s) ++
           UpdateAllFieldsCalled ::
           (if matched
            then [FieldsUpdated (mkFieldValues (String.concat "; " (c_id <$> comps))
                                   None None None None None None "" None)]
            else []))) s)).
  { unfold CompartmentForm_UpdateAllFields. py_run.
    cbn [cf_base set_cf_base _selected_idx add_effect set_self_changes _compartments
         net_index badges effects _self_changes].
    fold sel. fold comps. fold matched.
    destruct matched eqn:Em; [|reflexivity].
    clearbody comps.
    destruct (set_len sel =? 1) eqn:E1.
    - apply Z.eqb_eq in E1. apply Z.eqb_eq in Em. rewrite E1 in Em.
      destruct comps as [|c [|c' l]]; cbn [length] in Em; [lia| |lia].
      unfold set_cf_base, add_effect, set_self_changes. cbn -[String.concat].
      by rewrite <- app_assoc.
    - unfold set_cf_base, add_effect, set_self_changes. cbn -[String.concat].
      by rewrite <- app_assoc. }
  split_and!.
  - unfold eval. by rewrite Hrun.
  - apply new_effects_app. unfold exec. by rewrite Hrun.
  - unfold exec. by rewrite Hrun.
  - unfold exec. by rewrite Hrun.
Qed.
